(* ===== verification/_CoqProject ===== *)
-Q . S2P
Prelude.v
JsString.v
TimeFormat.v
Preferences.v
Slots.v
Browser.v
Loops.v
Auth.v
Scanner.v
Booking.v
Config.v
OldConfig.v
Notify.v
Api.v
Legacy.v
OldNotify.v
OldApi.v
OldScanner.v
Region.v
