(* ===== verification/Prelude.v ===== *)
(** * A verification development for facility_booker

    facility_booker is a TypeScript service. It drives a headless
    browser against the UBC PerfectMind facility-reservation portal:
    it logs in through CWL single sign-on, scans the courts for
    bookable slots, and runs the multi-step reservation pipeline. An
    Express API exposes these operations and a notifier reports to
    Telegram or by e-mail. The program that this development models is
    the latest revision of each source file:
      - [src/unnamed/part_003], lines 169-1154: [ubc.ts] with
        [ensureLoggedIn], [to24h], [durationMinutes],
        [extractSlotsFromScheduler], [scanCourtsAndSlots],
        [checkAvailability] and [bookSlot];
      - [src/unnamed/part_001]: [index.ts], the Express routes;
      - [src/src/config/env.ts]: the configuration schema and the
        normalised [env];
      - [src/src/notify.ts]: the notifier;
      - [src/unnamed/part_006]: [checkRegion], a region-name check
        with a module-level cache, shipped beside the booker.
    Older revisions of these files also ship in the repository. They
    are modelled too, to compare the revisions: the older scanner
    [src/src/ubc.ts] ([Legacy.v]), the older [env.ts] [part_004]
    ([OldConfig.v]), the older notifier [part_000] ([OldNotify.v]),
    the two older APIs of [src/src/index.ts] ([OldApi.v]), and the
    earliest scanner [part_002] with the stub revision of [part_003]
    lines 1-168 ([OldScanner.v]). [part_003] lines 1155-1598 repeat
    lines 169-633 without the booking types, so the same definitions
    model them.

    How the parts interact: the API validates a request and calls
    [checkAvailability] or [bookSlot]. Each of these launches a
    browser and calls [ensureLoggedIn] whenever the portal shows a
    Login affordance. [bookSlot] also re-authenticates in the middle of
    step 2. The API hands the result to [notify]. [env] is read by the
    API (bearer token) and by [notify] (Telegram and SMTP blocks).

    ** How the program is modelled

    The portal is an uncontrolled third party. The development
    therefore separates the code from its environment.
    - The code is translated into Rocq functions. Pure helpers (time
      parsing, filters, sorting, validation) become plain functions.
      Browser-driving code becomes a state-and-exception monad [M]
      ([Browser.v]) over an explicit browser state: the browser's
      lifecycle, the open tabs with their URL and DOM snapshot, the
      trace of effects performed so far, and the clock's ISO date. A
      Playwright exception is a value [Throw e], and [try]/[catch]/
      [finally] are combinators of the monad. The early [return]s of
      [bookSlot] are a second layer [EM] ([Booking.v]) whose left
      values are the returned results.
    - The portal is a type class [Portal]: an oracle that answers
      each effect (navigation, click, fill, wait, script) given the
      history of the session. The answer is the updated page,
      possibly a new tab, or an error. Every theorem about a browser
      operation holds for every portal. Concrete portals appear only
      in the witnesses.
    - Read-only DOM queries ([isVisible], [innerText], [count],
      [getAttribute], and read-only [evaluate] scripts) are pure
      functions of the DOM snapshot of the tab they query.
    - [fetch] and nodemailer are the type class [Transport]
      ([Notify.v]); [notify] returns the sends it performed with its
      value or its error. zod's e-mail predicate is a Section variable
      of [Config.v].

    ** Files, in dependency order
    - [Prelude.v] (this file): the [fb_scope] notations for the
      JavaScript idioms [a || b] on strings and [o ?? d] on optional
      values; the ordered fallback chains [first_match] and
      [first_some], which the code uses for selector candidates and
      regular-expression alternatives; the [fb] hint database; shared
      list and option lemmas; tactics.
    - [JsString.v]: the JavaScript string built-ins the code calls
      ([trim], [toLowerCase], [includes], [startsWith], [split],
      [padStart], [parseInt], [Number], [toString]) on ASCII strings.
    - [TimeFormat.v]: [to24h], [durationMinutes], the 24-hour to
      12-hour label of [bookSlot] step 1, and the time-range regular
      expression of [extractSlotsFromScheduler]. [NaN] is [None] and
      is printed ["NaN"] where the code would print it.
    - [Preferences.v]: the [Preferences] type, its request schema,
      and the per-slot preference filter.
    - [Slots.v]: the [Slot] type, the sort comparator of
      [checkAvailability], the sort, and the stub slot.
    - [Browser.v]: the browser state, the effects and the portal
      interface, the monad, the primitive operations, and the session
      lifecycle (launch, context, page, close). Its Logics section
      holds three program logics used by the later files: [keeps_today]
      (the clock date is unchanged), [yields] (a property of the
      returned value), and [grows] (at most n effects are appended to
      the trace), with the hint database [grows] and the tactic
      [grows_auto]; and [safe] (from an open tab, never throws and
      keeps the tab open), with [keeps_live], the database [recover]
      and the tactic [recover_auto]; and [emits] (every appended event
      satisfies a predicate), with the database [emits] and the tactic
      [emits_auto]; and [runs] (total correctness: the computation
      returns), for portals that are [reliable] (they answer every
      effect).
    - [Loops.v]: the counted loop [for (let i = lo; i < hi; i++)] as
      [for_acc], defined with Equations by well-founded recursion on
      [hi - i], its equation with the structural [fold_m] over the
      indices, and its invariant, clock and cost rules.
    - [Auth.v]: [ensureLoggedIn] and the authentication state machine
      of the spec, with a refinement theorem.
    - [Scanner.v]: [extractSlotsFromScheduler], [scanCourtsAndSlots],
      [checkAvailability].
    - [Booking.v]: [bookSlot] as five step functions (slot selection;
      reserve with overlays, attendee count and re-authentication;
      attendee selection; payment; place order and classification),
      composed as in the code, with the early returns, the catch and
      the finally. Its section on the order of the steps numbers the
      clicks that move a booking forward (tile, Reserve, Next, Place My
      Order) and follows a trace with the gate [gate]/[run_gate]; the
      logic [gates] proves that the steps pass it.
    - [Config.v]: [EnvSchema.safeParse], the fail-fast exit, and the
      normalised [env].
    - [OldConfig.v]: the older [env.ts], with [ubc.baseUrl] and the
      [EMAIL_TO || EMAIL_FROM] recipient.
    - [Notify.v]: [sendTelegram], [sendEmail] and [notify].
    - [Api.v]: JSON values, zod's parsers, the schemas of [index.ts],
      [requireBearer], the handlers of [/], [/health], [/check_now],
      [/notify] and [/book], and [app], which routes a request to them.
      A route's browser effects are those of the function it calls.
    - [Legacy.v]: the older [src/src/ubc.ts]: its [parseTimeFromText],
      its table-based [scanSingleCourtPage], its [scanCourtsAndSlots]
      that catches each court's error, and its [checkAvailability]
      that falls back to the stub on a scan error.
    - [OldNotify.v]: the older [sendEmail], [sendTelegram] and
      [notifyAny], which read [process.env] directly.
    - [OldApi.v]: the two older revisions of [index.ts], as modules
      [V1] and [V2] over the JSON values and parsers of [Api.v].
    - [OldScanner.v]: the earliest scanner of [part_002] (duration
      radio, players select, time buttons), its placeholder module, and
      the stub revision of [part_003], over the older [env].
    - [Region.v]: [checkRegion] of [part_006] and its module-level
      [Set] [validRegions], a [gset string] threaded explicitly
      through a sequence of calls ([run]) that share it, with the sets
      the module can reach as an inductive relation. The [check]
      argument (by default [isValidHostLabel] of a library) is a
      parameter of every theorem.

    ** Theorems, by group
    - Time format: [to24h] is correct on every 12-hour label; a round
      trip through the booking label gives back the same time;
      [durationMinutes] is the signed difference of the two times (so
      negative across midnight) and is never NaN on outputs of [to24h];
      [to24h] checks the shape of a label, not its range: every hour
      0-99 and minute field 00-99 is converted with the 12-hour
      arithmetic unchecked (13:00 PM gives 25:00).
    - Preferences: the filter's exact condition, and monotonicity (a
      wider window or a lower minimum never drops a slot).
    - Slots: the sort is a stable permutation that is sorted by
      (date, time) in the code-point order of the strings, an order
      stated apart from the code's comparator.
    - Auth: on an authenticated page the flow performs no effect
      (idempotent); every run follows the spec's state machine, whose
      credential form only accepts the configured user and then the
      configured password, and ends in the state its result names; on
      a reliable portal, with the credentials set, the flow always
      returns a page, by a run of the machine that ends back on the
      known page or on the court list (liveness).
    - Scanner: a returned list is the stub or non-empty, sorted and
      filtered, with non-empty locations; the browser is closed on
      every exit of the guarded block; at most 30 effects are
      performed while scanning; on every portal, a failure of
      [newContext] leaves the browser running (it is created before
      the [try]).
    - Booking: a success means Place My Order was clicked during the
      call and reports the requested time and duration with the
      facility name read from the page [bookSlot] itself opened; every
      result is well formed; [bookSlot] always returns a result and
      closes the browser once the page exists; at most 55 effects are
      performed; the clicks of the steps (tile, Reserve, Next, Place My
      Order) come in order, none skipped or repeated after a later one,
      each after the previous one was answered.
    - Config and Notify: when the process starts, and what [env]
      holds; [notify]'s three routes written out: the exact Telegram
      post when a non-empty chat id exists (its failure is thrown,
      with no e-mail tried), else the exact mail when SMTP and a
      recipient exist, else no send and the no-notifier error.
    - Api: the bearer check is exact equality with the configured
      token; a refused request has no effect; [/book] is [bookSlot]
      followed by the mapping of its result to a status, written out
      branch by branch, and a 200 answer means an order was placed; [/check_now] end to
      end answers the stub or sorted, filtered slots, or 400; the preference
      schema round-trips exactly the values within its bounds; the
      booking schema's guarantees.
    - Legacy: [parseTimeFromText] agrees with [to24h] wherever [to24h]
      answers (an equivalence of the two revisions); the older scanner
      never throws, and its fallback block always returns a non-empty
      list, as the spec's error policy asks; its court loop keeps the
      invariant that every collected slot is inside the preference
      window, with a location and the preferred duration.
    - Earliest scanner: its court loop keeps the invariant that every
      slot is dated today, has the duration asked for and an hour inside
      the window; it performs at most 50 effects; the stub revision
      returns only the stub.
    - Older API and notifier: the second API mailed only with a host,
      credentials and a sender; the first answered [ok] without
      sending and let scan errors go unanswered; the older
      [sendTelegram] ignores the HTTP status.
    - Region check: the cache only holds regions that some caller's
      check accepted (by rule induction on the reachable sets); an
      accepted region stays accepted for every later caller, whatever
      check it passes, so the cache is shared across checks; the
      outcomes of any sequence of calls refine a stateless contract (a
      call is accepted exactly when its check or an earlier check for
      the same region accepted it); a second identical call changes
      nothing.
    - Scenarios, as concrete Examples on small portals and inputs
      (they illustrate, the theorems above are the claims): the spec's
      booking scenarios C and D; SMTP is enabled without credentials;
      [EMAIL_FROM] is never a recipient; a portal error of a scan is
      answered 400, and an invalid [/notify] body 502; the earliest
      scanner reports booked times and a time 21:75 as slots.

    ** Bounds and fuel
    Every loop of the code is over a finite list: the DOM elements
    the code iterates, the first [min(count, 10)] courts, or the fixed
    selector lists. The model is structurally recursive and needs no
    fuel, except the earliest scanner's court loop, which is written
    as the code's counted [for] loop ([Loops.for_acc]) and terminates
    by its variant [hi - i]. The effect bounds are sums over the code's paths: 11 for
    [ensureLoggedIn], 3 per court (so 30 for at most ten courts) in
    the scan, and 51 for the body of [bookSlot] plus the session's
    launch, context, page and close; 5 per court (so 50) in the
    earliest scanner.

    ** Not modelled
    - Unicode: strings are ASCII, so non-ASCII whitespace is not
      trimmed.
    - Fractional numbers from request bodies: numbers are integers
      ([Z]).
    - Normalisation done by the WHATWG URL parser (dot segments,
      percent-encoding).
    - Console logging, which has no effect on results, and reads whose
      results only feed a log.
    - [app.listen] (binding the port), dotenv's loading of [.env],
      the formatting of zod's error messages and its e-mail and URL
      checks (parameters of [Api.v]); the Dockerfile ([part_005]),
      which only builds and starts the service; [isValidHostLabel],
      the library default of [checkRegion]'s check. *)

From stdpp Require Export base list strings.
From Stdlib Require Export ZArith Lia Ascii.
From Stdlib Require String DecimalString DecimalNat.
Export DecimalString.

Declare Scope fb_scope.
Delimit Scope fb_scope with fb.
Open Scope fb_scope.

(** JavaScript [a || b] on strings: [a] unless it is the empty string. *)
Definition str_or (a b : string) : string :=
  match a with "" => b | _ => a end.
Notation "a '||ₛ' b" := (str_or a b) (at level 50, left associativity) : fb_scope.

(** JavaScript [o ?? d]: the value of [o] unless it is [undefined]/[null]. *)
Notation "o '??' d" := (default d o) (at level 50, left associativity) : fb_scope.

(** An ordered fallback chain: the first candidate accepted by the probe.
    The code uses this for selector candidates (CWL button, Next button). *)
Fixpoint first_match {A} (p : A -> bool) (l : list A) : option A :=
  match l with
  | [] => None
  | x :: l' => if p x then Some x else first_match p l'
  end.

Create HintDb fb discriminated.
Create Rewrite HintDb fb_simpl.

(** The first candidate for which a matcher succeeds: backtracking over an
    ordered list of alternatives, as a regular expression engine does. *)
Fixpoint first_some {A B} (f : A -> option B) (l : list A) : option B :=
  match l with
  | [] => None
  | x :: l' => match f x with Some y => Some y | None => first_some f l' end
  end.

Ltac invc H := inversion H; subst; clear H.

(** Case on the first boolean [if] in the goal, keeping the equation. *)
Ltac case_if :=
  match goal with
  | |- context [if ?b then _ else _] =>
      let E := fresh "E" in destruct b eqn:E
  end.

Section Generic.
Context {A : Type}.

Lemma first_match_spec (p : A -> bool) l x :
  first_match p l = Some x <->
  exists l1 l2, l = l1 ++ x :: l2 /\ p x = true /\ Forall (fun y => p y = false) l1.
Proof.
  split.
  - induction l as [|y l IH]; simpl; [done|].
    destruct (p y) eqn:Hy.
    + intros [= ->]. by exists [], l.
    + intros (l1 & l2 & -> & Hx & Hl1)%IH. exists (y :: l1), l2. auto.
  - intros (l1 & l2 & -> & Hx & Hl1). induction Hl1 as [|y l1 Hy _ IH]; simpl.
    + by rewrite Hx.
    + by rewrite Hy.
Qed.

Lemma first_match_None (p : A -> bool) l :
  first_match p l = None <-> Forall (fun y => p y = false) l.
Proof.
  induction l as [|y l IH]; simpl; [split; auto|].
  destruct (p y) eqn:Hy; split.
  - done.
  - by intros Hf; invc Hf; congruence.
  - intros H. constructor; [done | by apply IH].
  - intros Hf. invc Hf. by apply IH.
Qed.

Lemma first_match_In (p : A -> bool) l x :
  first_match p l = Some x -> In x l /\ p x = true.
Proof.
  intros (l1 & l2 & -> & Hx & _)%first_match_spec.
  split; [apply in_or_app; simpl; auto | done].
Qed.
End Generic.

Lemma first_some_Some {A B} (f : A -> option B) l y :
  first_some f l = Some y -> exists x, In x l /\ f x = Some y.
Proof.
  induction l as [|x l IH]; simpl; [done|].
  destruct (f x) eqn:E; [intros [= <-]; eauto|].
  intros (x' & ? & ?)%IH. eauto.
Qed.

Lemma str_or_nonempty a b : b <> "" -> (a ||ₛ b) <> "".
Proof. destruct a; done. Qed.

Lemma str_or_left a b : a <> "" -> (a ||ₛ b) = a.
Proof. destruct a; done. Qed.

(** The identity match on an option, as left by [simpl] after a lookup. *)
Lemma option_match_id {A} (o : option A) : match o with Some v => Some v | None => None end = o.
Proof. by destruct o. Qed.

(** Exhaustive checking of a bounded range: the reflection principle used
    for properties of small numeric domains (hours, minutes). *)
Lemma forallb_seq_lt (f : nat -> bool) n :
  forallb f (seq 0 n) = true -> forall k, (k < n)%nat -> f k = true.
Proof.
  intros H k Hk. apply forallb_forall with (x := k) in H; [done|].
  apply in_seq. lia.
Qed.

#[export] Hint Resolve str_or_nonempty str_or_left : fb.
