(* ===== verification/JsString.v ===== *)
(** * JavaScript string built-ins used by facility_booker

    The ECMAScript string operations the TypeScript code calls, on ASCII
    strings: [trim], [toLowerCase]/[toUpperCase], [includes],
    [startsWith], [split] with a one-character separator,
    [padStart], [parseInt(s, 10)], [Number(s)] and [toString] on
    integers, with the lemmas the components share.
    [parseInt] and [Number] return [None] for [NaN]. [Number] is
    modelled on integer literals, which are the only strings the code
    passes to it. *)

From S2P Require Import Prelude.

Module Js.

(** ** Whitespace and trimming (ASCII part of the JS [WhiteSpace]/[LineTerminator] set) *)

Definition is_ws (c : ascii) : bool := Ascii.is_space c.

Fixpoint trim_start (s : string) : string :=
  match s with
  | "" => ""
  | String c r => if is_ws c then trim_start r else s
  end.

Definition trim_end (s : string) : string := String.rev (trim_start (String.rev s)).

(** [s.trim()] *)
Definition trim (s : string) : string := trim_end (trim_start s).

(** ** Case mapping *)

Definition lower_char (c : ascii) : ascii :=
  let n := nat_of_ascii c in
  if (65 <=? n)%nat && (n <=? 90)%nat then ascii_of_nat (n + 32) else c.

Definition upper_char (c : ascii) : ascii :=
  let n := nat_of_ascii c in
  if (97 <=? n)%nat && (n <=? 122)%nat then ascii_of_nat (n - 32) else c.

Fixpoint map_chars (f : ascii -> ascii) (s : string) : string :=
  match s with "" => "" | String c r => String (f c) (map_chars f r) end.

(** [s.toLowerCase()], [s.toUpperCase()] *)
Definition to_lower (s : string) : string := map_chars lower_char s.
Definition to_upper (s : string) : string := map_chars upper_char s.

(** ** Searching *)

Fixpoint prefixb (p s : string) : bool :=
  match p, s with
  | "", _ => true
  | String a p', String b s' => Ascii.eqb a b && prefixb p' s'
  | _, _ => false
  end.

(** [s.startsWith(p)] *)
Definition starts_with (s p : string) : bool := prefixb p s.

(** [s.includes(p)] *)
Fixpoint includes (s p : string) : bool :=
  prefixb p s || match s with "" => false | String _ s' => includes s' p end.

(** ** Splitting and padding *)

Fixpoint split_go (sep : ascii) (s acc : string) : list string :=
  match s with
  | "" => [String.rev acc]
  | String c r =>
      if Ascii.eqb c sep then String.rev acc :: split_go sep r ""
      else split_go sep r (String c acc)
  end.

(** [s.split(sep)] for a one-character separator. *)
Definition split (sep : ascii) (s : string) : list string := split_go sep s "".

Fixpoint repeat_char (n : nat) (c : ascii) : string :=
  match n with O => "" | S n' => String c (repeat_char n' c) end.

(** [s.padStart(n, c)] for a one-character pad string. *)
Definition pad_start (n : nat) (c : ascii) (s : string) : string :=
  repeat_char (n - String.length s) c +:+ s.

(** ** Numbers *)

Definition digit (c : ascii) : option nat := Ascii.is_nat c.

Definition is_digit (c : ascii) : bool := bool_decide (is_Some (digit c)).

(** The longest prefix of decimal digits, and the rest. *)
Fixpoint span_digits (s : string) : string * string :=
  match s with
  | String c r =>
      match digit c with
      | Some _ => let '(ds, rest) := span_digits r in (String c ds, rest)
      | None => ("", s)
      end
  | "" => ("", "")
  end.

Fixpoint digits_value_acc (s : string) (acc : nat) : nat :=
  match s with
  | "" => acc
  | String c r => digits_value_acc r (10 * acc + default 0 (digit c))
  end.

Definition digits_value (s : string) : nat := digits_value_acc s 0.

Definition sign_of (s : string) : Z * string :=
  match s with
  | String "-" r => (-1, r)%Z
  | String "+" r => (1, r)%Z
  | _ => (1, s)%Z
  end.

(** [parseInt(s, 10)]: leading whitespace, an optional sign, then the
    longest run of digits; [NaN] when there is no digit. *)
Definition parse_int (s : string) : option Z :=
  let '(sg, r) := sign_of (trim_start s) in
  let '(ds, _) := span_digits r in
  match ds with
  | "" => None
  | _ => Some (sg * Z.of_nat (digits_value ds))%Z
  end.

(** [Number(s)] on integer literals: the empty or blank string is [0];
    anything that is not entirely a signed digit string is [NaN]. *)
Definition number (s : string) : option Z :=
  let t := trim s in
  match t with
  | "" => Some 0%Z
  | _ =>
      let '(sg, r) := sign_of t in
      let '(ds, rest) := span_digits r in
      match ds, rest with
      | String _ _, "" => Some (sg * Z.of_nat (digits_value ds))%Z
      | _, _ => None
      end
  end.

(** [n.toString()] on naturals and integers. *)
Definition nat_to_string (n : nat) : string := NilEmpty.string_of_uint (Nat.to_uint n).

Definition Z_to_string (z : Z) : string :=
  if (z <? 0)%Z then "-" +:+ nat_to_string (Z.to_nat (- z)) else nat_to_string (Z.to_nat z).

(** ** Lemmas *)

Lemma span_digits_uint u :
  span_digits (NilEmpty.string_of_uint u) = (NilEmpty.string_of_uint u, "").
Proof. induction u; simpl; try rewrite IHu; done. Qed.

Lemma digits_value_acc_uint u acc :
  digits_value_acc (NilEmpty.string_of_uint u) acc = Nat.of_uint_acc u acc.
Proof.
  revert acc; induction u; intros acc; simpl; rewrite ?IHu, ?Nat.tail_mul_spec;
    f_equal; lia.
Qed.

Lemma digits_value_nat_to_string n : digits_value (nat_to_string n) = n.
Proof.
  unfold digits_value, nat_to_string. rewrite digits_value_acc_uint.
  apply DecimalNat.Unsigned.of_to.
Qed.

Lemma nat_to_string_nonempty n : nat_to_string n <> "".
Proof.
  unfold nat_to_string. intros E.
  assert (Nat.to_uint n = Decimal.Nil) as Hn.
  { destruct (Nat.to_uint n); done. }
  pose proof (DecimalNat.Unsigned.of_to n) as Hof. rewrite Hn in Hof.
  simpl in Hof. subst n. discriminate Hn.
Qed.

Lemma nat_to_string_head n :
  exists c r d, nat_to_string n = String c r /\ digit c = Some d.
Proof.
  unfold nat_to_string. pose proof (nat_to_string_nonempty n) as Hne.
  unfold nat_to_string in Hne.
  destruct (Nat.to_uint n); simpl in *; first [done | by eauto].
Qed.

Lemma span_digits_nat_to_string n :
  span_digits (nat_to_string n) = (nat_to_string n, "").
Proof. apply span_digits_uint. Qed.

(** [parseInt(n.toString(), 10) = n] *)
Lemma parse_int_nat_to_string n : parse_int (nat_to_string n) = Some (Z.of_nat n).
Proof.
  destruct (nat_to_string_head n) as (c & r & d & Hs & Hd).
  unfold parse_int. rewrite Hs. simpl.
  assert (is_ws c = false) as ->.
  { destruct c as [[] [] [] [] [] [] [] []]; done. }
  rewrite <- Hs.
  assert (sign_of (nat_to_string n) = (1%Z, nat_to_string n)) as ->.
  { rewrite Hs. destruct c as [[] [] [] [] [] [] [] []]; done. }
  rewrite span_digits_nat_to_string, Hs, <- Hs, digits_value_nat_to_string.
  f_equal; lia.
Qed.

Lemma prefixb_app p s : prefixb p (p +:+ s) = true.
Proof.
  induction p as [|a p IH]; simpl; [done|].
  by rewrite Ascii.eqb_refl, IH.
Qed.

Lemma prefixb_inv p s : prefixb p s = true -> exists t, s = p +:+ t.
Proof.
  revert s. induction p as [|a p IH]; intros [|b s]; simpl; try done; try by eexists.
  intros [->%Ascii.eqb_eq (t & ->)%IH]%andb_prop. by eexists.
Qed.

(** [(p + t).slice(p.length)] *)
Lemma substring_app p t :
  String.substring (String.length p) (String.length (p +:+ t) - String.length p) (p +:+ t) = t.
Proof.
  induction p as [|a p IH]; simpl; [|done].
  rewrite Nat.sub_0_r. induction t as [|b t IHt]; simpl; [done|]. by f_equal.
Qed.

Lemma append_cons a s t : String a s +:+ t = String a (s +:+ t).
Proof. reflexivity. Qed.

Lemma includes_prefix s p : prefixb p s = true -> includes s p = true.
Proof. destruct s; simpl; intros ->; done. Qed.

Lemma includes_app s1 p s2 : includes (s1 +:+ p +:+ s2) p = true.
Proof.
  induction s1 as [|a s1 IH].
  - apply includes_prefix. exact (prefixb_app p s2).
  - rewrite append_cons. simpl. rewrite IH. apply orb_true_r.
Qed.

(** ** Strings of decimal digits *)

Fixpoint all_digits (s : string) : bool :=
  match s with "" => true | String c r => is_digit c && all_digits r end.

Lemma all_digits_app a b : all_digits (a +:+ b) = all_digits a && all_digits b.
Proof. induction a as [|c a IH]; [done|]. rewrite append_cons. simpl. by rewrite IH, andb_assoc. Qed.

Lemma all_digits_uint u : all_digits (NilEmpty.string_of_uint u) = true.
Proof. induction u; simpl; rewrite ?IHu; done. Qed.

Lemma all_digits_nat_to_string n : all_digits (nat_to_string n) = true.
Proof. apply all_digits_uint. Qed.

Lemma all_digits_pad_start n s : all_digits s = true -> all_digits (pad_start n "0" s) = true.
Proof.
  intros Hs. unfold pad_start. rewrite all_digits_app, Hs, andb_true_r.
  induction (n - String.length s)%nat; simpl; [done|]. by rewrite IHn0.
Qed.

Lemma rev_app_rev_app a acc t : String.rev_app (String.rev_app a acc) t = String.rev_app acc (a +:+ t).
Proof. revert acc. induction a as [|c a IH]; intros acc; simpl; [done|]. by rewrite IH. Qed.

Lemma append_nil a : a +:+ "" = a.
Proof. induction a as [|c a IH]; [done|]. by rewrite append_cons, IH. Qed.

Lemma rev_rev a : String.rev (String.rev a) = a.
Proof. unfold String.rev. by rewrite rev_app_rev_app, append_nil. Qed.

Lemma all_digits_rev_app a acc :
  all_digits (String.rev_app a acc) = all_digits a && all_digits acc.
Proof.
  revert acc. induction a as [|c a IH]; intros acc; simpl; [done|].
  rewrite IH. simpl. destruct (is_digit c), (all_digits a), (all_digits acc); done.
Qed.

Lemma is_digit_not_ws c : is_digit c = true -> is_ws c = false.
Proof. destruct c as [[] [] [] [] [] [] [] []]; done. Qed.

Lemma trim_start_digits c r : is_digit c = true -> trim_start (String c r) = String c r.
Proof. intros Hc. simpl. by rewrite is_digit_not_ws. Qed.

Lemma trim_digits a : all_digits a = true -> trim a = a.
Proof.
  intros Ha. unfold trim. destruct a as [|c r]; [done|].
  simpl in Ha. apply andb_true_iff in Ha as [Hc Hr].
  rewrite trim_start_digits by done. unfold trim_end.
  assert (all_digits (String.rev (String c r)) = true) as Hrev.
  { unfold String.rev. rewrite all_digits_rev_app. simpl. by rewrite Hc, Hr. }
  destruct (String.rev (String c r)) as [|c' r'] eqn:E.
  - exfalso. apply (f_equal String.rev) in E. rewrite rev_rev in E. discriminate E.
  - simpl in Hrev. apply andb_true_iff in Hrev as [Hc' _].
    rewrite trim_start_digits, <- E, rev_rev by done. done.
Qed.

Lemma span_digits_all a : all_digits a = true -> span_digits a = (a, "").
Proof.
  induction a as [|c a IH]; simpl; [done|]. intros [Hc Ha]%andb_true_iff.
  unfold is_digit in Hc. apply bool_decide_eq_true in Hc as [d Hd].
  rewrite Hd, IH by done. done.
Qed.

Lemma digit_not_sign c : is_digit c = true -> forall r, sign_of (String c r) = (1%Z, String c r).
Proof. destruct c as [[] [] [] [] [] [] [] []]; done. Qed.

(** [Number(s)] on a non-empty digit string is a number. *)
Lemma number_digits a : a <> "" -> all_digits a = true -> number a = Some (Z.of_nat (digits_value a)).
Proof.
  intros Hne Ha. unfold number. rewrite trim_digits by done.
  destruct a as [|c r]; [done|]. pose proof Ha as Ha'. simpl in Ha'.
  apply andb_true_iff in Ha' as [Hc _]. rewrite digit_not_sign by done.
  rewrite span_digits_all by done. f_equal. lia.
Qed.

Lemma split_go_no_sep sep a t acc :
  forallb (fun c => negb (Ascii.eqb c sep)) (String.list_ascii_of_string a) = true ->
  split_go sep (a +:+ t) acc = split_go sep t (String.rev_app a acc).
Proof.
  revert acc. induction a as [|c a IH]; intros acc Ha; [done|].
  simpl in Ha. apply andb_true_iff in Ha as [Hc Ha]. rewrite append_cons. simpl.
  apply negb_true_iff in Hc. rewrite Hc. by apply IH.
Qed.

Lemma digits_no_colon a :
  all_digits a = true -> forallb (fun c => negb (Ascii.eqb c ":")) (String.list_ascii_of_string a) = true.
Proof.
  induction a as [|c a IH]; [done|]. simpl. intros [Hc Ha]%andb_true_iff.
  rewrite IH by done. destruct c as [[] [] [] [] [] [] [] []]; done.
Qed.

(** [(a + ":" + b).split(":")] on digit strings. *)
Lemma split_digits_colon a b :
  all_digits a = true -> all_digits b = true -> split ":" (a +:+ ":" +:+ b) = [a; b].
Proof.
  intros Ha Hb. unfold split. rewrite split_go_no_sep by (by apply digits_no_colon).
  change (":" +:+ b) with (String ":" b). cbn [split_go]. rewrite Ascii.eqb_refl.
  rewrite <- (append_nil b) at 1. rewrite split_go_no_sep by (by apply digits_no_colon).
  cbn [split_go]. unfold String.rev. rewrite !rev_app_rev_app. cbn [String.rev_app].
  by rewrite !append_nil.
Qed.

Lemma parse_int_digits a :
  a <> "" -> all_digits a = true -> parse_int a = Some (Z.of_nat (digits_value a)).
Proof.
  intros Hne Ha. destruct a as [|c r]; [done|]. pose proof Ha as Ha'. simpl in Ha'.
  apply andb_true_iff in Ha' as [Hc _]. unfold parse_int.
  rewrite trim_start_digits, digit_not_sign, span_digits_all by done. f_equal. lia.
Qed.

Lemma pad_start_nonempty n c s : s <> "" -> pad_start n c s <> "".
Proof. unfold pad_start. destruct (n - String.length s)%nat; simpl; [done|]. intros _ [=]. Qed.

Lemma Z_to_string_nonneg z : (0 <= z)%Z -> Z_to_string z = nat_to_string (Z.to_nat z).
Proof. intros Hz. unfold Z_to_string. destruct (Z.ltb_spec z 0); [lia | done]. Qed.

#[export] Hint Resolve nat_to_string_nonempty includes_app all_digits_nat_to_string
  all_digits_pad_start : fb.
#[export] Hint Rewrite parse_int_nat_to_string span_digits_nat_to_string
  digits_value_nat_to_string : fb_simpl.

End Js.
