(* ===== verification/TimeFormat.v ===== *)
(** * Time strings: 12-hour labels, 24-hour times, durations

    Models the scheduler parsing helpers of [ubc.ts]
    ([src/unnamed/part_003]):
    - [to24h] (lines 321-331), with its anchored, case-insensitive
      regular expression [^(\d{1,2}):(\d{2})\s*(AM|PM)$];
    - [durationMinutes] (lines 333-337);
    - the time-range regular expression of [extractSlotsFromScheduler]
      (lines 410-412), as a leftmost backtracking matcher;
    - the 24-hour to 12-hour label that [bookSlot] builds in step 1
      (lines 668-671).
    Numbers are [Z]. [None] stands for JavaScript's [NaN] (or
    [null], for a failed [match]); a [NaN] that reaches a string is
    printed ["NaN"], as the code would print it ([num_to_string]). *)

From S2P Require Import Prelude JsString.

Module TimeFormat.

(** ** Regular-expression pieces *)

(** [\s*], greedy: the whitespace run and the rest. *)
Fixpoint span_ws (s : string) : string * string :=
  match s with
  | String c r => if Js.is_ws c then let '(w, rest) := span_ws r in (String c w, rest) else ("", s)
  | "" => ("", "")
  end.

(** [\d{1,2}], greedy: the two-digit alternative is tried first. *)
Definition rx_d12 (s : string) : list (string * string) :=
  match s with
  | String a r =>
      if Js.is_digit a then
        match r with
        | String b r' =>
            if Js.is_digit b then [(String a (String b ""), r'); (String a "", r)]
            else [(String a "", r)]
        | "" => [(String a "", r)]
        end
      else []
  | "" => []
  end.

(** [:(\d{2})]: the two minute digits after the colon. *)
Definition rx_colon_mm (s : string) : option (string * string) :=
  match s with
  | String ":" (String m1 (String m2 r)) =>
      if Js.is_digit m1 && Js.is_digit m2 then Some (String m1 (String m2 ""), r) else None
  | _ => None
  end.

(** [(AM|PM)], case-sensitive when [ci] is false. *)
Definition rx_ampm (ci : bool) (s : string) : option (string * string) :=
  match s with
  | String a (String b r) =>
      let a' := if ci then Js.upper_char a else a in
      let b' := if ci then Js.upper_char b else b in
      if (Ascii.eqb a' "A" || Ascii.eqb a' "P") && Ascii.eqb b' "M"
      then Some (String a (String b ""), r) else None
  | _ => None
  end.

(** ** [to24h] *)

(** [/^(\d{1,2}):(\d{2})\s*(AM|PM)$/i]: the three groups. *)
Definition match_12h (t : string) : option (string * string * string) :=
  first_some (fun '(hh, r1) =>
    match rx_colon_mm r1 with
    | Some (mm, r2) =>
        let '(_, r3) := span_ws r2 in
        match rx_ampm true r3 with
        | Some (ap, "") => Some (hh, mm, ap)
        | _ => None
        end
    | None => None
    end) (rx_d12 t).

(** [String(x)] of a number that may be [NaN] ([None]). *)
Definition num_to_string (o : option Z) : string :=
  match o with Some z => Js.Z_to_string z | None => "NaN" end.

(** [function to24h(time12: string): string | null]. [h] is [NaN]
    ([None]) when [parseInt] finds no digit: [NaN === 12] is false and
    [NaN + 12] is [NaN]. *)
Definition to24h (time12 : string) : option string :=
  match match_12h (Js.trim time12) with
  | None => None
  | Some (hh, mm, ampm) =>
      let h := Js.parse_int hh in
      let isPM := bool_decide (Js.to_upper ampm = "PM") in
      let h := match h with
               | Some h =>
                   Some (if bool_decide (h = 12%Z) && negb isPM then 0%Z
                         else if negb (bool_decide (h = 12%Z)) && isPM then (h + 12)%Z
                         else h)
               | None => None
               end in
      Some (Js.pad_start 2 "0" (num_to_string h) +:+ ":" +:+ mm)
  end.

(** ** [durationMinutes] *)

(** [s.split(":").map(Number)] destructured as [[h, m]]: a missing or
    non-numeric component is [NaN]. *)
Definition hm_of (s : string) : option (Z * Z) :=
  match map Js.number (Js.split ":" s) with
  | Some h :: Some m :: _ => Some (h, m)
  | _ => None
  end.

(** [function durationMinutes(start24, end24): number] *)
Definition durationMinutes (start24 end24 : string) : option Z :=
  match hm_of start24, hm_of end24 with
  | Some (sh, sm), Some (eh, em) => Some ((eh * 60 + em) - (sh * 60 + sm))%Z
  | _, _ => None
  end.

(** ** The time-range regular expression of [extractSlotsFromScheduler] *)

(** [([0-9]{1,2}:[0-9]{2}\s*(?:AM|PM))]: the matched group text and the rest. *)
Definition rx_time12 (s : string) : list (string * string) :=
  omap (fun '(hh, r1) =>
    match rx_colon_mm r1 with
    | Some (mm, r2) =>
        let '(ws, r3) := span_ws r2 in
        match rx_ampm false r3 with
        | Some (ap, r4) => Some (hh +:+ ":" +:+ mm +:+ ws +:+ ap, r4)
        | None => None
        end
    | None => None
    end) (rx_d12 s).

(** The whole pattern, anchored at the start of [s]: the two groups. *)
Definition match_range_at (s : string) : option (string * string) :=
  first_some (fun '(g1, r) =>
    let '(_, r1) := span_ws r in
    match r1 with
    | String "-" r2 =>
        let '(_, r3) := span_ws r2 in
        first_some (fun '(g2, _) => Some (g1, g2)) (rx_time12 r3)
    | _ => None
    end) (rx_time12 s).

(** [titleAttr.match(...)]: the leftmost match. *)
Fixpoint match_time_range (s : string) : option (string * string) :=
  match match_range_at s with
  | Some m => Some m
  | None => match s with "" => None | String _ s' => match_time_range s' end
  end.

(** ** The 12-hour label of [bookSlot] step 1 *)

(** [const [hour, minute] = request.time_24h.split(":").map(Number);
     const hour12 = hour === 0 ? 12 : hour > 12 ? hour - 12 : hour;
     const ampm = hour >= 12 ? "PM" : "AM";
     const time12h = `${hour12}:${minute.toString().padStart(2, "0")} ${ampm}`;]
    A [NaN] hour is neither [0] nor above 12, so [hour12] is [NaN] and
    the label says "AM". [None] is the [TypeError] of
    [minute.toString()] when the time has no colon and [minute] is
    [undefined]. *)
Definition time12h_of (time_24h : string) : option string :=
  match map Js.number (Js.split ":" time_24h) with
  | hour :: minute :: _ =>
      let hour12 := match hour with
                    | Some h => Some (if bool_decide (h = 0%Z) then 12%Z
                                      else if bool_decide (12 < h)%Z then (h - 12)%Z else h)
                    | None => None
                    end in
      let ampm := match hour with
                  | Some h => if bool_decide (12 <= h)%Z then "PM" else "AM"
                  | None => "AM"
                  end in
      Some (num_to_string hour12 +:+ ":" +:+ Js.pad_start 2 "0" (num_to_string minute)
            +:+ " " +:+ ampm)
  | _ => None
  end.

(** ** [to24h] yields two digit groups *)

Lemma rx_d12_digits t hh r :
  In (hh, r) (rx_d12 t) -> hh <> "" /\ Js.all_digits hh = true.
Proof.
  unfold rx_d12. destruct t as [|a t]; [done|].
  destruct (Js.is_digit a) eqn:Ha; [|done].
  destruct t as [|b t]; simpl.
  - intros [[= <- <-]|[]]. simpl. by rewrite Ha.
  - destruct (Js.is_digit b) eqn:Hb; simpl.
    + intros [[= <- <-]|[[= <- <-]|[]]]; simpl; by rewrite ?Ha, ?Hb.
    + intros [[= <- <-]|[]]. simpl. by rewrite Ha.
Qed.

Lemma rx_colon_mm_digits r mm r' :
  rx_colon_mm r = Some (mm, r') -> mm <> "" /\ Js.all_digits mm = true.
Proof.
  unfold rx_colon_mm. repeat case_match; try discriminate; subst.
  destruct (Js.is_digit _ && Js.is_digit _) eqn:E; [|discriminate].
  intros [= <- _]. apply andb_true_iff in E as [E1 E2]. simpl. by rewrite E1, E2.
Qed.

Lemma match_12h_digits t hh mm ap :
  match_12h t = Some (hh, mm, ap) ->
  hh <> "" /\ Js.all_digits hh = true /\ mm <> "" /\ Js.all_digits mm = true.
Proof.
  unfold match_12h. intros ([hh' r1] & Hin & Hf)%first_some_Some.
  destruct (rx_colon_mm r1) as [[mm' r2]|] eqn:Hc; [|discriminate].
  destruct (span_ws r2) as [w r3]. destruct (rx_ampm true r3) as [[ap' [|]]|]; try discriminate.
  injection Hf as <- <- <-. apply rx_d12_digits in Hin. apply rx_colon_mm_digits in Hc. naive_solver.
Qed.

(** Every output of [to24h] is ["<digits>:<digits>"]. *)
Lemma to24h_digits time12 out :
  to24h time12 = Some out ->
  exists a b, a <> "" /\ Js.all_digits a = true /\ b <> "" /\ Js.all_digits b = true /\
    out = a +:+ ":" +:+ b.
Proof.
  unfold to24h. destruct (match_12h (Js.trim time12)) as [[[hh mm] ap]|] eqn:E; [|done].
  apply match_12h_digits in E as (Hh & Hhd & Hm & Hmd).
  rewrite Js.parse_int_digits by done. simpl.
  intros [= <-]. eexists _, mm. split; [|split; [|split; [done|split; [done|reflexivity]]]].
  - apply Js.pad_start_nonempty. rewrite Js.Z_to_string_nonneg by (repeat case_match; lia).
    apply Js.nat_to_string_nonempty.
  - apply Js.all_digits_pad_start. rewrite Js.Z_to_string_nonneg by (repeat case_match; lia).
    apply Js.all_digits_nat_to_string.
Qed.

Lemma hm_of_to24h time12 out :
  to24h time12 = Some out -> exists h m, hm_of out = Some (h, m).
Proof.
  intros (a & b & Ha & Had & Hb & Hbd & ->)%to24h_digits.
  unfold hm_of. rewrite Js.split_digits_colon by done. simpl.
  rewrite !Js.number_digits by done. eauto.
Qed.

(** [durationMinutes] of two outputs of [to24h] is always a number,
    never [NaN]. *)
Theorem durationMinutes_to24h t1 t2 s e :
  to24h t1 = Some s -> to24h t2 = Some e -> exists d, durationMinutes s e = Some d.
Proof.
  intros (h1 & m1 & H1)%hm_of_to24h (h2 & m2 & H2)%hm_of_to24h.
  unfold durationMinutes. rewrite H1, H2. eauto.
Qed.

Lemma durationMinutes_to24h_witness :
  to24h "3:00 PM" = Some "15:00" /\ to24h "4:30 PM" = Some "16:30" /\
  exists d, durationMinutes "15:00" "16:30" = Some d.
Proof.
  split; [reflexivity|]. split; [reflexivity|].
  exact (durationMinutes_to24h "3:00 PM" "4:30 PM" "15:00" "16:30" eq_refl eq_refl).
Defined.

(** ** Canonical forms, used to state the properties *)

Definition pad2 (n : nat) : string := Js.pad_start 2 "0" (Js.nat_to_string n).

(** ["HH:MM"], zero-padded 24-hour form. *)
Definition fmt24 (h m : nat) : string := pad2 h +:+ ":" +:+ pad2 m.

Inductive Meridiem := AM | PM.

Definition meridiem_str (ap : Meridiem) : string := match ap with AM => "AM" | PM => "PM" end.

(** ["h:mm AM"], the portal's label with an unpadded hour. *)
Definition label12 (h m : nat) (ap : Meridiem) : string :=
  Js.nat_to_string h +:+ ":" +:+ pad2 m +:+ " " +:+ meridiem_str ap.

(** The wall-clock hour of a 12-hour label. *)
Definition hour24 (h : nat) (ap : Meridiem) : nat :=
  match ap with
  | AM => if decide (h = 12%nat) then 0 else h
  | PM => if decide (h = 12%nat) then 12 else h + 12
  end.

(** The portal's title format pads the hour: ["03:00 PM"]. *)
Definition label12_padded (h m : nat) (ap : Meridiem) : string :=
  pad2 h +:+ ":" +:+ pad2 m +:+ " " +:+ meridiem_str ap.

(** ** Bounded checks, decided by evaluation *)

Definition to24h_ok (h m : nat) (ap : Meridiem) : bool :=
  bool_decide (to24h (label12 h m ap) = Some (fmt24 (hour24 h ap) m)) &&
  bool_decide (to24h (label12_padded h m ap) = Some (fmt24 (hour24 h ap) m)).

Definition to24h_shape_ok (h m : nat) (ap : Meridiem) : bool :=
  bool_decide (to24h (label12 h m ap) = Some (fmt24 (hour24 h ap) m)).

Definition label_ok (h m : nat) (ap : Meridiem) : bool :=
  bool_decide (time12h_of (fmt24 (hour24 h ap) m) = Some (label12 h m ap)).

Definition hm_ok (h m : nat) : bool :=
  bool_decide (hm_of (fmt24 h m) = Some (Z.of_nat h, Z.of_nat m)).

Lemma all_hours_minutes (P : nat -> nat -> Meridiem -> bool) :
  forallb (fun h => forallb (fun m => P (S h) m AM && P (S h) m PM) (seq 0 60)) (seq 0 12) = true ->
  forall h m ap, (1 <= h <= 12)%nat -> (m < 60)%nat -> P h m ap = true.
Proof.
  intros Hall h m ap Hh Hm. destruct h as [|h]; [lia|].
  pose proof (forallb_seq_lt _ _ Hall h ltac:(lia)) as Hrow. cbv beta in Hrow.
  pose proof (forallb_seq_lt _ _ Hrow m Hm) as Hcell. cbv beta in Hcell.
  apply andb_true_iff in Hcell as [HA HP]. by destruct ap.
Qed.

Lemma hm_of_fmt24 h m : (h < 24)%nat -> (m < 60)%nat ->
  hm_of (fmt24 h m) = Some (Z.of_nat h, Z.of_nat m).
Proof.
  intros Hh Hm.
  assert (Hall : forallb (fun h => forallb (hm_ok h) (seq 0 60)) (seq 0 24) = true)
    by (vm_compute; reflexivity).
  pose proof (forallb_seq_lt _ _ (forallb_seq_lt _ _ Hall h Hh) m Hm) as Hc.
  by apply bool_decide_eq_true in Hc.
Qed.

(** ** Properties *)

(** Every label in range passes both bounded checks of [to24h]. *)
Lemma to24h_ok_in_range h m ap : (1 <= h <= 12)%nat -> (m < 60)%nat -> to24h_ok h m ap = true.
Proof. apply all_hours_minutes. vm_compute. reflexivity. Qed.

(** C9: [to24h] converts every portal label ["h:mm AM"] or ["hh:mm PM"]
    with [h] in 1..12 to the zero-padded 24-hour form of the same
    wall-clock time. *)
Theorem to24h_correct h m ap :
  (1 <= h <= 12)%nat -> (m < 60)%nat ->
  to24h (label12 h m ap) = Some (fmt24 (hour24 h ap) m) /\
  to24h (label12_padded h m ap) = Some (fmt24 (hour24 h ap) m).
Proof.
  intros Hh Hm. pose proof (to24h_ok_in_range h m ap Hh Hm) as H. unfold to24h_ok in H. apply andb_true_iff in H as [H1 H2].
  split; by apply bool_decide_eq_true in H1, H2.
Qed.

Lemma to24h_correct_witness :
  (1 <= 12 <= 12)%nat /\ (0 < 60)%nat /\
  to24h (label12 12 0 AM) = Some "00:00" /\ to24h (label12 12 0 PM) = Some "12:00" /\
  to24h (label12 1 0 PM) = Some "13:00".
Proof.
  split; [lia|]. split; [lia|].
  split; [apply (to24h_correct 12 0 AM); lia|].
  split; [apply (to24h_correct 12 0 PM); lia|].
  apply (to24h_correct 1 0 PM); lia.
Defined.

(** C23: round trip. The 12-hour label [bookSlot] builds for the 24-hour
    time of a portal label is that label (unpadded), and converting it
    back with [to24h] gives the same 24-hour time. *)
Theorem time12h_roundtrip h m ap :
  (1 <= h <= 12)%nat -> (m < 60)%nat ->
  time12h_of (fmt24 (hour24 h ap) m) = Some (label12 h m ap) /\
  to24h (label12 h m ap) = Some (fmt24 (hour24 h ap) m).
Proof.
  intros Hh Hm. split.
  - pose proof (all_hours_minutes label_ok ltac:(vm_compute; reflexivity) h m ap Hh Hm) as H.
    by apply bool_decide_eq_true in H.
  - pose proof (to24h_ok_in_range h m ap Hh Hm) as H. unfold to24h_ok in H.
    apply andb_true_iff in H as [H _]. by apply bool_decide_eq_true in H.
Qed.

Lemma time12h_roundtrip_witness :
  (1 <= 7 <= 12)%nat /\ (30 < 60)%nat /\
  time12h_of "19:30" = Some "7:30 PM" /\ to24h "7:30 PM" = Some "19:30".
Proof.
  split; [lia|]. split; [lia|].
  exact (time12h_roundtrip 7 30 PM ltac:(lia) ltac:(lia)).
Defined.

(** C24: [durationMinutes] on two well-formed 24-hour times is the signed
    difference in minutes; it is positive exactly when the end is later
    than the start. *)
Theorem durationMinutes_fmt24 h1 m1 h2 m2 :
  (h1 < 24)%nat -> (m1 < 60)%nat -> (h2 < 24)%nat -> (m2 < 60)%nat ->
  exists d, durationMinutes (fmt24 h1 m1) (fmt24 h2 m2) = Some d /\
    d = (Z.of_nat (h2 * 60 + m2) - Z.of_nat (h1 * 60 + m1))%Z /\
    ((0 < d)%Z <-> (h1 * 60 + m1 < h2 * 60 + m2)%nat).
Proof.
  intros. unfold durationMinutes.
  rewrite !hm_of_fmt24 by done.
  eexists; split; [reflexivity|]. split; lia.
Qed.

Lemma durationMinutes_fmt24_witness :
  durationMinutes "15:00" "16:30" = Some 90%Z.
Proof.
  destruct (durationMinutes_fmt24 15 0 16 30 ltac:(lia) ltac:(lia) ltac:(lia) ltac:(lia))
    as (d & Hd & -> & _).
  exact Hd.
Defined.

(** ** Findings *)

(** C30: The pattern checks the shape [\d{1,2}:\d{2}], not the range:
    for every hour of one or two digits (0 to 99) and every two-digit
    minute field (00 to 99), [to24h] accepts the label and returns the
    12-hour arithmetic of the hour, unchecked. An hour above 12 or minutes
    above 59 give a string that is not a 24-hour time (["13:00 PM"] gives
    ["25:00"], ["9:75 AM"] gives ["09:75"]). *)
Theorem to24h_out_of_range h m ap :
  (h < 100)%nat -> (m < 100)%nat -> to24h (label12 h m ap) = Some (fmt24 (hour24 h ap) m).
Proof.
  intros Hh Hm.
  assert (Hall : forallb (fun h => forallb (fun m => to24h_shape_ok h m AM && to24h_shape_ok h m PM)
                                     (seq 0 100)) (seq 0 100) = true)
    by (vm_compute; reflexivity).
  pose proof (forallb_seq_lt _ _ (forallb_seq_lt _ _ Hall h Hh) m Hm) as Hc. cbv beta in Hc.
  apply andb_true_iff in Hc as [HA HP]. unfold to24h_shape_ok in HA, HP.
  destruct ap; [exact (bool_decide_eq_true_1 _ HA) | exact (bool_decide_eq_true_1 _ HP)].
Qed.

Lemma to24h_out_of_range_witness :
  (13 < 100)%nat /\ (0 < 100)%nat /\ (75 < 100)%nat /\
  to24h "13:00 PM" = Some "25:00" /\ to24h "9:75 AM" = Some "09:75".
Proof.
  split; [lia|]. split; [lia|]. split; [lia|].
  pose proof (to24h_out_of_range 13 0 PM ltac:(lia) ltac:(lia)) as H1. vm_compute in H1.
  pose proof (to24h_out_of_range 9 75 AM ltac:(lia) ltac:(lia)) as H2. vm_compute in H2.
  exact (conj H1 H2).
Defined.

(** A range across midnight has a negative duration: [durationMinutes]
    does not wrap around. *)
Example durationMinutes_across_midnight :
  durationMinutes "23:00" "00:00" = Some (-1380)%Z.
Proof. reflexivity. Qed.

End TimeFormat.
