(* ===== verification/Preferences.v ===== *)
(** * Search preferences and the per-slot filter

    The [Preferences] type of [ubc.ts] ([src/unnamed/part_003], lines
    171-179). Its request schema is [PreferencesSchema] of [index.ts]
    ([src/unnamed/part_001], lines 34-42). The filter is the preference
    check inside [extractSlotsFromScheduler] ([part_003], lines
    432-450). A start hour or duration that is [NaN] compares false
    in JavaScript, so such a slot is never filtered out. *)

From S2P Require Import Prelude JsString TimeFormat.

Module Preferences.

(** [export type Preferences]: every field is optional. *)
Record Preferences := {
  days_ahead : option Z;
  start_hour : option Z;
  end_hour : option Z;
  min_minutes : option Z;
  indoor_only : option bool;
  locations : option (list string);
  dates : option (list string)
}.

Definition no_prefs : Preferences :=
  {| days_ahead := None; start_hour := None; end_hour := None; min_minutes := None;
     indoor_only := None; locations := None; dates := None |}.

(** [z.number().min(lo).max(hi).optional()] *)
Definition in_range (lo hi : Z) (o : option Z) : bool :=
  match o with None => true | Some v => bool_decide (lo <= v <= hi)%Z end.

(** [PreferencesSchema]: the numeric bounds. The other fields are only
    type-checked. *)
Definition PreferencesSchema_ok (p : Preferences) : bool :=
  in_range 0 14 (days_ahead p) && in_range 0 23 (start_hour p) &&
  in_range 1 24 (end_hour p) && in_range 30 120 (min_minutes p).

(** [x < y] and [x >= y] in JavaScript when [x] may be [NaN]. *)
Definition js_lt (x : option Z) (y : Z) : bool :=
  match x with Some v => bool_decide (v < y)%Z | None => false end.
Definition js_ge (x : option Z) (y : Z) : bool :=
  match x with Some v => bool_decide (y <= v)%Z | None => false end.

(** [parseInt(start24.split(":")[0], 10)] *)
Definition start_hour_of (start24 : string) : option Z :=
  match Js.split ":" start24 with h :: _ => Js.parse_int h | [] => None end.

(** The three [continue] guards of lines 433-450, in order: the slot is
    dropped when one of them fires. *)
Definition filtered_out (prefs : Preferences) (start24 : string) (mins : option Z) : bool :=
  match start_hour prefs with Some sh => js_lt (start_hour_of start24) sh | None => false end ||
  match end_hour prefs with Some eh => js_ge (start_hour_of start24) eh | None => false end ||
  match min_minutes prefs with Some mm => js_lt mins mm | None => false end.

Definition passes_prefs (prefs : Preferences) (start24 : string) (mins : option Z) : bool :=
  negb (filtered_out prefs start24 mins).

(** [p'] is no stricter than [p]: a lower or absent [start_hour], a higher
    or absent [end_hour], a lower or absent [min_minutes]. *)
Definition wider (p' p : Preferences) : Prop :=
  match start_hour p' with
  | None => True | Some s' => exists s, start_hour p = Some s /\ (s' <= s)%Z end /\
  match end_hour p' with
  | None => True | Some e' => exists e, end_hour p = Some e /\ (e <= e')%Z end /\
  match min_minutes p' with
  | None => True | Some m' => exists m, min_minutes p = Some m /\ (m' <= m)%Z end.

Lemma start_hour_of_fmt24 h m : (h < 24)%nat -> (m < 60)%nat ->
  start_hour_of (TimeFormat.fmt24 h m) = Some (Z.of_nat h).
Proof.
  intros Hh Hm.
  assert (Hall : forallb (fun h => forallb (fun m =>
            bool_decide (start_hour_of (TimeFormat.fmt24 h m) = Some (Z.of_nat h)))
            (seq 0 60)) (seq 0 24) = true) by (vm_compute; reflexivity).
  pose proof (forallb_seq_lt _ _ (forallb_seq_lt _ _ Hall h Hh) m Hm) as Hc.
  by apply bool_decide_eq_true in Hc.
Qed.

Lemma js_lt_mono x y y' : (y' <= y)%Z -> js_lt x y' = true -> js_lt x y = true.
Proof. destruct x; simpl; [|done]. rewrite !bool_decide_eq_true. lia. Qed.

Lemma js_ge_mono x y y' : (y <= y')%Z -> js_ge x y' = true -> js_ge x y = true.
Proof. destruct x; simpl; [|done]. rewrite !bool_decide_eq_true. lia. Qed.

Local Hint Resolve js_lt_mono js_ge_mono : core.

(** C31: the preference filter is monotone. Widening the hour window or
    lowering the minimum duration never drops a slot that passed under
    the narrower preferences. *)
Theorem passes_prefs_monotone p p' start24 mins :
  wider p' p -> passes_prefs p start24 mins = true -> passes_prefs p' start24 mins = true.
Proof.
  unfold passes_prefs, filtered_out. intros (Hs & He & Hm).
  rewrite !negb_true_iff, !orb_false_iff. intros [[Hs0 He0] Hm0].
  repeat split.
  - destruct (start_hour p') as [s'|]; [|done]. destruct Hs as (s & Hps & Hle).
    rewrite Hps in Hs0. destruct (js_lt _ s') eqn:E; [|done].
    rewrite (js_lt_mono _ s s') in Hs0; eauto.
  - destruct (end_hour p') as [e'|]; [|done]. destruct He as (e & Hpe & Hle).
    rewrite Hpe in He0. destruct (js_ge _ e') eqn:E; [|done].
    rewrite (js_ge_mono _ e e') in He0; eauto.
  - destruct (min_minutes p') as [m'|]; [|done]. destruct Hm as (m & Hpm & Hle).
    rewrite Hpm in Hm0. destruct (js_lt mins m') eqn:E; [|done].
    rewrite (js_lt_mono _ m m') in Hm0; eauto.
Qed.

Lemma passes_prefs_monotone_witness :
  let narrow := {| days_ahead := None; start_hour := Some 18%Z; end_hour := Some 22%Z;
                   min_minutes := Some 60%Z; indoor_only := None; locations := None;
                   dates := None |} in
  let wide := {| days_ahead := None; start_hour := Some 8%Z; end_hour := None;
                 min_minutes := Some 30%Z; indoor_only := None; locations := None;
                 dates := None |} in
  wider wide narrow /\ passes_prefs narrow "19:00" (Some 60%Z) = true /\
  passes_prefs wide "19:00" (Some 60%Z) = true.
Proof.
  intros narrow wide.
  assert (Hw : wider wide narrow).
  { split; [exists 18%Z; split; [done | lia]|]. split; [done|]. exists 60%Z. split; [done | lia]. }
  assert (Hn : passes_prefs narrow "19:00" (Some 60%Z) = true) by reflexivity.
  split; [exact Hw|]. split; [exact Hn|].
  exact (passes_prefs_monotone narrow wide "19:00" (Some 60%Z) Hw Hn).
Defined.

(** C22: on a well-formed start time ["HH:MM"] and a duration [d], a slot
    passes exactly when [start_hour <= HH] (inclusive), [HH < end_hour]
    (exclusive) and [min_minutes <= d], each bound applying only when the
    preference is set. *)
Theorem passes_prefs_spec p h m d :
  (h < 24)%nat -> (m < 60)%nat ->
  passes_prefs p (TimeFormat.fmt24 h m) (Some d) = true <->
  (forall s, start_hour p = Some s -> (s <= Z.of_nat h)%Z) /\
  (forall e, end_hour p = Some e -> (Z.of_nat h < e)%Z) /\
  (forall mm, min_minutes p = Some mm -> (mm <= d)%Z).
Proof.
  intros Hh Hm. unfold passes_prefs, filtered_out.
  rewrite start_hour_of_fmt24 by done.
  destruct (start_hour p) as [s|], (end_hour p) as [e|], (min_minutes p) as [mm|]; simpl;
    rewrite ?negb_true_iff, ?orb_false_iff, ?bool_decide_eq_false;
    (split; [intros; repeat split; intros ? [= <-]; lia
            | intros (H1 & H2 & H3); repeat split;
              first [specialize (H1 _ eq_refl) | idtac];
              first [specialize (H2 _ eq_refl) | idtac];
              first [specialize (H3 _ eq_refl) | idtac]; lia]).
Qed.

Lemma passes_prefs_spec_witness :
  let p := {| days_ahead := None; start_hour := Some 18%Z; end_hour := Some 22%Z;
              min_minutes := None; indoor_only := None; locations := None; dates := None |} in
  (19 < 24)%nat /\ (0 < 60)%nat /\ passes_prefs p (TimeFormat.fmt24 19 0) (Some 60%Z) = true.
Proof.
  intros p. split; [lia|]. split; [lia|].
  apply (passes_prefs_spec p 19 0 60%Z ltac:(lia) ltac:(lia)).
  repeat split; intros ? [= <-]; lia.
Defined.

End Preferences.
