(* ===== verification/Slots.v ===== *)
(** * Slots, their ordering, and the stub slot

    The [Slot] type of [ubc.ts] ([src/unnamed/part_003], lines 181-187).
    Also the comparator that [checkAvailability] passes to
    [slots.sort] (lines 606-610) and the stub slot it returns when the
    scan finds nothing (lines 614-626).
    - [localeCompare] is modelled as code-unit (ASCII) order. It agrees
      with the locale collation on the fixed-width ISO dates and ["HH:MM"]
      times the scanner produces.
    - [Array.prototype.sort] is stable (ES2019). It is modelled as a
      stable insertion sort. A stable sort's result is determined by the
      comparator, so the choice of algorithm does not matter. *)

From S2P Require Import Prelude JsString Preferences.
From Stdlib Require Import Sorted Permutation.

Module Slots.

(** [export type Slot] *)
Record Slot := {
  date_iso : string;
  time_24h : string;
  minutes : Z;
  location : string;
  deep_link : option string
}.

(** [a.localeCompare(b)] *)
Definition locale_compare (a b : string) : comparison := String.compare a b.

(** [(a, b) => a.date_iso === b.date_iso ? a.time_24h.localeCompare(b.time_24h)
                                          : a.date_iso.localeCompare(b.date_iso)] *)
Definition slot_compare (a b : Slot) : comparison :=
  if bool_decide (date_iso a = date_iso b) then locale_compare (time_24h a) (time_24h b)
  else locale_compare (date_iso a) (date_iso b).

Definition slot_le (a b : Slot) : bool :=
  match slot_compare a b with Gt => false | _ => true end.

(** Insert [x] after every element that does not compare greater than it. *)
Fixpoint insert_slot (x : Slot) (l : list Slot) : list Slot :=
  match l with
  | [] => [x]
  | y :: l' => if slot_le y x then y :: insert_slot x l' else x :: y :: l'
  end.

(** [slots.sort(slot_compare)]: each element is inserted, in order, into
    the sorted prefix. *)
Definition sort_slots (l : list Slot) : list Slot := fold_left (fun acc x => insert_slot x acc) l [].

(** The stub slot: [{ date_iso: todayIso, time_24h: "19:00",
    minutes: prefs.min_minutes ?? 60, location: "UBC Tennis Centre – (stubbed)",
    deep_link: BASE_URL }]. *)
Definition stub_slot (today base_url : string) (prefs : Preferences.Preferences) : Slot :=
  {| date_iso := today; time_24h := "19:00";
     minutes := Preferences.min_minutes prefs ?? 60%Z;
     location := "UBC Tennis Centre – (stubbed)"; deep_link := Some base_url |}.

(** ** The comparator is a total preorder *)

Lemma str_cmp_refl a : String.compare a a = Eq.
Proof.
  induction a as [|c a IH]; simpl; [done|].
  unfold Ascii.compare. by rewrite N.compare_refl.
Qed.

Lemma str_cmp_le_leb a b : String.compare a b <> Gt <-> String.leb a b = true.
Proof. unfold String.leb. destruct (String.compare a b); naive_solver. Qed.

Lemma str_cmp_trans a b c :
  String.compare a b <> Gt -> String.compare b c <> Gt -> String.compare a c <> Gt.
Proof.
  rewrite !str_cmp_le_leb. intros Hab Hbc.
  assert (String.le a c) as Hac.
  { apply (transitivity (R := String.le) (y := b)); unfold String.le; by rewrite ?Hab, ?Hbc. }
  unfold String.le in Hac. by apply Is_true_true.
Qed.

Lemma str_cmp_Gt a b : String.compare a b = Gt <-> String.compare b a = Lt.
Proof. rewrite String.compare_antisym. destruct (String.compare b a); naive_solver. Qed.

Lemma slot_le_total a b : slot_le a b = false -> slot_le b a = true.
Proof.
  unfold slot_le, slot_compare, locale_compare.
  case_bool_decide as E1; case_bool_decide as E2; try congruence;
    destruct (String.compare _ _) eqn:Hc; try done; apply str_cmp_Gt in Hc;
    rewrite ?Hc in *; try done; rewrite ?E1 in Hc; congruence.
Qed.

Lemma str_cmp_antisym_le a b :
  String.compare a b <> Gt -> String.compare b a <> Gt -> a = b.
Proof.
  rewrite String.compare_antisym. intros H1 H2.
  destruct (String.compare b a) eqn:E; simpl in *; try done.
  by apply String.compare_eq_iff in E.
Qed.

Lemma slot_compare_same_date a b :
  date_iso a = date_iso b -> slot_compare a b = String.compare (time_24h a) (time_24h b).
Proof. intros E. unfold slot_compare. by rewrite bool_decide_eq_true_2. Qed.

Lemma slot_compare_diff_date a b :
  date_iso a <> date_iso b -> slot_compare a b = String.compare (date_iso a) (date_iso b).
Proof. intros E. unfold slot_compare. by rewrite bool_decide_eq_false_2. Qed.

Lemma slot_le_iff a b : slot_le a b = true <-> slot_compare a b <> Gt.
Proof. unfold slot_le. destruct (slot_compare a b); naive_solver. Qed.

Lemma slot_le_trans a b c : slot_le a b = true -> slot_le b c = true -> slot_le a c = true.
Proof.
  rewrite !slot_le_iff.
  destruct (decide (date_iso a = date_iso b)) as [Eab|Eab];
    [rewrite (slot_compare_same_date a b) | rewrite (slot_compare_diff_date a b)]; try done;
  (destruct (decide (date_iso b = date_iso c)) as [Ebc|Ebc];
    [rewrite (slot_compare_same_date b c) | rewrite (slot_compare_diff_date b c)]; try done);
  (destruct (decide (date_iso a = date_iso c)) as [Eac|Eac];
    [rewrite (slot_compare_same_date a c) | rewrite (slot_compare_diff_date a c)]; try done);
  intros H1 H2; try congruence.
  - eauto using str_cmp_trans.
  - rewrite Eac in H1. by pose proof (str_cmp_antisym_le _ _ H2 H1).
  - eauto using str_cmp_trans.
Qed.

#[export] Hint Resolve slot_le_total slot_le_trans : fb.

Definition slot_leP (a b : Slot) : Prop := slot_le a b = true.

(** ** Insertion *)

(** One step of the insertion: [x] passes [y] when [y <= x], and stops
    before it otherwise, in which case [x <= y]. *)
Lemma insert_slot_step x y l :
  (insert_slot x (y :: l) = y :: insert_slot x l /\ slot_le y x = true) \/
  (insert_slot x (y :: l) = x :: y :: l /\ slot_le x y = true).
Proof.
  simpl. case_if; [left | right]; (split; [done|]);
    first [done | by apply negb_false_iff | by apply slot_le_total | by apply slot_le_total, negb_true_iff].
Qed.

Lemma insert_slot_perm x l : Permutation (insert_slot x l) (x :: l).
Proof.
  induction l as [|y l IH]; [done|].
  destruct (insert_slot_step x y l) as [[-> _]|[-> _]]; [|done].
  by rewrite IH, perm_swap.
Qed.

Lemma insert_slot_sorted x l : Sorted slot_leP l -> Sorted slot_leP (insert_slot x l).
Proof.
  induction 1 as [|y l Hs IH Hhd]; [by repeat constructor|].
  destruct (insert_slot_step x y l) as [[-> Hyx]|[-> Hxy]].
  - constructor; [done|].
    destruct l as [|z l]; [by repeat constructor|].
    inversion Hhd; subst.
    destruct (insert_slot_step x z l) as [[-> _]|[-> _]]; by constructor.
  - by repeat constructor.
Qed.

(** Two slots share a key when they have the same date and time. *)
Definition same_key (k : string * string) (a : Slot) : Prop := (date_iso a, time_24h a) = k.

#[export] Instance same_key_dec k a : Decision (same_key k a).
Proof. unfold same_key. apply _. Defined.

Lemma same_key_le k a b : same_key k a -> same_key k b -> slot_le a b = true.
Proof.
  unfold same_key. intros Ha Hb. rewrite <- Hb in Ha. injection Ha as Hd Ht.
  apply slot_le_iff. rewrite slot_compare_same_date, Ht, str_cmp_refl by done. done.
Qed.

Lemma filter_all_not {A} (P : A -> Prop) `{forall x, Decision (P x)} l :
  Forall (fun z => ~ P z) l -> filter P l = [].
Proof. induction 1; [done|]. by rewrite filter_cons_False. Qed.

Lemma sorted_above_no_key k x y l :
  Sorted slot_leP (y :: l) -> slot_le y x = false -> same_key k x ->
  filter (same_key k) (y :: l) = [].
Proof.
  intros Hs Hyx Hx. apply Sorted_StronglySorted in Hs;
    [|intros a b c; unfold slot_leP; apply slot_le_trans].
  apply StronglySorted_inv in Hs as [_ Hall].
  apply filter_all_not. constructor.
  - intros Hy. by rewrite (same_key_le k y x Hy Hx) in Hyx.
  - eapply Forall_impl; [exact Hall|]. intros z Hyz Hz.
    by rewrite (slot_le_trans y z x Hyz (same_key_le k z x Hz Hx)) in Hyx.
Qed.

(** Inserting [x] into a sorted list leaves the elements that share the
    key of [x] before it, in their order. *)
Lemma insert_slot_filter k x l :
  Sorted slot_leP l ->
  filter (same_key k) (insert_slot x l) = filter (same_key k) l ++ filter (same_key k) [x].
Proof.
  intros Hs. induction Hs as [|y l Hs IH Hhd]; [done|]. simpl insert_slot.
  destruct (slot_le y x) eqn:Hyx.
  - rewrite !filter_cons, IH. by case_decide.
  - destruct (decide (same_key k x)) as [Hx|Hx].
    + rewrite filter_cons_True, filter_singleton_True, (sorted_above_no_key k x y l); try done.
      by constructor.
    + rewrite filter_cons_False, filter_singleton_False by done. by rewrite app_nil_r.
Qed.

Lemma sort_slots_acc l acc :
  Sorted slot_leP acc ->
  Sorted slot_leP (fold_left (fun acc x => insert_slot x acc) l acc) /\
  Permutation (fold_left (fun acc x => insert_slot x acc) l acc) (acc ++ l) /\
  (forall k, filter (same_key k) (fold_left (fun acc x => insert_slot x acc) l acc) =
             filter (same_key k) (acc ++ l)).
Proof.
  revert acc. induction l as [|x l IH]; intros acc Hs; simpl.
  - rewrite app_nil_r. done.
  - destruct (IH (insert_slot x acc)) as (H1 & H2 & H3); [by apply insert_slot_sorted|].
    split; [done|]. split.
    + rewrite H2, insert_slot_perm. by rewrite <- Permutation_middle.
    + intros k. rewrite H3, !filter_app, insert_slot_filter by done.
      rewrite <- app_assoc. f_equal. by rewrite <- filter_app.
Qed.

Lemma sort_slots_sorted_perm l : Sorted slot_leP (sort_slots l) /\ Permutation (sort_slots l) l.
Proof. destruct (sort_slots_acc l []) as (? & ? & _); [constructor | done]. Qed.

(** The order the spec asks for, stated on the keys and not through the
    comparator: the date strictly earlier, or the same date and a time
    not later (both in code-unit string order). *)
Definition key_le (a b : Slot) : Prop :=
  String.ltb (date_iso a) (date_iso b) = true \/
  (date_iso a = date_iso b /\ String.leb (time_24h a) (time_24h b) = true).

Lemma slot_le_key a b : slot_le a b = true <-> key_le a b.
Proof.
  rewrite slot_le_iff. unfold key_le, String.ltb, String.leb.
  destruct (decide (date_iso a = date_iso b)) as [E|E].
  - rewrite slot_compare_same_date, E, str_cmp_refl by done.
    destruct (String.compare (time_24h a) (time_24h b)); naive_solver.
  - rewrite slot_compare_diff_date by done.
    destruct (String.compare (date_iso a) (date_iso b)) eqn:C; try naive_solver.
    apply String.compare_eq_iff in C. naive_solver.
Qed.

Lemma Sorted_key l : Sorted slot_leP l -> Sorted key_le l.
Proof.
  induction 1 as [|x l Hs IH Hhd]; constructor; [done|].
  destruct Hhd; constructor. by apply slot_le_key.
Qed.

(** C8: the sort of [checkAvailability] returns the same slots, sorted
    ascending by date and then by time, and it is stable: the slots
    sharing a date and a time keep their scan order. *)
Theorem sort_slots_correct l :
  Sorted key_le (sort_slots l) /\ Permutation (sort_slots l) l /\
  (forall k, filter (same_key k) (sort_slots l) = filter (same_key k) l).
Proof.
  destruct (sort_slots_acc l []) as (H1 & H2 & H3); [constructor|].
  split; [by apply Sorted_key | done].
Qed.

End Slots.
