(* ===== verification/Browser.v ===== *)
(** * The browser, the portal, and the effect monad

    The Playwright objects that [ubc.ts] ([src/unnamed/part_003]) drives:
    - the browser ([chromium.launch]), its context ([browser.newContext])
      and pages ([context.newPage], or a popup opened by a click);
    - the DOM each page shows, restricted to the elements the code
      locates: the affordances it probes with [isVisible], the court
      cards of the list page, the "Book Now" tiles of the scheduler, the
      attendee rows, the text blocks it reads, and the tables of the
      older revision's scheduler ([src/src/ubc.ts]).

    The portal is the class [Portal]. Its [respond] answers every
    effect the code performs, given the session's history so far: the
    updated page, possibly a popup, or an exception. Read-only queries
    are functions of the page's DOM snapshot and are not effects.

    Operations are written in the state-and-exception monad [M] over
    [BState]: a value or a thrown [Exn], with the state that results
    either way. [try_catch] and [try_finally] give JavaScript's
    [try/catch] and [try/finally]. The proofs read a computation
    through [triple] (a Hoare triple that also follows a state machine
    over the trace), [keeps_today], [yields], [grows] (a bound on the
    number of effects), [safe] (it never throws from an open tab),
    [emits] (every event it appends satisfies a predicate) and [runs]
    (it returns, on a portal that answers every effect). *)

From S2P Require Import Prelude JsString.
From Stdlib Require QArith_base.

Module Browser.

(** ** The DOM, as far as the code queries it *)

Inductive Cwl := CwlRoleButton | CwlRoleLink | CwlImgLink | CwlImgAncestor.

(** The [cwlButtonCandidates] of [ensureLoggedIn], in the code's order. *)
Definition cwl_candidates : list Cwl := [CwlRoleButton; CwlRoleLink; CwlImgLink; CwlImgAncestor].

(** Single elements located by a fixed selector. [ANext i] is the
    [i]-th entry of [nextButtonSelectors]. [ALoginText] is the
    [text=Login] locator of the current [ensureLoggedIn]; [ALoginRole]
    the button-or-link named /login/i of the older revision.
    [ADuration two] is the first radio named /2\s*hour|120\s*min/i
    when [two] holds, else the first named /1\s*hour|60\s*min/i;
    [APlayers] the first combobox named /players|people|participants/i
    (both of the earliest scanner). *)
Inductive Affordance :=
| ALoginText | ALoginRole | ACwl (c : Cwl) | AReserve | APortalCwl | APortalUsername
| AAltBook | ANext (i : nat) | AExistingCard | APlaceOrder
| ADuration (two : bool) | APlayers.

#[export] Instance Cwl_eq_dec : EqDecision Cwl.
Proof. solve_decision. Defined.
#[export] Instance Affordance_eq_dec : EqDecision Affordance.
Proof. solve_decision. Defined.

(** A court card of the list page: its [facility-item] container's
    visibility, the text of its visible [.facility-details h2] heading,
    and the [href] of its desktop "Choose" button. [cc_card_text] is
    the [innerText] of the button's nearest [div] ancestor, which the
    older revision reads ([None] when the read times out). *)
Record CourtCard := {
  cc_item_visible : bool; cc_heading : option string; cc_href : option string;
  cc_card_text : option string
}.

(** A row of a [table] as the older scanner reads it: the text of its
    first [th]/[td] cell ([None] when the row has none and the read
    times out) and the number of "Book Now" buttons, links or divs in
    it. *)
Record TableRow := { tr_first_cell : option string; tr_book_now : nat }.

(** A [table] of the page: its [innerText] and its rows. *)
Record Table := { tb_text : option string; tb_rows : list TableRow }.

(** The booking tile ([.facility-booking-slot, .k-event-template,
    [class*="event"]]) around a "Book Now" span, with the computed style
    that the availability check reads. *)
Record SlotBox := {
  sb_class : string; sb_display : string; sb_visibility : string; sb_opacity : QArith_base.Q;
  sb_pointer_events : string; sb_disabled_attr : bool; sb_aria_disabled : option string
}.

(** A span under [#scheduler .k-event-template.facility-booking-slot]. *)
Record Span := {
  sp_text : string; sp_visible : bool; sp_box : option SlotBox;
  sp_title : option string; sp_date : option string
}.

(** An attendee row [tr.bm-selectable-row]: the text of its [label]
    ([None] when [innerText] throws), its [class] attribute, whether it
    is [display: none], and its enabled [IsParticipating] checkbox with
    its checked state. *)
Record Row := {
  row_label : option string; row_class : option string; row_hidden : bool;
  row_checkbox : option bool
}.

(** The page as the code reads it. [dom_player_options] holds the text
    and the [value] attribute of each [option] of the players combobox;
    [dom_buttons] the [innerText] of each [button, a] element, in
    document order. *)
Record Dom := {
  dom_visible : list Affordance;
  dom_courts : list CourtCard;
  dom_facility_name : option string;
  dom_spans : list Span;
  dom_attendees : list Row;
  dom_body : string;
  dom_error : option string;
  dom_alert : option string;
  dom_confirmation : option string;
  dom_tables : list Table;
  dom_player_options : list (string * option string);
  dom_buttons : list string
}.

Definition visible (a : Affordance) (d : Dom) : bool := bool_decide (a ∈ dom_visible d).

Record Tab := { tab_url : string; tab_dom : Dom }.

(** ** Effects and the portal *)

Inductive WaitUntil := DomContentLoaded | Load | NetworkIdle.

(** The element a [locator.waitFor] or [page.waitForSelector] waits for. *)
Inductive WaitTarget := WUsername | WPassword | WOverlayHidden | WLoadingHidden | WAttendees.

(** The element a click targets. *)
Inductive ClickTarget :=
| CAff (a : Affordance) | CSubmit | CPortalSubmit
| CChoose (i : nat) | CSpan (i : nat) | CCheckbox (i : nat) | CRow (i : nat).

(** How a click is awaited: alone, with [force: true], together with
    [context.waitForEvent("page")], or together with [page.waitForNavigation]. *)
Inductive ClickMode := Plain | Force | WithPopup | WithNavigation.

Inductive Field := FUsername | FPassword | FPortalUsername | FPortalPassword.

Inductive Script := SRemoveOverlays | SHideLoading | SSetAttendees (n : Z).

Inductive Request :=
| Launch | NewContext | NewPage
| Goto (url : string) (w : WaitUntil)
| Click (t : ClickTarget) (m : ClickMode)
| Fill (f : Field) (v : string)
| WaitForLoadState (w : WaitUntil) (timeout : option Z)
| WaitFor (t : WaitTarget) (timeout : Z)
| WaitForURL (timeout : Z)
| WaitForTimeout (ms : Z)
| Evaluate (s : Script)
| SelectOption (v : string).  (* [selectOption] on the players combobox *)

Inductive ExnName := TimeoutError | PlainError | TypeError | URIError.

Record Exn := { exn_name : ExnName; exn_message : string }.

(** The portal's answer: the page the effect was performed on, as it is
    afterwards, and a popup when one opened; or an exception. *)
Inductive Outcome := Ok (t : Tab) (popup : option Tab) | Err (e : Exn).

Inductive Event :=
| Ev (tab : nat) (r : Request) (o : Outcome)
| EvClose.

Class Portal := { respond : list Event -> option Tab -> Request -> Outcome }.

(** ** Browser state *)

Inductive Life := NotLaunched | Running | Closed.

Record BState := {
  bs_life : Life; bs_tabs : list Tab; bs_trace : list Event; bs_today : string
}.

Definition with_life (l : Life) (s : BState) : BState :=
  {| bs_life := l; bs_tabs := bs_tabs s; bs_trace := bs_trace s; bs_today := bs_today s |}.
Definition with_tabs (ts : list Tab) (s : BState) : BState :=
  {| bs_life := bs_life s; bs_tabs := ts; bs_trace := bs_trace s; bs_today := bs_today s |}.
Definition log (e : Event) (s : BState) : BState :=
  {| bs_life := bs_life s; bs_tabs := bs_tabs s; bs_trace := bs_trace s ++ [e];
     bs_today := bs_today s |}.

(** ** The monad *)

Inductive Res (A : Type) := Ret (a : A) | Throw (e : Exn).
Arguments Ret {A} a.
Arguments Throw {A} e.

Definition M (A : Type) : Type := BState -> Res A * BState.

Definition ret {A} (a : A) : M A := fun s => (Ret a, s).
Definition throw {A} (e : Exn) : M A := fun s => (Throw e, s).
Definition bind {A B} (m : M A) (k : A -> M B) : M B :=
  fun s => match m s with (Ret a, s') => k a s' | (Throw e, s') => (Throw e, s') end.

Declare Scope browser_scope.
Delimit Scope browser_scope with browser.
Notation "x <- m ;; k" := (bind m (fun x => k))
  (at level 100, m at next level, right associativity) : browser_scope.
Notation "m ;; k" := (bind m (fun _ => k))
  (at level 100, k at level 200, right associativity) : browser_scope.
Open Scope browser_scope.

(** [try { m } catch (e) { h(e) }] *)
Definition try_catch {A} (m : M A) (h : Exn -> M A) : M A :=
  fun s => match m s with (Ret a, s') => (Ret a, s') | (Throw e, s') => h e s' end.

(** [try { m } finally { f }]: [f] runs on both exits; its own exception
    replaces the result. *)
Definition try_finally {A} (m : M A) (f : M unit) : M A :=
  fun s => let '(r, s') := m s in
           match f s' with (Ret _, s'') => (r, s'') | (Throw e, s'') => (Throw e, s'') end.

(** [p.catch(() => v)] on an effect whose value is ignored or defaulted. *)
Definition or_else {A} (m : M A) (v : A) : M A := try_catch m (fun _ => ret v).

Definition today : M string := fun s => (Ret (bs_today s), s).

Definition tab_of (i : nat) : M Tab :=
  fun s => match bs_tabs s !! i with
           | Some t => (Ret t, s)
           | None => (Throw {| exn_name := PlainError; exn_message := "Target page has been closed" |}, s)
           end.

(** [page.url()] and the page's DOM. *)
Definition url_of (i : nat) : M string := t <- tab_of i ;; ret (tab_url t).
Definition dom_of (i : nat) : M Dom := t <- tab_of i ;; ret (tab_dom t).

Lemma bind_Ret {A B} (m : M A) (k : A -> M B) s a s' :
  m s = (Ret a, s') -> bind m k s = k a s'.
Proof. intros E. unfold bind. by rewrite E. Qed.

Lemma bind_Throw {A B} (m : M A) (k : A -> M B) s e s' :
  m s = (Throw e, s') -> bind m k s = (Throw e, s').
Proof. intros E. unfold bind. by rewrite E. Qed.

Lemma bind_Ret_inv {A B} (m : M A) (k : A -> M B) s b s' :
  bind m k s = (Ret b, s') -> exists a s1, m s = (Ret a, s1) /\ k a s1 = (Ret b, s').
Proof. unfold bind. destruct (m s) as [[a|e] s1]; [eauto | done]. Qed.

Lemma dom_of_run i s t : bs_tabs s !! i = Some t -> dom_of i s = (Ret (tab_dom t), s).
Proof. intros E. unfold dom_of, bind, tab_of. rewrite E. reflexivity. Qed.

Lemma url_of_run i s t : bs_tabs s !! i = Some t -> url_of i s = (Ret (tab_url t), s).
Proof. intros E. unfold url_of, bind, tab_of. rewrite E. reflexivity. Qed.

Definition closed_exn : Exn :=
  {| exn_name := PlainError; exn_message := "Target page, context or browser has been closed" |}.

Section Effects.
Context {portal : Portal}.

(** Perform [r] on tab [i]: the portal's answer updates the tab, adds a
    popup, or throws. The value is the popup's tab index, if any. *)
Definition perform (i : nat) (r : Request) : M (option nat) :=
  fun s =>
    match bs_life s with
    | Running =>
        let o := respond (bs_trace s) (bs_tabs s !! i) r in
        let s1 := log (Ev i r o) s in
        match o with
        | Ok t p =>
            let tabs := <[i := t]> (bs_tabs s) in
            match p with
            | Some pt => (Ret (Some (length tabs)), with_tabs (tabs ++ [pt]) s1)
            | None => (Ret None, with_tabs tabs s1)
            end
        | Err e => (Throw e, s1)
        end
    | _ => (Throw closed_exn, s)
    end.

Definition perform_ (i : nat) (r : Request) : M unit := _ <- perform i r ;; ret tt.

(** [chromium.launch()] *)
Definition launch : M unit :=
  fun s =>
    let o := respond (bs_trace s) None Launch in
    match o with
    | Ok _ _ => (Ret tt, with_life Running (log (Ev 0 Launch o) s))
    | Err e => (Throw e, log (Ev 0 Launch o) s)
    end.

(** [browser.newContext()] *)
Definition new_context : M unit := perform_ 0 NewContext.

(** [context.newPage()]: the new tab's index. *)
Definition new_page : M nat :=
  fun s =>
    match bs_life s with
    | Running =>
        let o := respond (bs_trace s) None NewPage in
        let s1 := log (Ev (length (bs_tabs s)) NewPage o) s in
        match o with
        | Ok t _ => (Ret (length (bs_tabs s)), with_tabs (bs_tabs s ++ [t]) s1)
        | Err e => (Throw e, s1)
        end
    | _ => (Throw closed_exn, s)
    end.

(** [browser.close()] *)
Definition close_browser : M unit := fun s => (Ret tt, with_life Closed (log EvClose s)).

Definition goto (i : nat) (url : string) (w : WaitUntil) : M unit := perform_ i (Goto url w).
Definition click (i : nat) (t : ClickTarget) (m : ClickMode) : M (option nat) := perform i (Click t m).
Definition click_ (i : nat) (t : ClickTarget) (m : ClickMode) : M unit := perform_ i (Click t m).
Definition fill (i : nat) (f : Field) (v : string) : M unit := perform_ i (Fill f v).
Definition wait_load (i : nat) (w : WaitUntil) (tmo : option Z) : M unit :=
  perform_ i (WaitForLoadState w tmo).
Definition wait_for (i : nat) (t : WaitTarget) (tmo : Z) : M unit := perform_ i (WaitFor t tmo).
Definition wait_timeout (i : nat) (ms : Z) : M unit := perform_ i (WaitForTimeout ms).
Definition evaluate (i : nat) (sc : Script) : M unit := perform_ i (Evaluate sc).
End Effects.

(** ** A program logic relating computations to abstract state machines

    [triple step st P m Q]: from any state satisfying [P], [m] appends to
    the trace a list of events that the abstract machine [step] can
    follow from [st] to some [st'], and [Q] holds of the result, [st']
    and the final state. *)

Section Triples.
Context {S : Type} (step : S -> Event -> S -> Prop).

Inductive steps : S -> list Event -> S -> Prop :=
| steps_nil st : steps st [] st
| steps_cons st e st' tr st'' : step st e st' -> steps st' tr st'' -> steps st (e :: tr) st''.

Lemma steps_app st tr1 st1 tr2 st2 :
  steps st tr1 st1 -> steps st1 tr2 st2 -> steps st (tr1 ++ tr2) st2.
Proof. induction 1; simpl; eauto using steps. Qed.

Lemma steps_one st e st' : step st e st' -> steps st [e] st'.
Proof. eauto using steps. Qed.

Definition triple {A} (st : S) (P : BState -> Prop) (m : M A)
    (Q : Res A -> S -> BState -> Prop) : Prop :=
  forall s, P s -> exists tr st', bs_trace (snd (m s)) = bs_trace s ++ tr /\
    steps st tr st' /\ Q (fst (m s)) st' (snd (m s)).

Arguments triple : simpl never.

Lemma triple_ret {A} st P (a : A) Q :
  (forall s, P s -> Q (Ret a) st s) -> triple st P (ret a) Q.
Proof. intros HQ s Hs. exists [], st. rewrite app_nil_r. eauto using steps. Qed.

Lemma triple_throw {A} st P e Q :
  (forall s, P s -> Q (Throw e) st s) -> triple st P (@throw A e) Q.
Proof. intros HQ s Hs. exists [], st. rewrite app_nil_r. eauto using steps. Qed.

Lemma triple_conseq {A} st P P' (m : M A) Q Q' :
  triple st P' m Q' -> (forall s, P s -> P' s) ->
  (forall r st' s, Q' r st' s -> Q r st' s) -> triple st P m Q.
Proof.
  intros Ht HP HQ s Hs. destruct (Ht s (HP s Hs)) as (tr & st' & ? & ? & ?).
  exists tr, st'. eauto.
Qed.

Lemma triple_bind {A B} st P (m : M A) (k : A -> M B) Q1 Q :
  triple st P m Q1 ->
  (forall a st1, triple st1 (Q1 (Ret a) st1) (k a) Q) ->
  (forall e st1 s, Q1 (Throw e) st1 s -> Q (Throw e) st1 s) ->
  triple st P (bind m k) Q.
Proof.
  intros Hm Hk He s Hs. destruct (Hm s Hs) as (tr1 & st1 & Htr1 & Hst1 & HQ1).
  unfold bind. destruct (m s) as [[a|e] s1]; simpl in *.
  - destruct (Hk a st1 s1 HQ1) as (tr2 & st2 & Htr2 & Hst2 & HQ).
    exists (tr1 ++ tr2), st2. rewrite Htr2, Htr1, app_assoc. eauto using steps_app.
  - exists tr1, st1. eauto.
Qed.

(** A computation that reads the state and leaves it unchanged. *)
Definition reads {A} (m : M A) : Prop := forall s, snd (m s) = s.

Lemma triple_reads {A} st P (m : M A) Q :
  reads m -> (forall s, P s -> Q (fst (m s)) st s) -> triple st P m Q.
Proof.
  intros Hr HQ s Hs. exists [], st. rewrite app_nil_r, Hr. eauto using steps.
Qed.

Lemma triple_if {A} st P (b : bool) (m1 m2 : M A) Q :
  (b = true -> triple st P m1 Q) -> (b = false -> triple st P m2 Q) ->
  triple st P (if b then m1 else m2) Q.
Proof. destruct b; auto. Qed.
End Triples.

Lemma reads_tab_of i : reads (tab_of i).
Proof. intros s. unfold tab_of. by destruct (bs_tabs s !! i). Qed.

Lemma reads_bind {A B} (m : M A) (k : A -> M B) :
  reads m -> (forall a, reads (k a)) -> reads (bind m k).
Proof.
  intros Hm Hk s. unfold bind. specialize (Hm s).
  destruct (m s) as [[a|e] s1] eqn:E; simpl in *; subst; [apply Hk | done].
Qed.

Lemma reads_ret {A} (a : A) : reads (ret a).
Proof. done. Qed.

Lemma reads_url_of i : reads (url_of i).
Proof. apply reads_bind; [apply reads_tab_of | intros; apply reads_ret]. Qed.

Lemma reads_dom_of i : reads (dom_of i).
Proof. apply reads_bind; [apply reads_tab_of | intros; apply reads_ret]. Qed.

Lemma reads_today : reads today.
Proof. done. Qed.

#[export] Hint Resolve reads_tab_of reads_url_of reads_dom_of reads_today reads_ret : fb.

Section PerformTriple.
Context {portal : Portal} {S : Type} (step : S -> Event -> S -> Prop).

(** The rule for one effect: every answer of the portal must be a step
    of the machine to a state where [Q] holds. *)
Lemma triple_perform st P i r Q :
  (forall s, P s -> bs_life s = Running /\
     let o := respond (bs_trace s) (bs_tabs s !! i) r in
     exists st', step st (Ev i r o) st' /\ Q (fst (perform i r s)) st' (snd (perform i r s))) ->
  triple step st P (perform i r) Q.
Proof.
  intros HQ s Hs. destruct (HQ s Hs) as (Hlife & st' & Hstep & HQ').
  exists [Ev i r (respond (bs_trace s) (bs_tabs s !! i) r)], st'.
  split; [|split; [by apply steps_one | done]].
  unfold perform. rewrite Hlife.
  destruct (respond _ _ _) as [t [pt|]|e]; reflexivity.
Qed.

(** Tab [i] is open in a running browser. *)
Definition live (i : nat) (s : BState) : Prop := bs_life s = Running /\ is_Some (bs_tabs s !! i).

Definition popup_live (p : option nat) (s : BState) : Prop :=
  forall j, p = Some j -> is_Some (bs_tabs s !! j).

Lemma perform_live i r s :
  live i s ->
  match perform i r s with
  | (Ret p, s') => live i s' /\ popup_live p s' /\ exists t pt, respond (bs_trace s) (bs_tabs s !! i) r = Ok t pt
  | (Throw e, s') => live i s' /\ respond (bs_trace s) (bs_tabs s !! i) r = Err e
  end.
Proof.
  intros [Hl Hi]. unfold perform. rewrite Hl.
  destruct (respond _ _ _) as [t [pt|]|e] eqn:Ho; simpl.
  - unfold live, popup_live; simpl. split; [split; [done|]|split; [|eauto]].
    + rewrite lookup_app_l; [|by rewrite length_insert; apply lookup_lt_is_Some].
      rewrite list_lookup_insert_eq; [done|]. by apply lookup_lt_is_Some.
    + intros j [= <-]. rewrite lookup_app_r, length_insert, Nat.sub_diag by lia. done.
  - unfold live, popup_live; simpl. split; [split; [done|]|split; [done|eauto]].
    rewrite list_lookup_insert_eq; [done|]. by apply lookup_lt_is_Some.
  - unfold live; simpl. done.
Qed.

(** The rule for an effect whose successful answers all move the machine
    from [st] to [st_ok] and whose errors move it to [st_err]. *)
Lemma triple_effect st st_ok st_err i r :
  (forall t p, step st (Ev i r (Ok t p)) st_ok) -> (forall e, step st (Ev i r (Err e)) st_err) ->
  triple step st (live i) (perform i r)
    (fun res st' s' => match res with
                       | Ret p => st' = st_ok /\ live i s' /\ popup_live p s'
                       | Throw _ => st' = st_err /\ live i s'
                       end).
Proof.
  intros Hok Herr. apply triple_perform. intros s Hs.
  split; [apply Hs|]. pose proof (perform_live i r s Hs) as Hp.
  destruct (perform i r s) as [[p|e] s'] eqn:Ep; simpl.
  - destruct Hp as (Hl & Hpop & t & pt & ->). eauto.
  - destruct Hp as (Hl & ->). eauto.
Qed.

Lemma triple_effect_unit st st_ok st_err i r :
  (forall t p, step st (Ev i r (Ok t p)) st_ok) -> (forall e, step st (Ev i r (Err e)) st_err) ->
  triple step st (live i) (perform_ i r)
    (fun res st' s' => match res with
                       | Ret _ => st' = st_ok /\ live i s'
                       | Throw _ => st' = st_err /\ live i s'
                       end).
Proof.
  intros Hok Herr. unfold perform_. eapply triple_bind; [by apply triple_effect| |].
  - intros a st1. apply triple_ret. naive_solver.
  - naive_solver.
Qed.

(** An effect that returns was answered, and it is the last event. *)
Lemma perform__last i r s s' :
  perform_ i r s = (Ret tt, s') -> exists t p, last (bs_trace s') = Some (Ev i r (Ok t p)).
Proof.
  unfold perform_, bind, perform. destruct (bs_life s); try discriminate.
  destruct (respond _ _ _) as [t [pt|]|e]; simpl; intros [= <-]; simpl; rewrite last_snoc; eauto.
Qed.

Lemma triple_effect_unit_last st st_ok st_err i r :
  (forall t p, step st (Ev i r (Ok t p)) st_ok) -> (forall e, step st (Ev i r (Err e)) st_err) ->
  triple step st (live i) (perform_ i r)
    (fun res st' s' => match res with
                       | Ret _ => st' = st_ok /\ live i s' /\ exists t p, last (bs_trace s') = Some (Ev i r (Ok t p))
                       | Throw _ => st' = st_err
                       end).
Proof.
  intros Hok Herr s Hs. destruct (triple_effect_unit st st_ok st_err i r Hok Herr s Hs) as (tr & st' & H1 & H2 & H3).
  exists tr, st'. split_and!; [done | done |].
  destruct (perform_ i r s) as [[[]|e] s'] eqn:E; simpl in *; [|naive_solver].
  destruct H3 as [-> ?]. split_and!; [done | done | exact (perform__last _ _ _ _ E)].
Qed.

Lemma live_default i p s : live i s -> popup_live p s -> live (p ?? i) s.
Proof. intros [Hl Hi] Hp. split; [done|]. destruct p as [j|]; simpl; [by apply Hp | done]. Qed.
End PerformTriple.

Section ReadTriples.
Context {S : Type} (step : S -> Event -> S -> Prop).

Lemma triple_dom_of st i :
  triple step st (live i) (dom_of i)
    (fun r st' s => match r with Ret _ => st' = st /\ live i s | Throw _ => False end).
Proof.
  apply triple_reads; [apply reads_dom_of|]. intros s [Hl [t Ht]].
  unfold dom_of, bind, tab_of. rewrite Ht. simpl. unfold live. eauto.
Qed.

(** [dom_of] on a tab that the precondition keeps open: the DOM read is
    that of the tab, and the state is unchanged. *)
Lemma triple_dom_of_in st (P : BState -> Prop) i :
  (forall s, P s -> live i s) ->
  triple step st P (dom_of i)
    (fun r st' s => match r with
                    | Ret d => st' = st /\ P s /\ exists t, bs_tabs s !! i = Some t /\ tab_dom t = d
                    | Throw _ => False end).
Proof.
  intros HP. apply triple_reads; [apply reads_dom_of|]. intros s Hs.
  destruct (HP s Hs) as [_ [t Ht]]. rewrite (dom_of_run _ _ _ Ht). simpl. eauto.
Qed.

(** [page.url()] on an open tab: the tab's current URL. *)
Lemma triple_url_of st i :
  triple step st (live i) (url_of i)
    (fun r st' s => match r with
                    | Ret u => st' = st /\ live i s /\ exists t, bs_tabs s !! i = Some t /\ tab_url t = u
                    | Throw _ => False end).
Proof.
  apply triple_reads; [apply reads_url_of|]. intros s [Hl [t Ht]].
  unfold url_of, bind, tab_of. rewrite Ht. simpl. unfold live. naive_solver.
Qed.
End ReadTriples.

Lemma triple_pure {S A} (step : S -> Event -> S -> Prop) st (Pr : Prop) P (m : M A) Q :
  (Pr -> triple step st P m Q) -> triple step st (fun s => Pr /\ P s) m Q.
Proof. intros H s [Hp HP]. exact (H Hp s HP). Qed.

Lemma triple_pre {S A} (step : S -> Event -> S -> Prop) st P P' (m : M A) Q :
  triple step st P' m Q -> (forall s, P s -> P' s) -> triple step st P m Q.
Proof. intros Ht HP. eapply triple_conseq; eauto. Qed.

Lemma triple_pre_eq {S A} (step : S -> Event -> S -> Prop) (st x : S) P (m : M A) Q :
  (st = x -> triple step st P m Q) -> triple step st (fun s => st = x /\ P s) m Q.
Proof. intros Ht s [Hx Hs]. by apply Ht. Qed.

Lemma triple_pre_and {S A} (step : S -> Event -> S -> Prop) st (φ : Prop) P (m : M A) Q :
  (φ -> triple step st P m Q) -> triple step st (fun s => φ /\ P s) m Q.
Proof. intros Ht s [Hx Hs]. by apply Ht. Qed.

(** ** Post-conditions without a machine *)

(** The machine that accepts every event: [hoare] states a pre/post
    specification of a computation that says nothing of the trace. *)
Definition any_step (_ : unit) (_ : Event) (_ : unit) : Prop := True.

Definition hoare {A} (P : BState -> Prop) (m : M A) (Q : Res A -> BState -> Prop) : Prop :=
  triple any_step tt P m (fun r _ s => Q r s).

(** ** Values, the clock, and the number of effects

    Three lighter readings of a computation, for properties that do not
    depend on the portal's answers:
    - [keeps_today m]: [m] does not change the clock's date;
    - [yields td m Q]: started on date [td], every value [m] returns
      satisfies [Q];
    - [grows m n]: [m] appends at most [n] events to the trace. *)

Definition keeps_today {A} (m : M A) : Prop := forall s, bs_today (snd (m s)) = bs_today s.

Definition yields {A} (td : string) (m : M A) (Q : A -> Prop) : Prop :=
  forall s a s', bs_today s = td -> m s = (Ret a, s') -> Q a.

Definition grows {A} (m : M A) (n : nat) : Prop :=
  forall s, exists tr, bs_trace (snd (m s)) = bs_trace s ++ tr /\ (length tr <= n)%nat.

Section Logics.
Context {portal : Portal}.

Lemma keeps_ret {A} (a : A) : keeps_today (ret a).
Proof. done. Qed.
Lemma keeps_throw {A} e : keeps_today (@throw A e).
Proof. done. Qed.
Lemma keeps_reads {A} (m : M A) : reads m -> keeps_today m.
Proof. intros Hr s. by rewrite Hr. Qed.
Lemma keeps_bind {A B} (m : M A) (k : A -> M B) :
  keeps_today m -> (forall a, keeps_today (k a)) -> keeps_today (bind m k).
Proof.
  intros Hm Hk s. unfold bind. specialize (Hm s).
  destruct (m s) as [[a|e] s1]; simpl in *; [by rewrite Hk|done].
Qed.
Lemma keeps_try_finally {A} (m : M A) f :
  keeps_today m -> keeps_today f -> keeps_today (try_finally m f).
Proof.
  intros Hm Hf s. unfold try_finally. specialize (Hm s).
  destruct (m s) as [r s1]. specialize (Hf s1). simpl in *.
  destruct (f s1) as [[]?]; simpl in *; congruence.
Qed.
Lemma keeps_perform i r : keeps_today (perform i r).
Proof. intros s. unfold perform. repeat case_match; done. Qed.
Lemma keeps_perform_ i r : keeps_today (perform_ i r).
Proof. apply keeps_bind; [apply keeps_perform | intros; apply keeps_ret]. Qed.
Lemma keeps_launch : keeps_today launch.
Proof. intros s. unfold launch. by case_match. Qed.
Lemma keeps_new_page : keeps_today new_page.
Proof. intros s. unfold new_page. repeat case_match; done. Qed.
Lemma keeps_close : keeps_today close_browser.
Proof. done. Qed.
Lemma keeps_try_catch {A} (m : M A) h :
  keeps_today m -> (forall e, keeps_today (h e)) -> keeps_today (try_catch m h).
Proof.
  intros Hm Hh s. unfold try_catch. specialize (Hm s).
  destruct (m s) as [[a|e] s1]; simpl in *; [done | by rewrite Hh].
Qed.

Lemma yields_ret {A} td (a : A) (Q : A -> Prop) : Q a -> yields td (ret a) Q.
Proof. by intros HQ s b s' _ [= <- _]. Qed.
Lemma yields_throw {A} td e (Q : A -> Prop) : yields td (throw e) Q.
Proof. by intros s b s' _ [=]. Qed.
Lemma yields_true {A} td (m : M A) : yields td m (fun _ => True).
Proof. done. Qed.
Lemma yields_bind {A B} td (m : M A) (k : A -> M B) Q1 Q :
  keeps_today m -> yields td m Q1 -> (forall a, Q1 a -> yields td (k a) Q) ->
  yields td (bind m k) Q.
Proof.
  intros Hk Hm Hc s b s' Hs. unfold bind. specialize (Hk s).
  destruct (m s) as [[a|e] s1] eqn:E; [|done]. simpl in Hk.
  apply (Hc a (Hm s a s1 Hs E)). congruence.
Qed.
Lemma yields_try_finally {A} td (m : M A) f Q : yields td m Q -> yields td (try_finally m f) Q.
Proof.
  intros Hm s a s' Hs. unfold try_finally.
  destruct (m s) as [r s1] eqn:E. destruct (f s1) as [[]?]; [|done].
  intros [= -> _]. by apply (Hm s a s1).
Qed.
Lemma yields_try_catch {A} td (m : M A) h Q :
  keeps_today m -> yields td m Q -> (forall e, yields td (h e) Q) -> yields td (try_catch m h) Q.
Proof.
  intros Hk Hm Hh s a s' Hs. unfold try_catch. specialize (Hk s).
  destruct (m s) as [[b|e] s1] eqn:E; simpl in Hk.
  - intros [= <- _]. by apply (Hm s b s1).
  - apply Hh. congruence.
Qed.
Lemma yields_today td : yields td today (fun t => t = td).
Proof. by intros s a s' Hs [= <- _]. Qed.

Lemma grows_ret {A} (a : A) n : grows (ret a) n.
Proof. intros s. exists []. rewrite app_nil_r. split; [done | simpl; lia]. Qed.
Lemma grows_throw {A} e n : grows (@throw A e) n.
Proof. intros s. exists []. rewrite app_nil_r. split; [done | simpl; lia]. Qed.
Lemma grows_reads {A} (m : M A) n : reads m -> grows m n.
Proof. intros Hr s. exists []. rewrite app_nil_r, Hr. split; [done | simpl; lia]. Qed.
Lemma grows_mono {A} (m : M A) a b : grows m a -> (a <= b)%nat -> grows m b.
Proof. intros Hm Hab s. destruct (Hm s) as (tr & ? & ?). exists tr. split; [done | lia]. Qed.
Lemma grows_bind {A B} (m : M A) (k : A -> M B) a b :
  grows m a -> (forall x, grows (k x) b) -> grows (bind m k) (a + b).
Proof.
  intros Hm Hk s. destruct (Hm s) as (tr1 & Htr1 & Hl1). unfold bind.
  destruct (m s) as [[x|e] s1]; simpl in *.
  - destruct (Hk x s1) as (tr2 & Htr2 & Hl2). exists (tr1 ++ tr2).
    rewrite Htr2, Htr1, app_assoc, length_app. split; [done | lia].
  - exists tr1. split; [done | lia].
Qed.
Lemma grows_perform i r : grows (perform i r) 1.
Proof.
  intros s. unfold perform.
  destruct (bs_life s); [exists []; rewrite app_nil_r; split; [done | simpl; lia]| |exists []; rewrite app_nil_r; split; [done | simpl; lia]].
  exists [Ev i r (respond (bs_trace s) (bs_tabs s !! i) r)].
    repeat case_match; split; simpl; (reflexivity || lia).
Qed.
Lemma grows_perform_ i r : grows (perform_ i r) 1.
Proof. apply (grows_bind _ _ 1 0); [apply grows_perform | intros; apply grows_ret]. Qed.

(** [m] costs [a]; what follows has the rest of the budget. *)
Lemma grows_bind_sub {A B} (m : M A) (k : A -> M B) a n :
  grows m a -> (a <= n)%nat -> (forall x, grows (k x) (n - a)) -> grows (bind m k) n.
Proof. intros Hm Ha Hk. eapply grows_mono; [by apply grows_bind | lia]. Qed.

Lemma grows_if_max {A} (c : bool) (m1 m2 : M A) a b :
  grows m1 a -> grows m2 b -> grows (if c then m1 else m2) (Nat.max a b).
Proof. intros H1 H2. destruct c; eapply grows_mono; eauto; lia. Qed.

Lemma grows_try_catch {A} (m : M A) h a b :
  grows m a -> (forall e, grows (h e) b) -> grows (try_catch m h) (a + b).
Proof.
  intros Hm Hh s. destruct (Hm s) as (tr1 & Htr1 & Hl1). unfold try_catch.
  destruct (m s) as [[x|e] s1]; simpl in *.
  - exists tr1. split; [done | lia].
  - destruct (Hh e s1) as (tr2 & Htr2 & Hl2). exists (tr1 ++ tr2).
    rewrite Htr2, Htr1, app_assoc, length_app. split; [done | lia].
Qed.

Lemma grows_try_finally {A} (m : M A) f a b :
  grows m a -> grows f b -> grows (try_finally m f) (a + b).
Proof.
  intros Hm Hf s. destruct (Hm s) as (tr1 & Htr1 & Hl1). unfold try_finally.
  destruct (m s) as [r s1]; simpl in *. destruct (Hf s1) as (tr2 & Htr2 & Hl2).
  exists (tr1 ++ tr2). destruct (f s1) as [[]s2]; simpl in *;
    (rewrite Htr2, Htr1, app_assoc, length_app; split; [done | lia]).
Qed.

Lemma grows_ret0 {A} (a : A) : grows (ret a) 0.
Proof. apply grows_ret. Qed.
Lemma grows_throw0 {A} e : grows (@throw A e) 0.
Proof. apply grows_throw. Qed.
Lemma grows_launch : grows launch 1.
Proof.
  intros s. unfold launch. exists [Ev 0 Launch (respond (bs_trace s) None Launch)].
  case_match; (split; [reflexivity | simpl; lia]).
Qed.
Lemma grows_new_page : grows new_page 1.
Proof.
  intros s. unfold new_page. destruct (bs_life s);
    [exists []; rewrite app_nil_r; split; [done | simpl; lia]| |exists []; rewrite app_nil_r; split; [done | simpl; lia]].
  exists [Ev (length (bs_tabs s)) NewPage (respond (bs_trace s) None NewPage)].
  case_match; (split; [reflexivity | simpl; lia]).
Qed.
Lemma grows_close : grows close_browser 1.
Proof. intros s. exists [EvClose]. split; [done | simpl; lia]. Qed.
Lemma grows_dom_of i : grows (dom_of i) 0.
Proof. apply grows_reads, reads_dom_of. Qed.
Lemma grows_url_of i : grows (url_of i) 0.
Proof. apply grows_reads, reads_url_of. Qed.
Lemma grows_today : grows today 0.
Proof. apply grows_reads, reads_today. Qed.
Lemma grows_click i t m : grows (click i t m) 1.
Proof. apply grows_perform. Qed.
Lemma grows_click_ i t m : grows (click_ i t m) 1.
Proof. apply grows_perform_. Qed.
Lemma grows_goto i u w : grows (goto i u w) 1.
Proof. apply grows_perform_. Qed.
Lemma grows_fill i f v : grows (fill i f v) 1.
Proof. apply grows_perform_. Qed.
Lemma grows_wait_load i w t : grows (wait_load i w t) 1.
Proof. apply grows_perform_. Qed.
Lemma grows_wait_for i t tmo : grows (wait_for i t tmo) 1.
Proof. apply grows_perform_. Qed.
Lemma grows_wait_timeout i ms : grows (wait_timeout i ms) 1.
Proof. apply grows_perform_. Qed.
Lemma grows_evaluate i sc : grows (evaluate i sc) 1.
Proof. apply grows_perform_. Qed.
Lemma grows_new_context : grows new_context 1.
Proof. apply grows_perform_. Qed.
Lemma grows_or_else {A} (m : M A) v a : grows m a -> grows (or_else m v) a.
Proof. intros Hm. unfold or_else. rewrite <- (Nat.add_0_r a). apply grows_try_catch; [done | intros; apply grows_ret]. Qed.
End Logics.

(** The cost of a primitive or of a component with a proved bound. *)
Create HintDb grows.
#[export] Hint Resolve grows_ret0 grows_throw0 grows_launch grows_new_context grows_new_page grows_close
  grows_dom_of grows_url_of grows_today grows_click grows_click_ grows_goto grows_fill grows_wait_load
  grows_wait_for grows_wait_timeout grows_evaluate grows_perform grows_perform_ grows_if_max
  grows_try_catch grows_try_finally grows_or_else : grows.

(** Close [grows m n] for a concrete budget [n]: each computation in
    first position is charged by the [grows] database, conditionals
    and matches in tail position are split, and a leaf is weakened to
    the remaining budget. *)
Ltac grows_first := solve [eauto with grows].
Ltac grows_auto :=
  repeat match goal with
  | |- grows (bind _ _) _ => eapply grows_bind_sub; [grows_first | lia | intros ?; cbn [Nat.sub]]
  | |- grows (if _ then _ else _) _ => case_if
  | |- grows (match _ with _ => _ end) _ => case_match
  | |- grows _ _ => eapply grows_mono; [grows_first | lia]
  end.

#[export] Hint Resolve keeps_ret keeps_throw keeps_perform keeps_perform_ keeps_launch
  keeps_new_page keeps_close : fb.

(** Close a [keeps_today] goal on a composition of the primitives. *)
Ltac keeps_tac :=
  repeat first
    [ solve [auto with fb]
    | apply keeps_bind; [|intros ?]
    | apply keeps_try_finally
    | apply keeps_try_catch; [|intros ?]
    | apply keeps_reads; solve [auto with fb]
    | apply keeps_perform
    | case_match ].

(** A bind whose first computation matters only through its effects. *)
Ltac yields_skip :=
  eapply yields_bind; [solve [keeps_tac] | apply yields_true | intros ? _].

(** ** What a computation emits

    [emits ok m]: every event [m] appends to the trace satisfies [ok],
    whatever the portal answers. It is the safety reading of a
    computation's effects, as [grows] is their count. *)

Definition emits {A} (ok : Event -> Prop) (m : M A) : Prop :=
  forall s, exists tr, bs_trace (snd (m s)) = bs_trace s ++ tr /\ Forall ok tr.

Section Emits.
Context {portal : Portal} (ok : Event -> Prop).

Lemma emits_reads {A} (m : M A) : reads m -> emits ok m.
Proof. intros Hr s. exists []. rewrite app_nil_r, Hr. done. Qed.
Lemma emits_ret {A} (a : A) : emits ok (ret a).
Proof. by apply emits_reads. Qed.
Lemma emits_throw {A} e : emits ok (@throw A e).
Proof. intros s. exists []. by rewrite app_nil_r. Qed.
Lemma emits_bind {A B} (m : M A) (k : A -> M B) :
  emits ok m -> (forall a, emits ok (k a)) -> emits ok (bind m k).
Proof.
  intros Hm Hk s. destruct (Hm s) as (tr1 & Htr1 & H1). unfold bind.
  destruct (m s) as [[a|e] s1]; simpl in *; [|by exists tr1].
  destruct (Hk a s1) as (tr2 & Htr2 & H2). exists (tr1 ++ tr2).
  rewrite Htr2, Htr1, app_assoc. split; [done|]. by apply Forall_app.
Qed.
Lemma emits_try_catch {A} (m : M A) h :
  emits ok m -> (forall e, emits ok (h e)) -> emits ok (try_catch m h).
Proof.
  intros Hm Hh s. destruct (Hm s) as (tr1 & Htr1 & H1). unfold try_catch.
  destruct (m s) as [[a|e] s1]; simpl in *; [by exists tr1|].
  destruct (Hh e s1) as (tr2 & Htr2 & H2). exists (tr1 ++ tr2).
  rewrite Htr2, Htr1, app_assoc. split; [done|]. by apply Forall_app.
Qed.
Lemma emits_try_finally {A} (m : M A) f : emits ok m -> emits ok f -> emits ok (try_finally m f).
Proof.
  intros Hm Hf s. destruct (Hm s) as (tr1 & Htr1 & H1). unfold try_finally.
  destruct (m s) as [r s1]; simpl in *. destruct (Hf s1) as (tr2 & Htr2 & H2).
  exists (tr1 ++ tr2). destruct (f s1) as [[]s2]; simpl in *;
    (rewrite Htr2, Htr1, app_assoc; split; [done | by apply Forall_app]).
Qed.
Lemma emits_or_else {A} (m : M A) v : emits ok m -> emits ok (or_else m v).
Proof. intros Hm. apply emits_try_catch; [done | intros; apply emits_ret]. Qed.
Lemma emits_perform i r : (forall o, ok (Ev i r o)) -> emits ok (perform i r).
Proof.
  intros Hok s. unfold perform. destruct (bs_life s); [exists []; by rewrite app_nil_r| |exists []; by rewrite app_nil_r].
  exists [Ev i r (respond (bs_trace s) (bs_tabs s !! i) r)].
  split; [repeat case_match; reflexivity | by repeat constructor].
Qed.
Lemma emits_perform_ i r : (forall o, ok (Ev i r o)) -> emits ok (perform_ i r).
Proof. intros Hok. apply emits_bind; [by apply emits_perform | intros; apply emits_ret]. Qed.
Lemma emits_launch : (forall o, ok (Ev 0 Launch o)) -> emits ok launch.
Proof. intros Hok s. unfold launch. exists [Ev 0 Launch (respond (bs_trace s) None Launch)]. case_match; eauto. Qed.
Lemma emits_new_page : (forall j o, ok (Ev j NewPage o)) -> emits ok new_page.
Proof.
  intros Hok s. unfold new_page. destruct (bs_life s); [exists []; by rewrite app_nil_r| |exists []; by rewrite app_nil_r].
  exists [Ev (length (bs_tabs s)) NewPage (respond (bs_trace s) None NewPage)]. case_match; eauto.
Qed.
Lemma emits_close : ok EvClose -> emits ok close_browser.
Proof. intros Hok s. exists [EvClose]. eauto. Qed.
End Emits.

#[export] Hint Resolve emits_ret emits_throw : emits.
#[export] Hint Extern 1 (emits _ (dom_of _)) => apply emits_reads, reads_dom_of : emits.
#[export] Hint Extern 1 (emits _ (url_of _)) => apply emits_reads, reads_url_of : emits.
#[export] Hint Extern 1 (emits _ today) => apply emits_reads, reads_today : emits.

(** Close [emits ok m] on a composition of the primitives whose events
    [ok] accepts by computation. *)
Ltac emits_auto :=
  repeat first
    [ solve [eauto with emits]
    | apply emits_bind; [|intros ?]
    | apply emits_try_catch; [|intros ?]
    | apply emits_try_finally
    | apply emits_or_else
    | apply emits_perform_; intros; reflexivity
    | apply emits_perform; intros; reflexivity
    | apply emits_launch; intros; reflexivity
    | apply emits_new_page; intros; reflexivity
    | apply emits_close; reflexivity
    | case_match | case_if ].

(** ** Local recovery

    [safe i m]: from a state where tab [i] is open in a running browser,
    [m] returns a value (it never throws) and leaves tab [i] open.
    [keeps_live i m]: [m] leaves tab [i] open, whether it returns or
    throws. A [catch] whose handler is safe makes any computation that
    keeps the tab open safe. *)

Definition keeps_live {A} (i : nat) (m : M A) : Prop := forall s, live i s -> live i (snd (m s)).

Definition safe {A} (i : nat) (m : M A) : Prop :=
  forall s, live i s -> exists a, fst (m s) = Ret a /\ live i (snd (m s)).

Section Recovery.
Context {portal : Portal}.

Lemma keeps_live_reads {A} i (m : M A) : reads m -> keeps_live i m.
Proof. intros Hr s Hs. by rewrite Hr. Qed.
Lemma keeps_live_throw {A} i e : keeps_live i (@throw A e).
Proof. by intros s Hs. Qed.
Lemma keeps_live_safe {A} i (m : M A) : safe i m -> keeps_live i m.
Proof. intros Hm s Hs. by destruct (Hm s Hs) as (? & _ & ?). Qed.
Lemma keeps_live_bind {A B} i (m : M A) (k : A -> M B) :
  keeps_live i m -> (forall a, keeps_live i (k a)) -> keeps_live i (bind m k).
Proof.
  intros Hm Hk s Hs. unfold bind. specialize (Hm s Hs).
  destruct (m s) as [[a|e] s1]; simpl in *; [by apply Hk | done].
Qed.
Lemma keeps_live_perform i r : keeps_live i (perform i r).
Proof.
  intros s Hs. pose proof (perform_live i r s Hs) as Hp.
  destruct (perform i r s) as [[p|e] s']; simpl; by destruct Hp.
Qed.
Lemma keeps_live_perform_ i r : keeps_live i (perform_ i r).
Proof. apply keeps_live_bind; [apply keeps_live_perform | intros; by apply keeps_live_reads]. Qed.

Lemma keeps_live_goto i u w : keeps_live i (goto i u w).
Proof. apply keeps_live_perform_. Qed.
Lemma keeps_live_click_ i t m : keeps_live i (click_ i t m).
Proof. apply keeps_live_perform_. Qed.
Lemma keeps_live_wait_timeout i ms : keeps_live i (wait_timeout i ms).
Proof. apply keeps_live_perform_. Qed.

Lemma safe_ret {A} i (a : A) : safe i (ret a).
Proof. intros s Hs. by exists a. Qed.
Lemma safe_bind {A B} i (m : M A) (k : A -> M B) :
  safe i m -> (forall a, safe i (k a)) -> safe i (bind m k).
Proof.
  intros Hm Hk s Hs. unfold bind. destruct (Hm s Hs) as (a & Ha & Hl).
  destruct (m s) as [r s1]; simpl in *; subst. by apply Hk.
Qed.
Lemma safe_try_catch {A} i (m : M A) (h : Exn -> M A) :
  keeps_live i m -> (forall e, safe i (h e)) -> safe i (try_catch m h).
Proof.
  intros Hm Hh s Hs. unfold try_catch. specialize (Hm s Hs).
  destruct (m s) as [[a|e] s1]; simpl in *; [by exists a | by apply Hh].
Qed.
Lemma safe_or_else {A} i (m : M A) v : keeps_live i m -> safe i (or_else m v).
Proof. intros Hm. apply safe_try_catch; [done | intros; apply safe_ret]. Qed.
Lemma safe_dom_of i : safe i (dom_of i).
Proof. intros s [Hl [t Ht]]. rewrite (dom_of_run i s t Ht). eexists; split; [done | by split]. Qed.
Lemma safe_url_of i : safe i (url_of i).
Proof. intros s [Hl [t Ht]]. rewrite (url_of_run i s t Ht). eexists; split; [done | by split]. Qed.
Lemma safe_today i : safe i today.
Proof. intros s Hs. by eexists. Qed.
End Recovery.

Create HintDb recover.
#[export] Hint Resolve safe_ret safe_or_else safe_dom_of safe_url_of safe_today keeps_live_safe
  keeps_live_throw keeps_live_perform keeps_live_perform_ keeps_live_goto keeps_live_click_
  keeps_live_wait_timeout : recover.

(** Close [safe i m] or [keeps_live i m] by the structure of [m]. *)
Ltac recover_auto :=
  repeat first
    [ solve [eauto with recover]
    | apply safe_bind; [|intros ?]
    | apply keeps_live_bind; [|intros ?]
    | apply safe_try_catch; [|intros ?]
    | case_match
    | case_if ].

(** ** Total correctness on a reliable portal

    [runs P m Q]: from every state satisfying [P], [m] returns a value
    (it does not throw) and [Q] holds of the value and of the final
    state. A portal is [reliable] when it answers every effect; on such
    a portal, a computation that raises no exception of its own runs. *)

Definition runs {A} (P : BState -> Prop) (m : M A) (Q : A -> BState -> Prop) : Prop :=
  forall s, P s -> exists a, fst (m s) = Ret a /\ Q a (snd (m s)).

Definition reliable (portal : Portal) : Prop :=
  forall tr ot r, exists t p, respond tr ot r = Ok t p.

Section Runs.
Context {portal : Portal}.

Lemma runs_ret {A} P (a : A) Q : (forall s, P s -> Q a s) -> runs P (ret a) Q.
Proof. intros HQ s Hs. eauto. Qed.

Lemma runs_bind {A B} P (m : M A) (k : A -> M B) Q1 Q :
  runs P m Q1 -> (forall a, runs (Q1 a) (k a) Q) -> runs P (bind m k) Q.
Proof.
  intros Hm Hk s Hs. destruct (Hm s Hs) as (a & Ha & HQ1). unfold bind.
  destruct (m s) as [r s1]; simpl in *; subst. by apply Hk.
Qed.

Lemma runs_pre {A} P P' (m : M A) Q : runs P' m Q -> (forall s, P s -> P' s) -> runs P m Q.
Proof. intros Hm HP s Hs. by apply Hm, HP. Qed.

Lemma runs_post {A} P (m : M A) Q Q' : runs P m Q' -> (forall a s, Q' a s -> Q a s) -> runs P m Q.
Proof. intros Hm HQ s Hs. destruct (Hm s Hs) as (a & ? & ?). eauto. Qed.

Lemma runs_dom_of i : runs (live i) (dom_of i) (fun _ => live i).
Proof. intros s Hs. destruct (safe_dom_of i s Hs) as (a & ? & ?). eauto. Qed.

Lemma runs_url_of i : runs (live i) (url_of i) (fun _ => live i).
Proof. intros s Hs. destruct (safe_url_of i s Hs) as (a & ? & ?). eauto. Qed.

(** An effect on an open tab of a reliable portal returns, and the tab
    and any popup it opened are open. *)
Lemma runs_perform i r : reliable portal -> runs (live i) (perform i r) (fun p s => live i s /\ popup_live p s).
Proof.
  intros Hrel s Hs. pose proof (perform_live i r s Hs) as Hp.
  destruct (perform i r s) as [[p|e] s'] eqn:E; simpl in *.
  - destruct Hp as (? & ? & _). eauto.
  - destruct Hp as (_ & Herr). destruct (Hrel (bs_trace s) (bs_tabs s !! i) r) as (t & pt & Hok).
    congruence.
Qed.

Lemma runs_perform_ i r : reliable portal -> runs (live i) (perform_ i r) (fun _ => live i).
Proof.
  intros Hrel. eapply runs_bind; [by apply runs_perform | intros p]. apply runs_ret. naive_solver.
Qed.

(** After an effect that may open a popup, the tab the code goes on
    with ([popup ?? page]) is open. *)
Lemma runs_click_popup i t : reliable portal -> runs (live i) (click i t WithPopup) (fun p => live (p ?? i)).
Proof.
  intros Hrel. eapply runs_post; [by apply runs_perform | intros p s [Hl Hp]; by apply live_default].
Qed.
End Runs.

(** ** A concrete portal: a static site

    Each URL of the table shows a fixed DOM; every other effect succeeds
    and leaves the page as it is; an unknown URL fails to load. This is
    the environment used by the examples and witnesses. *)

Definition blank_dom : Dom :=
  {| dom_visible := []; dom_courts := []; dom_facility_name := None; dom_spans := [];
     dom_attendees := []; dom_body := ""; dom_error := None; dom_alert := None;
     dom_confirmation := None; dom_tables := []; dom_player_options := []; dom_buttons := [] |}.

Definition blank_tab : Tab := {| tab_url := "about:blank"; tab_dom := blank_dom |}.

Fixpoint site_lookup (pages : list (string * Dom)) (u : string) : option Dom :=
  match pages with
  | [] => None
  | (u', d) :: ps => if String.eqb u u' then Some d else site_lookup ps u
  end.

Definition site_respond (pages : list (string * Dom)) (_ : list Event) (cur : option Tab)
    (r : Request) : Outcome :=
  match r with
  | Goto u _ =>
      match site_lookup pages u with
      | Some d => Ok {| tab_url := u; tab_dom := d |} None
      | None => Err {| exn_name := PlainError; exn_message := "net::ERR_NAME_NOT_RESOLVED" |}
      end
  | _ => Ok (cur ?? blank_tab) None
  end.

Definition site_portal (pages : list (string * Dom)) : Portal := {| respond := site_respond pages |}.

End Browser.
