(* ===== verification/Loops.v ===== *)
(** * Counted loops

    The scanners iterate with [for (let i = lo; i < hi; i++)], threading
    the slots collected so far. [for_acc] is that loop in the browser
    monad, defined as the code runs it: test the guard, run the body,
    increment. Its recursion is on the variant [hi - i], so it is
    defined with Equations by well-founded recursion. The theorems show
    that the loop terminates after exactly [hi - lo] iterations, on the
    indices [lo], ..., [hi - 1] in order (it equals the structural
    [fold_m] over them), and give the rules that carry a loop invariant,
    the clock and a bound on the effects through it. *)

From Equations Require Import Equations.
From S2P Require Import Prelude Browser.

Module Loops.
Import Browser.

(** [for (let i = lo; i < hi; i++) acc = await body(i, acc)] *)
Equations? for_acc {A} (lo hi : nat) (acc : A) (body : nat -> A -> M A) : M A by wf (hi - lo) lt :=
  for_acc lo hi acc body with lt_dec lo hi => {
    | left _ => bind (body lo acc) (fun acc' => for_acc (S lo) hi acc' body);
    | right _ => ret acc }.
Proof. lia. Qed.

(** The body run on each index of a list, in order. *)
Fixpoint fold_m {A} (body : nat -> A -> M A) (l : list nat) (acc : A) : M A :=
  match l with
  | [] => ret acc
  | i :: l' => bind (body i acc) (fun acc' => fold_m body l' acc')
  end.

(** The loop terminates after [hi - lo] iterations: it is the body run
    on [lo], ..., [hi - 1], in order, and nothing else. *)
Lemma for_acc_fold_m {A} lo hi (acc : A) body s :
  for_acc lo hi acc body s = fold_m body (seq lo (hi - lo)) acc s.
Proof.
  revert s. funelim (for_acc lo hi acc body); intros s.
  - replace (hi - lo) with (S (hi - S lo)) by lia. simpl. unfold bind.
    destruct (body lo acc s) as [[a|e] s1]; [|done].
    match goal with IH : forall _ : A, _ |- _ => exact (IH a s1 s1) end.
  - by replace (hi - lo) with 0 by lia.
Qed.

Section Rules.
Context {portal : Portal}.

Lemma keeps_fold_m {A} (body : nat -> A -> M A) l acc :
  (forall i a, keeps_today (body i a)) -> keeps_today (fold_m body l acc).
Proof.
  intros Hb. revert acc. induction l as [|i l IH]; intros acc; simpl; [apply keeps_ret|].
  apply keeps_bind; [apply Hb | intros; apply IH].
Qed.

(** The loop-invariant rule: an invariant of the accumulator that every
    iteration keeps holds when the loop ends. *)
Lemma yields_fold_m {A} td (Inv : A -> Prop) (body : nat -> A -> M A) l acc :
  (forall i a, keeps_today (body i a)) -> (forall i a, Inv a -> yields td (body i a) Inv) ->
  Inv acc -> yields td (fold_m body l acc) Inv.
Proof.
  intros Hk Hb. revert acc. induction l as [|i l IH]; intros acc Ha; simpl; [by apply yields_ret|].
  eapply yields_bind; [apply Hk | by apply Hb | intros a' Ha'; by apply IH].
Qed.

Lemma grows_fold_m {A} (body : nat -> A -> M A) l acc n :
  (forall i a, grows (body i a) n) -> grows (fold_m body l acc) (n * length l).
Proof.
  intros Hb. revert acc. induction l as [|i l IH]; intros acc; simpl; [apply grows_ret|].
  replace (n * S (length l)) with (n + n * length l) by lia.
  apply grows_bind; [apply Hb | intros; apply IH].
Qed.

Lemma bind_ext {A B} (m : M A) (k k' : A -> M B) s :
  (forall a s', k a s' = k' a s') -> bind m k s = bind m k' s.
Proof. intros Hk. unfold bind. destruct (m s) as [[a|e] s1]; auto. Qed.

Lemma keeps_for_acc {A} lo hi (acc : A) body :
  (forall i a, keeps_today (body i a)) -> keeps_today (for_acc lo hi acc body).
Proof. intros Hb s. rewrite for_acc_fold_m. by apply keeps_fold_m. Qed.

Lemma yields_for_acc {A} td (Inv : A -> Prop) lo hi acc body :
  (forall i a, keeps_today (body i a)) -> (forall i a, Inv a -> yields td (body i a) Inv) ->
  Inv acc -> yields td (for_acc lo hi acc body) Inv.
Proof.
  intros Hk Hb Ha s a s' Hs E. rewrite for_acc_fold_m in E.
  exact (yields_fold_m td Inv body _ acc Hk Hb Ha s a s' Hs E).
Qed.

Lemma grows_for_acc {A} lo hi (acc : A) body n :
  (forall i a, grows (body i a) n) -> grows (for_acc lo hi acc body) (n * (hi - lo)).
Proof.
  intros Hb s. rewrite for_acc_fold_m.
  destruct (grows_fold_m body (seq lo (hi - lo)) acc n Hb s) as (tr & ? & ?).
  rewrite length_seq in *. eauto.
Qed.
End Rules.
End Loops.
