(* ===== verification/Auth.v ===== *)
(** * The authentication flow

    [ensureLoggedIn] of [ubc.ts] ([src/unnamed/part_003], lines
    213-317), split along the code's own sections:
    - the login-state check (lines 219-228);
    - the Login click, which may open a popup (URL1 to URL2, lines 230-237);
    - the CWL button, found through an ordered fallback chain (URL2 to
      URL3, lines 239-270);
    - the credentials: an environment check, two bounded waits, two
      fills, submit, and network settle (URL3, lines 272-303);
    - the return to the court list (URL4, lines 305-316).
    The configuration ([BASE_URL], [UBC_USER], [UBC_PASS]) is read from
    [process.env] (lines 207-209, 273-274). It is the record
    [ProcessEnv], a [Context] of the section.

    The abstract machine [auth_step] is the state machine of the
    spec's section 4.2, over the effects the code performs. Its
    credential form ([CredForm]) accepts a fill of the username field
    only with the configured [UBC_USER], then a fill of the password
    field only with the configured [UBC_PASS], both non-empty. The
    theorems show:
    - the flow is idempotent on an authenticated page;
    - every run of the code is a run of the machine, and ends in the
      state that matches its result (a refinement);
    - the missing-credentials error is raised before any credential
      effect;
    - on a portal that answers every effect, with the credentials set,
      the flow always returns an open page, by a run of the machine
      that ends back on the known page or on the court list
      (liveness). *)

From S2P Require Import Prelude JsString Browser.

Module Auth.
Import Browser.

(** [process.env] as [ubc.ts] reads it. *)
Record ProcessEnv := { UBC_BASE_URL : option string; UBC_USER : option string; UBC_PASS : option string }.

Definition DEFAULT_BASE_URL : string :=
  "https://ubc.perfectmind.com/24063/Clients/BookMe4FacilityList/List?calendarId=e65c1527-c4f8-4316-b6d6-3b174041f00e&widgetId=c7c36ee3-2494-4de2-b2cb-d50a86487656&embed=False&singleCalendarWidget=true".

(** [const BASE_URL = process.env.UBC_BASE_URL ?? "..."] *)
Definition BASE_URL (env : ProcessEnv) : string := UBC_BASE_URL env ?? DEFAULT_BASE_URL.

(** [BASE_URL.split("?")[0]] *)
Definition base_no_query (url : string) : string :=
  match Js.split "?" url with b :: _ => b | [] => "" end.

Definition missing_credentials : Exn :=
  {| exn_name := PlainError; exn_message := "UBC_USER and UBC_PASS must be set in environment" |}.

Section Flow.
Context {portal : Portal} (env : ProcessEnv).

(** URL1 to URL2: click Login, follow the popup if one opened, and wait
    for the DOM. *)
Definition click_login (page : nat) : M nat :=
  maybeNewPage <- click page (CAff ALoginText) WithPopup ;;
  let authPage := maybeNewPage ?? page in
  wait_load authPage DomContentLoaded None ;;
  ret authPage.

(** URL2 to URL3: the first visible CWL candidate, if any, is clicked. *)
Definition cwl_step (authPage : nat) : M nat :=
  d <- dom_of authPage ;;
  match first_match (fun c => visible (ACwl c) d) cwl_candidates with
  | Some c =>
      maybeCwlPage <- click authPage (CAff (ACwl c)) WithPopup ;;
      let authPage' := maybeCwlPage ?? authPage in
      wait_load authPage' DomContentLoaded None ;;
      ret authPage'
  | None => ret authPage
  end.

(** URL3: the credentials. *)
Definition credentials_step (authPage : nat) : M unit :=
  let user := UBC_USER env ?? "" in
  let pass := UBC_PASS env ?? "" in
  if bool_decide (user = "") || bool_decide (pass = "") then throw missing_credentials
  else
    wait_for authPage WUsername 60000 ;;
    wait_for authPage WPassword 60000 ;;
    fill authPage FUsername user ;;
    fill authPage FPassword pass ;;
    click_ authPage CSubmit Plain ;;
    wait_load authPage NetworkIdle (Some 60000%Z).

(** URL4: back to the court list unless already there. *)
Definition return_to_list (authPage : nat) : M unit :=
  u <- url_of authPage ;;
  if negb (Js.starts_with u (base_no_query (BASE_URL env)))
  then goto authPage (BASE_URL env) NetworkIdle
  else ret tt.

(** [async function ensureLoggedIn(context, page): Promise<Page>] *)
Definition ensureLoggedIn (page : nat) : M nat :=
  d <- dom_of page ;;
  if negb (visible ALoginText d) then ret page
  else
    authPage <- click_login page ;;
    authPage <- cwl_step authPage ;;
    credentials_step authPage ;;
    return_to_list authPage ;;
    ret authPage.
End Flow.

(** ** The spec's authentication state machine *)

(** The credential form's progress: shown, its password field shown, the
    user name filled, both filled. *)
Inductive CredForm := FormShown | PasswordShown | UserFilled | BothFilled.

Inductive AuthState :=
| Checking | AwaitingPortalRedirect | AwaitingIdpLink | AwaitingCredentialForm (f : CredForm)
| Submitting | AwaitingRedirectChain | ReturnedToKnownPage | Failed.

(** A credential field may be filled only with the configured value, and
    only when that value is not empty. *)
Definition cred_ok (expected v : string) : bool :=
  bool_decide (v = expected) && negb (bool_decide (v = "")).

(** The effect each state waits on, and the state it leads to. *)
Definition auth_next (base user pass : string) (st : AuthState) (r : Request) : option AuthState :=
  match st, r with
  | Checking, Click (CAff ALoginText) WithPopup => Some AwaitingPortalRedirect
  | AwaitingPortalRedirect, WaitForLoadState DomContentLoaded None => Some AwaitingIdpLink
  | AwaitingIdpLink, Click (CAff (ACwl _)) WithPopup => Some AwaitingIdpLink
  | AwaitingIdpLink, WaitForLoadState DomContentLoaded None => Some AwaitingIdpLink
  | AwaitingIdpLink, WaitFor WUsername 60000 => Some (AwaitingCredentialForm FormShown)
  | AwaitingCredentialForm FormShown, WaitFor WPassword 60000 => Some (AwaitingCredentialForm PasswordShown)
  | AwaitingCredentialForm PasswordShown, Fill FUsername v =>
      if cred_ok user v then Some (AwaitingCredentialForm UserFilled) else None
  | AwaitingCredentialForm UserFilled, Fill FPassword v =>
      if cred_ok pass v then Some (AwaitingCredentialForm BothFilled) else None
  | AwaitingCredentialForm BothFilled, Click CSubmit Plain => Some Submitting
  | Submitting, WaitForLoadState NetworkIdle (Some 60000) => Some AwaitingRedirectChain
  | AwaitingRedirectChain, Goto u NetworkIdle =>
      if bool_decide (u = base) then Some ReturnedToKnownPage else None
  | _, _ => None
  end%Z.

(** A successful answer moves to the next state; an error to [Failed]. *)
Inductive auth_step (base user pass : string) : AuthState -> Event -> AuthState -> Prop :=
| auth_ok st i r t p st' :
    auth_next base user pass st r = Some st' -> auth_step base user pass st (Ev i r (Ok t p)) st'
| auth_err st i r e st' :
    auth_next base user pass st r = Some st' -> auth_step base user pass st (Ev i r (Err e)) Failed.

(** The Login probe of [ensureLoggedIn]: the tab shows the Login text or not. *)
Definition login_shown (page : nat) (b : bool) (s : BState) : Prop :=
  exists t, bs_tabs s !! page = Some t /\ visible ALoginText (tab_dom t) = b.

Lemma cred_ok_refl v : v <> "" -> cred_ok v v = true.
Proof. intros Hv. unfold cred_ok. by rewrite bool_decide_eq_true_2, bool_decide_eq_false_2. Qed.

Section Proofs.
Context {portal : Portal} (env : ProcessEnv).
Local Abbreviation step := (auth_step (BASE_URL env) (UBC_USER env ?? "") (UBC_PASS env ?? "")).

Lemma auth_ok_step st i r t p st' :
  auth_next (BASE_URL env) (UBC_USER env ?? "") (UBC_PASS env ?? "") st r = Some st' ->
  step st (Ev i r (Ok t p)) st'.
Proof. apply auth_ok. Qed.

Lemma auth_err_step st i r e st' :
  auth_next (BASE_URL env) (UBC_USER env ?? "") (UBC_PASS env ?? "") st r = Some st' ->
  step st (Ev i r (Err e)) Failed.
Proof. apply auth_err. Qed.

Ltac auth_effect :=
  first [ eapply triple_effect_unit | eapply triple_effect ];
  intros; [eapply auth_ok_step | eapply auth_err_step]; simpl;
  rewrite ?cred_ok_refl by assumption; reflexivity.

(** A straight line of effects, each a step of the machine. *)
Ltac auth_chain :=
  repeat (eapply triple_bind;
          [auth_effect | intros ? ?; simpl; apply triple_pre_eq; intros -> | simpl; naive_solver]).

Lemma click_login_spec page :
  triple step Checking (live page) (click_login page)
    (fun r st s => match r with Ret a => st = AwaitingIdpLink /\ live a s | Throw _ => st = Failed end).
Proof.
  unfold click_login. eapply triple_bind; [auth_effect| |].
  - intros p st1. simpl. apply triple_pre_eq. intros ->.
    eapply triple_pre with (P' := live (p ?? page)).
    + eapply triple_bind; [auth_effect| |].
      * intros [] st2. simpl. apply triple_pre_eq. intros ->.
        apply triple_ret. naive_solver.
      * naive_solver.
    + intros s [Hl Hp]. by apply live_default.
  - naive_solver.
Qed.

Lemma cwl_step_spec authPage :
  triple step AwaitingIdpLink (live authPage) (cwl_step authPage)
    (fun r st s => match r with Ret a => st = AwaitingIdpLink /\ live a s | Throw _ => st = Failed end).
Proof.
  unfold cwl_step. eapply triple_bind; [apply triple_dom_of| |done].
  intros d st1. cbv beta iota. apply triple_pre_eq. intros ->.
  destruct (first_match (fun c => visible (ACwl c) d) cwl_candidates) as [c|].
  - eapply triple_bind; [auth_effect| |naive_solver].
    intros p st2. simpl. apply triple_pre_eq. intros ->.
    eapply triple_pre with (P' := live (p ?? authPage)).
    + auth_chain. apply triple_ret. naive_solver.
    + intros s [Hl Hp]. by apply live_default.
  - apply triple_ret. naive_solver.
Qed.

Lemma credentials_step_spec authPage :
  triple step AwaitingIdpLink (live authPage) (credentials_step env authPage)
    (fun r st s => match r with
                   | Ret _ => st = AwaitingRedirectChain /\ live authPage s
                   | Throw e => st = Failed \/ (st = AwaitingIdpLink /\ e = missing_credentials)
                   end).
Proof.
  unfold credentials_step. apply triple_if.
  - intros _. apply triple_throw. naive_solver.
  - intros [Hu Hp]%orb_false_iff.
    apply bool_decide_eq_false in Hu, Hp. auth_chain. apply triple_ret. naive_solver.
Qed.

(** The tab is on the court list: its URL starts with [BASE_URL]
    without its query. *)
Definition on_list (p : nat) (s : BState) : Prop :=
  exists t, bs_tabs s !! p = Some t /\ Js.starts_with (tab_url t) (base_no_query (BASE_URL env)) = true.

(** A completed login on page [p]: either [p] was sent back to
    [BASE_URL] by the last effect, or [p] already was on the court list. *)
Definition login_done (p : nat) (st : AuthState) (s : BState) : Prop :=
  live p s /\
  ((st = ReturnedToKnownPage /\
    exists t pt, last (bs_trace s) = Some (Ev p (Goto (BASE_URL env) NetworkIdle) (Ok t pt))) \/
   (st = AwaitingRedirectChain /\ on_list p s)).

Lemma return_to_list_spec p :
  triple step AwaitingRedirectChain (live p) (return_to_list env p)
    (fun r st s => match r with Ret _ => login_done p st s | Throw _ => st = Failed end).
Proof.
  unfold return_to_list. eapply triple_bind; [apply triple_url_of| |done].
  intros u st1. simpl. apply triple_pre_eq. intros ->. apply triple_if.
  - intros _. eapply triple_conseq.
    + eapply triple_effect_unit_last; intros;
        [eapply auth_ok_step | eapply auth_err_step]; simpl; by rewrite bool_decide_eq_true_2.
    + naive_solver.
    + intros [] st' s; unfold login_done; naive_solver.
  - intros Hbase. apply triple_ret. intros s (Hl & t & Ht & <-). split; [done|].
    right. split; [done|]. exists t. split; [done|]. by apply negb_false_iff.
Qed.

(** The outcome of a run of [ensureLoggedIn] from a page whose Login
    probe reads [b], by the machine's final state. *)
Definition auth_post (page : nat) (b : bool) (r : Res nat) (st : AuthState) (s : BState) : Prop :=
  match r with
  | Ret p => if b then login_done p st s else st = Checking /\ p = page /\ live p s
  | Throw e => st = Failed \/ (st = AwaitingIdpLink /\ e = missing_credentials)
  end.

Lemma ensureLoggedIn_triple page b :
  triple step Checking (fun s => live page s /\ login_shown page b s) (ensureLoggedIn env page)
    (auth_post page b).
Proof.
  unfold ensureLoggedIn. eapply triple_bind; [apply triple_dom_of_in; by intros s [? ?]| |done].
  intros d st1. cbv beta iota. apply triple_pre_eq. intros ->.
  eapply triple_pre with (P' := fun s => b = visible ALoginText d /\ live page s).
  2: { intros s [[Hl (t & Ht & Hb)] (t' & Ht' & <-)]. rewrite Ht in Ht'. by injection Ht' as ->. }
  apply triple_pure. intros ->. apply triple_if.
  - intros Hv%negb_true_iff. rewrite Hv. apply triple_ret. unfold auth_post. naive_solver.
  - intros Hv%negb_false_iff. rewrite Hv.
    eapply triple_bind; [apply click_login_spec| |unfold auth_post; naive_solver].
    intros a st2. cbv beta iota. apply triple_pre_eq. intros ->.
    eapply triple_bind; [apply cwl_step_spec| |unfold auth_post; naive_solver].
    intros c st3. cbv beta iota. apply triple_pre_eq. intros ->.
    eapply triple_bind; [apply credentials_step_spec| |unfold auth_post; naive_solver].
    intros [] st4. cbv beta iota. apply triple_pre_eq. intros ->.
    eapply triple_bind; [apply return_to_list_spec| |unfold auth_post; naive_solver].
    intros [] st5. cbv beta iota. apply triple_ret. by unfold auth_post.
Qed.

(** C4: refinement of the spec's authentication state machine. From an
    open page whose Login probe reads [b], every run of [ensureLoggedIn]
    performs a sequence of effects that the machine accepts from
    [Checking]: the Login click, the identity-provider link, the
    credential form filled with exactly the configured non-empty
    [UBC_USER] and then [UBC_PASS], the submit, the redirect chain. When
    the Login text is not shown, it returns the same page with no
    effect. When it is shown, a returned page has completed the login:
    it was navigated back to [BASE_URL] by the last effect, or it is on
    the court list. A run that throws ends in [Failed], or before any
    credential effect when [UBC_USER] or [UBC_PASS] is unset. *)
Theorem ensureLoggedIn_refines page b :
  triple step Checking (fun s => live page s /\ login_shown page b s) (ensureLoggedIn env page)
    (auth_post page b).
Proof. apply ensureLoggedIn_triple. Qed.

Lemma no_step_to_checking st e : ~ step st e Checking.
Proof.
  intros Hs. inversion Hs as [? ? r ? ? ? Hn|]; subst.
  destruct st, r; simpl in Hn; repeat case_match; discriminate.
Qed.

(** A run that ends in [Checking] performed no effect. *)
Lemma steps_checking st tr st'' : steps step st tr st'' -> st'' = Checking -> tr = [].
Proof.
  induction 1 as [|st e st' tr st'' Hs Hr IH]; [done|]. intros ->.
  specialize (IH eq_refl) as ->. inversion Hr; subst.
  by apply no_step_to_checking in Hs.
Qed.
End Proofs.

(** idempotence. On a page without a visible Login affordance,
    [ensureLoggedIn] returns the same page and performs no effect, so
    calling it twice in a row does nothing the second time. *)
Theorem ensureLoggedIn_idempotent {portal : Portal} env page s t :
  bs_tabs s !! page = Some t -> visible ALoginText (tab_dom t) = false ->
  ensureLoggedIn env page s = (Ret page, s) /\
  bind (ensureLoggedIn env page) (ensureLoggedIn env) s = (Ret page, s).
Proof.
  intros Ht Hv.
  assert (ensureLoggedIn env page s = (Ret page, s)) as E.
  { unfold ensureLoggedIn. rewrite (bind_Ret _ _ _ _ _ (dom_of_run _ _ _ Ht)), Hv. done. }
  split; [done|]. by rewrite (bind_Ret _ _ _ _ _ E).
Qed.

(** The flow does not change the clock's date. *)
Lemma ensureLoggedIn_keeps_today {portal : Portal} env page : keeps_today (ensureLoggedIn env page).
Proof. unfold ensureLoggedIn, click_login, cwl_step, credentials_step, return_to_list. keeps_tac. Qed.

#[export] Hint Resolve ensureLoggedIn_keeps_today : fb.

(** ** Costs: the number of effects of each phase *)

Lemma click_login_grows {portal : Portal} page : grows (click_login page) 2.
Proof. unfold click_login. grows_auto. Qed.

Lemma cwl_step_grows {portal : Portal} page : grows (cwl_step page) 2.
Proof. unfold cwl_step. grows_auto. Qed.

Lemma credentials_step_grows {portal : Portal} env page : grows (credentials_step env page) 6.
Proof. unfold credentials_step. grows_auto. Qed.

Lemma return_to_list_grows {portal : Portal} env page : grows (return_to_list env page) 1.
Proof. unfold return_to_list. grows_auto. Qed.

#[export] Hint Resolve click_login_grows cwl_step_grows credentials_step_grows return_to_list_grows : grows.

(** A login performs at most eleven effects. *)
Lemma ensureLoggedIn_grows {portal : Portal} env page : grows (ensureLoggedIn env page) 11.
Proof. unfold ensureLoggedIn. grows_auto. Qed.

#[export] Hint Resolve ensureLoggedIn_grows : grows.

(** ** Liveness: on a reliable portal the flow completes *)

Section Liveness.
Context {portal : Portal} (env : ProcessEnv) (Hrel : reliable portal).

(** A straight line of effects on one open tab. *)
Ltac runs_chain := repeat (eapply runs_bind; [by apply runs_perform_ | intros ?]).

Lemma click_login_runs page : runs (live page) (click_login page) (fun a => live a).
Proof.
  unfold click_login. eapply runs_bind; [by apply runs_click_popup | intros p].
  runs_chain. by apply runs_ret.
Qed.

Lemma cwl_step_runs authPage : runs (live authPage) (cwl_step authPage) (fun a => live a).
Proof.
  unfold cwl_step. eapply runs_bind; [apply runs_dom_of | intros d].
  destruct (first_match _ _) as [c|]; [|by apply runs_ret].
  eapply runs_bind; [by apply runs_click_popup | intros p]. runs_chain. by apply runs_ret.
Qed.

Lemma credentials_step_runs authPage :
  UBC_USER env ?? "" <> "" -> UBC_PASS env ?? "" <> "" ->
  runs (live authPage) (credentials_step env authPage) (fun _ => live authPage).
Proof.
  intros Hu Hp. unfold credentials_step.
  rewrite (bool_decide_eq_false_2 _ Hu), (bool_decide_eq_false_2 _ Hp). simpl.
  runs_chain. by apply runs_perform_.
Qed.

Lemma return_to_list_runs p : runs (live p) (return_to_list env p) (fun _ => live p).
Proof.
  unfold return_to_list. eapply runs_bind; [apply runs_url_of | intros u].
  case_if; [by apply runs_perform_ | by apply runs_ret].
Qed.

(** The flow returns on a reliable portal once the credentials are set. *)
Lemma ensureLoggedIn_runs page :
  UBC_USER env ?? "" <> "" -> UBC_PASS env ?? "" <> "" ->
  runs (live page) (ensureLoggedIn env page) (fun p => live p).
Proof.
  intros Hu Hp. unfold ensureLoggedIn. eapply runs_bind; [apply runs_dom_of | intros d].
  case_if; [by apply runs_ret|].
  eapply runs_bind; [apply click_login_runs | intros a].
  eapply runs_bind; [apply cwl_step_runs | intros b].
  eapply runs_bind; [by apply credentials_step_runs | intros ?].
  eapply runs_bind; [apply return_to_list_runs | intros ?]. by apply runs_ret.
Qed.

(** C5: liveness of the login. On a portal that answers every effect,
    with [UBC_USER] and [UBC_PASS] set, from an open page showing the
    Login text, [ensureLoggedIn] always completes the login: it returns
    a page, its effects are a run of the spec's machine from [Checking]
    (so the configured credentials were filled and submitted), and the
    machine ends in a completed state on the returned page. *)
Theorem ensureLoggedIn_completes page s :
  UBC_USER env ?? "" <> "" -> UBC_PASS env ?? "" <> "" ->
  live page s -> login_shown page true s ->
  exists p, fst (ensureLoggedIn env page s) = Ret p /\
    exists tr st', bs_trace (snd (ensureLoggedIn env page s)) = bs_trace s ++ tr /\
      steps (auth_step (BASE_URL env) (UBC_USER env ?? "") (UBC_PASS env ?? "")) Checking tr st' /\
      login_done env p st' (snd (ensureLoggedIn env page s)).
Proof.
  intros Hu Hp Hl Hb.
  destruct (ensureLoggedIn_runs page Hu Hp s Hl) as (p & Hr & _).
  destruct (ensureLoggedIn_triple env page true s (conj Hl Hb)) as (tr & st' & H1 & H2 & H3).
  rewrite Hr in H3. exists p. split; [done|]. eauto.
Qed.
End Liveness.

(** ** Witnesses on a static site *)

Definition demo_env : ProcessEnv :=
  {| UBC_BASE_URL := None; UBC_USER := Some "user"; UBC_PASS := Some "secret" |}.

Definition list_dom (login : bool) : Dom :=
  {| dom_visible := if login then [ALoginText] else []; dom_courts := [];
     dom_facility_name := None; dom_spans := []; dom_attendees := []; dom_body := "";
     dom_error := None; dom_alert := None; dom_confirmation := None; dom_tables := []; dom_player_options := []; dom_buttons := [] |}.

Definition demo_state (login : bool) : BState :=
  {| bs_life := Running; bs_tabs := [{| tab_url := DEFAULT_BASE_URL; tab_dom := list_dom login |}];
     bs_trace := []; bs_today := "2026-11-09" |}.

Definition demo_portal : Portal := site_portal [(DEFAULT_BASE_URL, list_dom false)].

(** A portal that answers every effect and leaves the page as it is. *)
Definition answering_portal : Portal := {| respond := fun _ cur _ => Ok (cur ?? blank_tab) None |}.

Lemma answering_reliable : reliable answering_portal.
Proof. intros tr ot r. eexists _, _. reflexivity. Qed.

Lemma ensureLoggedIn_completes_witness :
  reliable answering_portal /\ UBC_USER demo_env ?? "" <> "" /\ UBC_PASS demo_env ?? "" <> "" /\
  live 0 (demo_state true) /\ login_shown 0 true (demo_state true) /\
  exists p, fst (ensureLoggedIn (portal := answering_portal) demo_env 0 (demo_state true)) = Ret p /\
    exists tr st', bs_trace (snd (ensureLoggedIn (portal := answering_portal) demo_env 0 (demo_state true))) =
                   bs_trace (demo_state true) ++ tr /\
      steps (auth_step (BASE_URL demo_env) (UBC_USER demo_env ?? "") (UBC_PASS demo_env ?? "")) Checking tr st' /\
      login_done demo_env p st' (snd (ensureLoggedIn (portal := answering_portal) demo_env 0 (demo_state true))).
Proof.
  assert (Hl : live 0 (demo_state true)) by (split; [reflexivity | eexists; reflexivity]).
  assert (Hb : login_shown 0 true (demo_state true)) by (eexists; split; reflexivity).
  assert (Hu : UBC_USER demo_env ?? "" <> "") by discriminate.
  assert (Hp : UBC_PASS demo_env ?? "" <> "") by discriminate.
  split; [apply answering_reliable|]. split; [exact Hu|]. split; [exact Hp|].
  split; [exact Hl|]. split; [exact Hb|].
  exact (ensureLoggedIn_completes (portal := answering_portal) demo_env answering_reliable 0 (demo_state true)
           Hu Hp Hl Hb).
Defined.

Lemma ensureLoggedIn_idempotent_witness :
  ensureLoggedIn (portal := demo_portal) demo_env 0 (demo_state false) = (Ret 0, demo_state false).
Proof.
  exact (proj1 (ensureLoggedIn_idempotent (portal := demo_portal) demo_env 0 (demo_state false)
                 {| tab_url := DEFAULT_BASE_URL; tab_dom := list_dom false |} eq_refl eq_refl)).
Defined.

(** A full login on the static site: the Login text is visible, no CWL
    button is, and the page already is the court list afterwards. *)
Lemma ensureLoggedIn_refines_witness :
  live 0 (demo_state true) /\ login_shown 0 true (demo_state true) /\
  exists tr st', bs_trace (snd (ensureLoggedIn (portal := demo_portal) demo_env 0 (demo_state true))) =
                 bs_trace (demo_state true) ++ tr /\
    steps (auth_step (BASE_URL demo_env) (UBC_USER demo_env ?? "") (UBC_PASS demo_env ?? "")) Checking tr st' /\
    auth_post demo_env 0 true (fst (ensureLoggedIn (portal := demo_portal) demo_env 0 (demo_state true))) st'
      (snd (ensureLoggedIn (portal := demo_portal) demo_env 0 (demo_state true))).
Proof.
  assert (H : live 0 (demo_state true)) by (split; [reflexivity | eexists; reflexivity]).
  assert (Hb : login_shown 0 true (demo_state true)) by (eexists; split; reflexivity).
  split; [exact H|]. split; [exact Hb|].
  exact (ensureLoggedIn_refines (portal := demo_portal) demo_env 0 true (demo_state true) (conj H Hb)).
Defined.

End Auth.
