(* ===== verification/Scanner.v ===== *)
(** * The availability scanner

    The read path of [ubc.ts] ([src/unnamed/part_003]):
    - [extractSlotsFromScheduler] (lines 344-479), which turns the "Book
      Now" tiles of a facility page into slots. [extract_span] models one
      iteration of its loop, with its guards in the code's order:
      visibility, the exact "Book Now" text, the availability check of
      the [evaluate] script (lines 380-399), the title's time range, the
      12h-to-24h conversion, the preference filter, and the date from
      [data-date];
    - [scanCourtsAndSlots] (lines 483-584). [scan_court] models one court:
      the label, the facility URL from [href] or a click, the navigation,
      the facility-page name, the extraction, and the return to the
      list. [scan_from] loops over the first [min(count, 10)] courts;
    - [checkAvailability] (lines 588-630): launch, context and page,
      then under [try/finally browser.close()] the list page, the login,
      the scan, and the sort or the stub slot.
    [new URL(href, BASE_URL).toString()] is [url_resolve], on absolute,
    scheme-relative, root-relative, query-only and path-relative
    references; it does no normalisation. *)

From S2P Require Import Prelude JsString TimeFormat Preferences Slots Browser Auth.
From Stdlib Require Import Sorted Permutation.

Module Scanner.
Import Browser Slots.

(** ** One "Book Now" tile *)

(** [.filter({ hasText: /Book Now/i })] *)
Definition has_book_now (sp : Span) : bool := Js.includes (Js.to_lower (sp_text sp)) "book now".

(** [/^book\s+now$/i.test(textContent)] *)
Definition is_book_now (t : string) : bool :=
  match Js.to_lower t with
  | String "b" (String "o" (String "o" (String "k" r))) =>
      let '(ws, rest) := TimeFormat.span_ws r in
      negb (bool_decide (ws = "")) && bool_decide (rest = "now")
  | _ => false
  end.

(** [/unavailable|disabled|booked|reserved|full|past|expired/i.test(classes)] *)
Definition unavailable_class (cls : string) : bool :=
  existsb (Js.includes (Js.to_lower cls))
    ["unavailable"; "disabled"; "booked"; "reserved"; "full"; "past"; "expired"].

(** The [isAvailable] script: no tile means available. *)
Definition is_available (sp : Span) : bool :=
  match sp_box sp with
  | None => true
  | Some b =>
      let hasUnavailable := unavailable_class (sb_class b) in
      let isHidden := bool_decide (sb_display b = "none") || bool_decide (sb_visibility b = "hidden") ||
                      negb (QArith_base.Qle_bool (QArith_base.Qmake 1 10) (sb_opacity b)) in
      let hasNoPointerEvents := bool_decide (sb_pointer_events b = "none") in
      let isDisabled := sb_disabled_attr b || bool_decide (sb_aria_disabled b = Some "true") in
      negb hasUnavailable && negb isHidden && negb hasNoPointerEvents && negb isDisabled
  end.

(** [/^\d{4}-\d{2}-\d{2}$/] *)
Definition is_iso_date (s : string) : bool :=
  match s with
  | String y1 (String y2 (String y3 (String y4 (String "-" (String m1 (String m2
      (String "-" (String d1 (String d2 "")))))))))
      => forallb Js.is_digit [y1; y2; y3; y4; m1; m2; d1; d2]
  | _ => false
  end.

(** One iteration of the loop of [extractSlotsFromScheduler]: the slot
    the tile yields, if any. [durationMinutes] of two outputs of [to24h]
    is always a number, so [minutes] never takes the default. *)
Definition extract_span (today url courtLabel : string) (prefs : Preferences.Preferences)
    (sp : Span) : option Slot :=
  if negb (sp_visible sp) then None
  else if negb (is_book_now (Js.trim (sp_text sp))) then None
  else if negb (is_available sp) then None
  else
    let titleAttr := sp_title sp ?? "" in
    match TimeFormat.match_time_range titleAttr with
    | None => None
    | Some (g1, g2) =>
        match TimeFormat.to24h g1, TimeFormat.to24h g2 with
        | Some start24, Some end24 =>
            let mins := TimeFormat.durationMinutes start24 end24 in
            if Preferences.passes_prefs prefs start24 mins then
              let dateIso := sp_date sp ?? "" in
              Some {| date_iso := if is_iso_date dateIso then dateIso else today;
                      time_24h := start24; minutes := mins ?? 0%Z;
                      location := courtLabel; deep_link := Some url |}
            else None
        | _, _ => None
        end
    end.

(** The pure part of [extractSlotsFromScheduler] on a page's DOM. *)
Definition extract_slots (today url courtLabel : string) (prefs : Preferences.Preferences)
    (d : Dom) : list Slot :=
  omap (extract_span today url courtLabel prefs) (filter (fun sp => has_book_now sp = true) (dom_spans d)).

(** ** [new URL(href, base).toString()] *)

Fixpoint take_until (c : ascii) (s : string) : string :=
  match s with "" => "" | String x r => if Ascii.eqb x c then "" else String x (take_until c r) end.

Fixpoint drop_through (c : ascii) (s : string) : string :=
  match s with "" => "" | String x r => if Ascii.eqb x c then r else drop_through c r end.

(** ["https:"] *)
Definition scheme_of (base : string) : string := take_until ":" base +:+ ":".

(** ["https://host"] *)
Definition origin_of (base : string) : string :=
  let rest := drop_through ":" base in
  let host := take_until "/" (drop_through "/" (drop_through "/" rest)) in
  scheme_of base +:+ "//" +:+ host.

(** The base's path up to and including its last ['/']. *)
Definition directory_of (base : string) : string :=
  String.rev (String "/" (drop_through "/" (String.rev (Auth.base_no_query base)))).

Definition url_resolve (href base : string) : string :=
  if Js.starts_with href "http://" || Js.starts_with href "https://" then href
  else if Js.starts_with href "//" then scheme_of base +:+ href
  else if Js.starts_with href "/" then origin_of base +:+ href
  else if Js.starts_with href "?" then Auth.base_no_query base +:+ href
  else directory_of base +:+ href.

(** ** One court of the list *)

(** [let courtLabel = `Court ${i + 1}`], replaced by the trimmed text of
    the card's visible heading when it is non-empty. *)
Definition card_label (i : nat) (c : CourtCard) : string :=
  let dflt := "Court " +:+ Js.nat_to_string (S i) in
  if cc_item_visible c then
    match cc_heading c with
    | Some t => let t' := Js.trim t in if bool_decide (t' = "") then dflt else t'
    | None => dflt
    end
  else dflt.

(** The visible [h1.facility-name] of the facility page, trimmed, when
    non-empty; otherwise the label found so far. *)
Definition facility_label (d : Dom) (courtLabel : string) : string :=
  match dom_facility_name d with
  | Some n => let n' := Js.trim n in if bool_decide (n' = "") then courtLabel else n'
  | None => courtLabel
  end.

(** [chooseButtons.nth(i).getAttribute("href")] on a list that no longer
    has an [i]-th button: Playwright waits for it and times out. *)
Definition nth_timeout : Exn :=
  {| exn_name := TimeoutError; exn_message := "locator.getAttribute: Timeout 30000ms exceeded." |}.

Section Scan.
Context {portal : Portal} (env : Auth.ProcessEnv).

(** [async function extractSlotsFromScheduler(page, prefs, courtLabel)] *)
Definition extractSlotsFromScheduler (page : nat) (prefs : Preferences.Preferences)
    (courtLabel : string) : M (list Slot) :=
  d <- dom_of page ;;
  u <- url_of page ;;
  td <- today ;;
  ret (extract_slots td u courtLabel prefs d).

(** The body of the [for] loop of [scanCourtsAndSlots] for court [i]. *)
Definition scan_court (page : nat) (prefs : Preferences.Preferences) (i : nat) : M (list Slot) :=
  d <- dom_of page ;;
  match dom_courts d !! i with
  | None => throw nth_timeout
  | Some c =>
      let courtLabel := card_label i c in
      facilityUrl <-
        (match cc_href c with
         | Some href =>
             if bool_decide (href = "") then click_ page (CChoose i) WithNavigation ;; url_of page
             else ret (url_resolve href (Auth.BASE_URL env))
         | None => click_ page (CChoose i) WithNavigation ;; url_of page
         end) ;;
      goto page facilityUrl NetworkIdle ;;
      d2 <- dom_of page ;;
      let courtLabel := facility_label d2 courtLabel in
      slotsHere <- extractSlotsFromScheduler page prefs courtLabel ;;
      goto page (Auth.BASE_URL env) NetworkIdle ;;
      ret slotsHere
  end.

(** Courts [i], [i+1], ..., [i+k-1], in order; [allSlots.push(...)]. *)
Fixpoint scan_from (page : nat) (prefs : Preferences.Preferences) (k i : nat) : M (list Slot) :=
  match k with
  | O => ret []
  | S k' =>
      slotsHere <- scan_court page prefs i ;;
      rest <- scan_from page prefs k' (S i) ;;
      ret (slotsHere ++ rest)
  end.

(** [async function scanCourtsAndSlots(context, page, prefs)] *)
Definition scanCourtsAndSlots (page : nat) (prefs : Preferences.Preferences) : M (list Slot) :=
  d <- dom_of page ;;
  let count := length (dom_courts d) in
  let limit := Nat.min count 10 in
  scan_from page prefs limit 0.

(** The guarded block of [checkAvailability]. *)
Definition check_body (page : nat) (prefs : Preferences.Preferences) : M (list Slot) :=
  goto page (Auth.BASE_URL env) NetworkIdle ;;
  page <- Auth.ensureLoggedIn env page ;;
  slots <- scanCourtsAndSlots page prefs ;;
  if bool_decide (0 < length slots)%nat then ret (sort_slots slots)
  else
    todayIso <- today ;;
    ret [stub_slot todayIso (Auth.BASE_URL env) prefs].

(** [export async function checkAvailability(prefs): Promise<Slot[]>] *)
Definition checkAvailability (prefs : Preferences.Preferences) : M (list Slot) :=
  launch ;;
  new_context ;;
  page <- new_page ;;
  try_finally (check_body page prefs) close_browser.
End Scan.

(** ** Properties of the extraction *)

(** A slot of a tile: the checks passed, the conversions of the range,
    and the slot built from them. *)
Lemma extract_span_inv today url courtLabel prefs sp sl :
  extract_span today url courtLabel prefs sp = Some sl ->
  sp_visible sp = true /\ is_book_now (Js.trim (sp_text sp)) = true /\ is_available sp = true /\
  exists s24 e24 d g1 g2, TimeFormat.match_time_range (sp_title sp ?? "") = Some (g1, g2) /\
    TimeFormat.to24h g1 = Some s24 /\ TimeFormat.to24h g2 = Some e24 /\
    TimeFormat.durationMinutes s24 e24 = Some d /\ Preferences.passes_prefs prefs s24 (Some d) = true /\
    sl = {| date_iso := if is_iso_date (sp_date sp ?? "") then sp_date sp ?? "" else today;
            time_24h := s24; minutes := d; location := courtLabel; deep_link := Some url |}.
Proof.
  unfold extract_span.
  destruct (sp_visible sp); [|done]. destruct (is_book_now _); [|done].
  destruct (is_available sp); [|done]. simpl.
  destruct (TimeFormat.match_time_range _) as [[g1 g2]|] eqn:Hm; [|done].
  destruct (TimeFormat.to24h g1) as [s24|] eqn:H1; [|done].
  destruct (TimeFormat.to24h g2) as [e24|] eqn:H2; [|done].
  destruct (TimeFormat.durationMinutes_to24h _ _ _ _ H1 H2) as [d Hd]. rewrite Hd.
  destruct (Preferences.passes_prefs prefs s24 (Some d)) eqn:Hp; [|done].
  intros [= <-]. split_and!; try done. exists s24, e24, d, g1, g2. done.
Qed.

(** C11: every slot extracted from a tile comes from a visible tile whose
    text is exactly "Book Now" and which the availability check accepts.
    Its time is the 24-hour start of the title's range, its duration is
    [durationMinutes] of the range (a number), it passes the preference
    filter, and it carries the court label and the page URL. *)
Theorem extract_span_sound today url courtLabel prefs sp sl :
  extract_span today url courtLabel prefs sp = Some sl ->
  sp_visible sp = true /\ is_book_now (Js.trim (sp_text sp)) = true /\ is_available sp = true /\
  location sl = courtLabel /\ deep_link sl = Some url /\
  exists g1 g2 end24,
    TimeFormat.match_time_range (sp_title sp ?? "") = Some (g1, g2) /\
    TimeFormat.to24h g1 = Some (time_24h sl) /\ TimeFormat.to24h g2 = Some end24 /\
    TimeFormat.durationMinutes (time_24h sl) end24 = Some (minutes sl) /\
    Preferences.passes_prefs prefs (time_24h sl) (Some (minutes sl)) = true.
Proof.
  intros (? & ? & ? & s24 & e24 & d & g1 & g2 & ? & ? & ? & ? & ? & ->)%extract_span_inv.
  simpl. split_and!; eauto 10.
Qed.

(** A tile that is not visible, or whose title has no time range, yields
    no slot. *)
Lemma extract_span_In today url courtLabel prefs d sl :
  sl ∈ extract_slots today url courtLabel prefs d ->
  exists sp, sp ∈ dom_spans d /\ has_book_now sp = true /\
             extract_span today url courtLabel prefs sp = Some sl.
Proof.
  unfold extract_slots. intros (sp & Hin & Hsp)%list_elem_of_omap.
  apply list_elem_of_filter in Hin as [Hb Hin]. eauto.
Qed.

(** The location and the preference filter of an extracted slot. *)
Lemma extract_span_location today url courtLabel prefs sp sl :
  extract_span today url courtLabel prefs sp = Some sl ->
  location sl = courtLabel /\ Preferences.passes_prefs prefs (time_24h sl) (Some (minutes sl)) = true.
Proof.
  intros (_ & _ & _ & s24 & e24 & d & g1 & g2 & _ & _ & _ & _ & Hp & ->)%extract_span_inv. done.
Qed.

Lemma extract_slots_location today url courtLabel prefs d :
  Forall (fun sl => location sl = courtLabel /\
             Preferences.passes_prefs prefs (time_24h sl) (Some (minutes sl)) = true)
    (extract_slots today url courtLabel prefs d).
Proof.
  apply Forall_forall. intros sl Hsl.
  destruct (extract_span_In _ _ _ _ _ _ Hsl) as (sp & _ & _ & Hx).
  by apply extract_span_location in Hx.
Qed.

(** ** Properties of the scan *)

(** A slot the scan may report: a non-empty location, and the
    preference filter passed. *)
Definition good (prefs : Preferences.Preferences) (sl : Slot) : Prop :=
  location sl <> "" /\ Preferences.passes_prefs prefs (time_24h sl) (Some (minutes sl)) = true.

Lemma card_label_nonempty i c : card_label i c <> "".
Proof.
  unfold card_label. destruct (cc_item_visible c); [destruct (cc_heading c)|];
    [case_bool_decide|..]; done.
Qed.

Lemma facility_label_nonempty d l : l <> "" -> facility_label d l <> "".
Proof. unfold facility_label. destruct (dom_facility_name d); [case_bool_decide|]; done. Qed.

#[local] Hint Resolve Auth.ensureLoggedIn_keeps_today : fb.

Section ScanProofs.
Context {portal : Portal} (env : Auth.ProcessEnv) (prefs : Preferences.Preferences).

Lemma reads_extract page label : reads (extractSlotsFromScheduler page prefs label).
Proof.
  unfold extractSlotsFromScheduler.
  repeat (apply reads_bind; [auto with fb | intros ?]). apply reads_ret.
Qed.

Lemma keeps_scan_court page i : keeps_today (scan_court env page prefs i).
Proof. unfold scan_court. keeps_tac; apply keeps_reads, reads_extract. Qed.

Lemma keeps_scan_from page k i : keeps_today (scan_from env page prefs k i).
Proof.
  revert i. induction k as [|k IH]; intros i; simpl; [apply keeps_ret|].
  apply keeps_bind; [apply keeps_scan_court | intros ?].
  apply keeps_bind; [apply IH | intros ?]. apply keeps_ret.
Qed.

Lemma keeps_scan page : keeps_today (scanCourtsAndSlots env page prefs).
Proof.
  apply keeps_bind; [apply keeps_reads; auto with fb | intros ?]. apply keeps_scan_from.
Qed.

Lemma extract_yields td page label :
  label <> "" -> yields td (extractSlotsFromScheduler page prefs label) (Forall (good prefs)).
Proof.
  intros Hl. unfold extractSlotsFromScheduler. do 3 yields_skip. apply yields_ret.
  eapply Forall_impl; [apply extract_slots_location|]. intros sl [Hloc ?]. split; [by rewrite Hloc | done].
Qed.

Lemma scan_court_yields td page i : yields td (scan_court env page prefs i) (Forall (good prefs)).
Proof.
  unfold scan_court. yields_skip. case_match; [|apply yields_throw]. do 3 yields_skip.
  eapply yields_bind; [apply keeps_reads, reads_extract | |].
  - apply extract_yields, facility_label_nonempty, card_label_nonempty.
  - intros l Hl. yields_skip. by apply yields_ret.
Qed.

Lemma scan_from_yields td page k i : yields td (scan_from env page prefs k i) (Forall (good prefs)).
Proof.
  revert i. induction k as [|k IH]; intros i; simpl; [by apply yields_ret|].
  eapply yields_bind; [apply keeps_scan_court | apply scan_court_yields | intros l1 H1].
  eapply yields_bind; [apply keeps_scan_from | apply IH | intros l2 H2].
  apply yields_ret. by apply Forall_app.
Qed.

Lemma scan_yields td page : yields td (scanCourtsAndSlots env page prefs) (Forall (good prefs)).
Proof. unfold scanCourtsAndSlots. yields_skip. apply scan_from_yields. Qed.

(** What [checkAvailability] may return, on date [td]. *)
Definition avail_post (td : string) (l : list Slot) : Prop :=
  l = [stub_slot td (Auth.BASE_URL env) prefs] \/
  (l <> [] /\ Sorted slot_leP l /\ Forall (good prefs) l).

Lemma check_body_yields td page : yields td (check_body env page prefs) (avail_post td).
Proof.
  unfold check_body. do 2 yields_skip.
  eapply yields_bind; [apply keeps_scan | apply scan_yields | intros l Hl].
  cbv beta. case_bool_decide as Hlen.
  - apply yields_ret. right. destruct (sort_slots_sorted_perm l) as (Hs & Hp).
    split; [|split; [done|]].
    + intros Hnil. rewrite Hnil in Hp. apply Permutation_nil in Hp. subst. simpl in Hlen. lia.
    + by rewrite Hp.
  - eapply yields_bind; [apply keeps_reads; auto with fb | apply yields_today | intros t ->].
    apply yields_ret. by left.
Qed.

Lemma check_yields td : yields td (checkAvailability env prefs) (avail_post td).
Proof. unfold checkAvailability. do 3 yields_skip. apply yields_try_finally, check_body_yields. Qed.

(** [finally { await browser.close() }] runs last and closes the browser. *)
Lemma try_finally_close {A} (m : M A) s :
  bs_life (snd (try_finally m close_browser s)) = Closed /\
  last (bs_trace (snd (try_finally m close_browser s))) = Some EvClose.
Proof. unfold try_finally. destruct (m s). simpl. by rewrite last_snoc. Qed.
End ScanProofs.

Section ScanCost.
Context {portal : Portal} (env : Auth.ProcessEnv) (prefs : Preferences.Preferences).

Lemma grows_bind_le {A B} (m : M A) (k : A -> M B) a b n :
  grows m a -> (forall x, grows (k x) b) -> (a + b <= n)%nat -> grows (bind m k) n.
Proof. intros Hm Hk Hn. eapply grows_mono; [by apply grows_bind | done]. Qed.

Ltac grows_leaf :=
  first [ apply grows_perform_ | apply grows_perform | apply grows_ret | apply grows_throw
        | apply grows_reads; solve [auto with fb | apply reads_extract] ].

(** [m] costs [a] effects, and what follows it [b]. *)
Ltac grows_seq a b := apply (grows_bind_le _ _ a b); [try grows_leaf | intros ? | lia].

(** One court: a navigation to its page and one back, and a click when
    the card has no [href]. *)
Lemma scan_court_grows page i : grows (scan_court env page prefs i) 3.
Proof.
  unfold scan_court. grows_seq 0 3. case_match; [|grows_leaf].
  grows_seq 1 2.
  - repeat case_match; try grows_leaf; grows_seq 1 0; grows_leaf.
  - grows_seq 1 1. grows_seq 0 1. grows_seq 0 1. grows_seq 1 0. grows_leaf.
Qed.

Lemma scan_from_grows page k i : grows (scan_from env page prefs k i) (3 * k).
Proof.
  revert i. induction k as [|k IH]; intros i; simpl; [grows_leaf|].
  apply (grows_bind_le _ _ 3 (3 * k)); [apply scan_court_grows | intros ? | lia].
  grows_seq (3 * k) 0; [apply IH | grows_leaf].
Qed.
End ScanCost.

Section Availability.
Context {portal : Portal} (env : Auth.ProcessEnv) (prefs : Preferences.Preferences).

(** C16: the scan visits at most ten courts. Whatever the portal
    answers, [scanCourtsAndSlots] performs at most 30 effects: three
    per court for at most [min(count, 10)] courts. *)
Theorem scanCourtsAndSlots_bounded page : grows (scanCourtsAndSlots env page prefs) 30.
Proof.
  unfold scanCourtsAndSlots. apply (grows_bind_le _ _ 0 30); [by apply grows_reads, reads_dom_of | intros d | lia].
  eapply grows_mono; [apply scan_from_grows | lia].
Qed.

(** C1: the result of [checkAvailability]. When it returns, the
    browser is closed and the list is either the stub slot of the
    day, or non-empty, sorted by (date, time), and made of slots with
    a non-empty location that pass the preference filter. *)
Theorem checkAvailability_result s l s' :
  checkAvailability env prefs s = (Ret l, s') ->
  bs_life s' = Closed /\ avail_post env prefs (bs_today s) l.
Proof.
  intros E. split; [|by eapply check_yields].
  apply bind_Ret_inv in E as (_ & s1 & _ & E). apply bind_Ret_inv in E as (_ & s2 & _ & E).
  apply bind_Ret_inv in E as (p & s3 & _ & E).
  replace s' with (snd (try_finally (check_body env p prefs) close_browser s3)) by (by rewrite E).
  apply try_finally_close.
Qed.

(** C7: once the page exists, the browser is closed on every exit:
    after a result or an exception of the guarded block, the last
    effect is [browser.close()]. *)
Theorem checkAvailability_closes s s1 s2 p s3 :
  launch s = (Ret tt, s1) -> new_context s1 = (Ret tt, s2) -> new_page s2 = (Ret p, s3) ->
  bs_life (snd (checkAvailability env prefs s)) = Closed /\
  last (bs_trace (snd (checkAvailability env prefs s))) = Some EvClose.
Proof.
  intros H1 H2 H3. unfold checkAvailability.
  rewrite (bind_Ret _ _ _ _ _ H1), (bind_Ret _ _ _ _ _ H2), (bind_Ret _ _ _ _ _ H3).
  apply try_finally_close.
Qed.
End Availability.

(** ** Witnesses on a static site *)

Definition demo_facility_url : string :=
  "https://ubc.perfectmind.com/24063/Clients/BookMe4LandingPages/Facility?facilityId=1".

Definition demo_tile (title : string) : Span :=
  {| sp_text := "Book Now"; sp_visible := true; sp_box := None; sp_title := Some title; sp_date := None |}.

(** The court list with one card, linked by a root-relative [href]. *)
Definition demo_list : Dom :=
  {| dom_visible := [];
     dom_courts := [{| cc_item_visible := true; cc_heading := Some " Court 01 ";
                       cc_href := Some "/24063/Clients/BookMe4LandingPages/Facility?facilityId=1";
                       cc_card_text := Some "Court 01 Choose" |}];
     dom_facility_name := None; dom_spans := []; dom_attendees := []; dom_body := "";
     dom_error := None; dom_alert := None; dom_confirmation := None; dom_tables := []; dom_player_options := []; dom_buttons := [] |}.

(** The facility page: two free tiles, one in the afternoon, one in the evening. *)
Definition demo_facility : Dom :=
  {| dom_visible := []; dom_courts := []; dom_facility_name := Some "Tennis Court 1";
     dom_spans := [demo_tile "3:00 PM-4:00 PM"; demo_tile "7:00 PM-8:00 PM"];
     dom_attendees := []; dom_body := ""; dom_error := None; dom_alert := None;
     dom_confirmation := None; dom_tables := []; dom_player_options := []; dom_buttons := [] |}.

Definition demo_site : Portal :=
  site_portal [(Auth.DEFAULT_BASE_URL, demo_list); (demo_facility_url, demo_facility)].

Definition demo_start : BState :=
  {| bs_life := NotLaunched; bs_tabs := []; bs_trace := []; bs_today := "2026-11-09" |}.

(** Courts from 18:00 to 22:00. *)
Definition evening : Preferences.Preferences :=
  {| Preferences.days_ahead := None; Preferences.start_hour := Some 18%Z;
     Preferences.end_hour := Some 22%Z; Preferences.min_minutes := None;
     Preferences.indoor_only := None; Preferences.locations := None; Preferences.dates := None |}.

Definition demo_evening_slot : Slot :=
  {| date_iso := "2026-11-09"; time_24h := "19:00"; minutes := 60; location := "Tennis Court 1";
     deep_link := Some demo_facility_url |}.

(** The scan on the static site finds the evening tile only: the facility
    page's name replaces the card's heading, and the tile has no
    [data-date], so the date is today's. *)
Lemma checkAvailability_result_witness :
  bs_life (snd (checkAvailability (portal := demo_site) Auth.demo_env evening demo_start)) = Closed /\
  avail_post Auth.demo_env evening (bs_today demo_start) [demo_evening_slot].
Proof.
  apply (checkAvailability_result (portal := demo_site) Auth.demo_env evening demo_start
           [demo_evening_slot] (snd (checkAvailability (portal := demo_site) Auth.demo_env evening demo_start))).
  vm_compute. reflexivity.
Defined.

Lemma checkAvailability_closes_witness :
  bs_life (snd (checkAvailability (portal := demo_site) Auth.demo_env evening demo_start)) = Closed /\
  last (bs_trace (snd (checkAvailability (portal := demo_site) Auth.demo_env evening demo_start))) = Some EvClose.
Proof.
  apply (checkAvailability_closes (portal := demo_site) Auth.demo_env evening demo_start
           (snd (launch (portal := demo_site) demo_start))
           (snd (new_context (portal := demo_site) (snd (launch (portal := demo_site) demo_start))))
           0 (snd (new_page (portal := demo_site)
                     (snd (new_context (portal := demo_site) (snd (launch (portal := demo_site) demo_start))))))); 
    vm_compute; reflexivity.
Defined.

Lemma extract_span_sound_witness :
  sp_visible (demo_tile "7:00 PM-8:00 PM") = true /\ is_book_now "Book Now" = true /\
  location demo_evening_slot = "Tennis Court 1" /\
  TimeFormat.durationMinutes "19:00" "20:00" = Some 60%Z.
Proof.
  assert (E : extract_span "2026-11-09" demo_facility_url "Tennis Court 1" evening
                (demo_tile "7:00 PM-8:00 PM") = Some demo_evening_slot) by (vm_compute; reflexivity).
  destruct (extract_span_sound _ _ _ _ _ _ E) as (H1 & H2 & _ & H4 & _ & g1 & g2 & e24 & _ & H6 & H7 & H8 & _).
  split; [exact H1|]. split; [exact H2|]. split; [exact H4|]. vm_compute. reflexivity.
Defined.

(** ** Findings *)

Definition context_error : Exn :=
  {| exn_name := PlainError; exn_message := "browser.newContext: Target page, context or browser has been closed" |}.

(** The static site, except that [browser.newContext()] fails. *)
Definition context_failing_site : Portal :=
  {| respond := fun tr cur r =>
       match r with
       | NewContext => Err context_error
       | _ => site_respond [(Auth.DEFAULT_BASE_URL, demo_list); (demo_facility_url, demo_facility)] tr cur r
       end |}.

(** C29: The browser is launched before the [try]: on every portal and
    from every state, when [chromium.launch()] succeeds and
    [browser.newContext()] then throws, [checkAvailability] rethrows that
    error from the state [newContext] left, with the browser still running
    and the failed [newContext] as the last event: [browser.close()] never
    runs, against the spec's release "on every exit path". *)
Theorem checkAvailability_leaks_browser {portal : Portal} env prefs s s1 s2 e :
  launch s = (Ret tt, s1) -> new_context s1 = (Throw e, s2) ->
  checkAvailability env prefs s = (Throw e, s2) /\ bs_life s2 = Running /\
  last (bs_trace s2) = Some (Ev 0 NewContext (Err e)).
Proof.
  intros Hl Hc. split; [unfold checkAvailability, bind; by rewrite Hl, Hc|].
  assert (Hr : bs_life s1 = Running).
  { revert Hl. unfold launch. destruct (respond _ _ _); by intros [= <-]. }
  revert Hc. unfold new_context, perform_, bind, perform. rewrite Hr.
  destruct (respond _ _ _) as [t [pt|]|e']; [done|done|intros [= -> <-]].
  split; [exact Hr|]. apply last_snoc.
Qed.

Lemma checkAvailability_leaks_browser_witness :
  checkAvailability (portal := context_failing_site) Auth.demo_env evening demo_start =
    (Throw context_error, snd (new_context (portal := context_failing_site)
                                 (snd (launch (portal := context_failing_site) demo_start)))) /\
  bs_life (snd (new_context (portal := context_failing_site)
                  (snd (launch (portal := context_failing_site) demo_start)))) = Running.
Proof.
  destruct (checkAvailability_leaks_browser (portal := context_failing_site) Auth.demo_env evening
              demo_start _ _ context_error eq_refl eq_refl) as [H1 [H2 _]].
  split; [exact H1 | exact H2].
Defined.

(** A site whose facility page cannot be loaded. *)
Definition broken_facility_site : Portal := site_portal [(Auth.DEFAULT_BASE_URL, demo_list)].

(** With no court on the list, the stub slot of the day is returned. *)
Example checkAvailability_no_courts :
  fst (checkAvailability (portal := site_portal [(Auth.DEFAULT_BASE_URL, blank_dom)]) Auth.demo_env evening demo_start) =
  Ret [stub_slot "2026-11-09" Auth.DEFAULT_BASE_URL evening].
Proof. vm_compute. reflexivity. Qed.

End Scanner.
