(* ===== verification/Booking.v ===== *)
(** * The booking pipeline

    [bookSlot] of [ubc.ts] ([src/unnamed/part_003], lines 634-1154), as
    the code's sequence of steps:
    - the facility page, the login, and the way back to the page (lines
      646-660);
    - step 1, the "Book Now" tile whose title contains the requested
      time in 12-hour form (lines 662-708);
    - step 2, the Reserve button: overlays, the number of attendees, the
      forced click, the waits, the re-authentication when the portal
      redirects to its login page, and the second attempt (lines
      710-915);
    - step 3, the attendee marked "(You)", else the first free one, and
      the Next button (lines 917-1067);
    - step 4, the saved card (lines 1069-1084);
    - step 5, "Place My Order" and the classification of the final page
      (lines 1086-1143).
    An early [return { success: false, ... }] is a value [inl r] of the
    early-return layer [EM] over the browser monad. [catch] turns any
    exception into a failure result, and [finally] closes the browser.
    [URLSearchParams.get] and [decodeURIComponent] are written out on
    byte strings. Only malformed percent escapes are detected, not
    malformed UTF-8.

    The last sections prove what the pipeline guarantees: the cases of
    a result, its well-formedness, its totality, a bound on its effects,
    and the order of its steps, as a gate over the trace. *)

From S2P Require Import Prelude JsString TimeFormat Preferences Slots Browser Auth Scanner.

Module Booking.
Import Browser.

(** ** Requests and results *)

(** [type BookingRequest] *)
Record BookingRequest := {
  facility_url : string; time_24h : string; duration_hours : Z; num_people : Z
}.

(** [booked_slot] of [type BookingResult] *)
Record BookedSlot := { bs_time : string; bs_duration : Z; bs_location : string }.

(** [type BookingResult] *)
Record BookingResult := {
  success : bool; confirmation_number : option string; message : string;
  booked_slot : option BookedSlot
}.

(** [{ success: false, message }] *)
Definition failure (msg : string) : BookingResult :=
  {| success := false; confirmation_number := None; message := msg; booked_slot := None |}.

(** ** Early returns *)

(** A step either returns early with a result ([inl]) or goes on ([inr]). *)
Definition EM (A : Type) : Type := M (BookingResult + A).

Definition stop {A} (r : BookingResult) : EM A := ret (inl r).
Definition go {A} (a : A) : EM A := ret (inr a).
Definition lift {A} (m : M A) : EM A := bind m (fun a => ret (inr a)).
Definition ebind {A B} (m : EM A) (k : A -> EM B) : EM B :=
  bind m (fun x => match x with inl r => ret (inl r) | inr a => k a end).

Notation "x <-? m ;; k" := (ebind m (fun x => k))
  (at level 100, m at next level, right associativity) : browser_scope.
Notation "m ;;? k" := (ebind m (fun _ => k))
  (at level 100, k at level 200, right associativity) : browser_scope.

(** ** The 12-hour label of step 1 *)

Definition undefined_toString : Exn :=
  {| exn_name := TypeError; exn_message := "Cannot read properties of undefined (reading 'toString')" |}.

(** Step 1's label as an operation: [minute.toString()] throws when the
    time has no minute. *)
Definition time12h_js (t : string) : M string :=
  match TimeFormat.time12h_of t with
  | Some label => ret label
  | None => throw undefined_toString
  end.

(** ** Step 1: the tile *)

(** [titleAttr.toLowerCase().includes(time12h.toLowerCase())] over the
    "Book Now" spans: the index of the first match. *)
Definition select_span (spans : list Span) (time12h : string) : option nat :=
  first_match (fun i => match spans !! i with
                        | Some sp => Js.includes (Js.to_lower (sp_title sp ?? "")) (Js.to_lower time12h)
                        | None => false
                        end) (seq 0 (length spans)).

(** ** URL query parameters and percent-decoding *)

Definition hex_value (c : ascii) : option nat :=
  let n := nat_of_ascii c in
  if (48 <=? n)%nat && (n <=? 57)%nat then Some (n - 48)%nat
  else if (97 <=? n)%nat && (n <=? 102)%nat then Some (n - 87)%nat
  else if (65 <=? n)%nat && (n <=? 70)%nat then Some (n - 55)%nat
  else None.

(** [application/x-www-form-urlencoded] decoding, as [URLSearchParams]
    does it: ['+'] is a space, a valid [%XY] is the byte [XY], anything
    else is kept. *)
Fixpoint form_decode (s : string) : string :=
  match s with
  | "" => ""
  | String "+" r => String " " (form_decode r)
  | String "%" (String a (String b r) as r0) =>
      match hex_value a, hex_value b with
      | Some x, Some y => String (ascii_of_nat (16 * x + y)) (form_decode r)
      | _, _ => String "%" (form_decode r0)
      end
  | String c r => String c (form_decode r)
  end.

(** [decodeURIComponent(s)]: [None] for the [URIError] of a malformed
    escape. *)
Fixpoint decode_uri_component (s : string) : option string :=
  match s with
  | "" => Some ""
  | String "%" (String a (String b r)) =>
      match hex_value a, hex_value b with
      | Some x, Some y => String (ascii_of_nat (16 * x + y)) <$> decode_uri_component r
      | _, _ => None
      end
  | String "%" _ => None
  | String c r => String c <$> decode_uri_component r
  end.

(** The query of a URL: after the first ['?'], before the ['#']. *)
Definition query_of (url : string) : string := Scanner.take_until "#" (Scanner.drop_through "?" url).

(** [new URL(url).searchParams.get(name)]: the first pair with that
    name, both decoded. *)
Definition search_param (name url : string) : option string :=
  first_some (fun kv =>
    let k := Scanner.take_until "=" kv in
    let v := Scanner.drop_through "=" kv in
    if bool_decide (form_decode k = name) then Some (form_decode v) else None)
    (Js.split "&" (query_of url)).

Definition uri_malformed : Exn := {| exn_name := URIError; exn_message := "URI malformed" |}.

(** ** The final page of step 5 *)

(** [/confirmation|thank you|order.*complete|booking.*confirmed|receipt/i]:
    [.] does not match a line terminator. *)
Definition is_line_terminator (c : ascii) : bool := Ascii.eqb c "010" || Ascii.eqb c "013".

Fixpoint line_rest (s : string) : string :=
  match s with "" => "" | String c r => if is_line_terminator c then "" else String c (line_rest r) end.

(** [a.*b] somewhere in [s]. *)
Fixpoint matches_dot_star (a b s : string) : bool :=
  (Js.prefixb a s && Js.includes (line_rest (String.substring (String.length a) (String.length s) s)) b)
  || match s with "" => false | String _ s' => matches_dot_star a b s' end.

Definition has_confirmation (pageText : string) : bool :=
  let t := Js.to_lower pageText in
  Js.includes t "confirmation" || Js.includes t "thank you" || matches_dot_star "order" "complete" t
  || matches_dot_star "booking" "confirmed" t || Js.includes t "receipt".

(** The classification of the page after "Place My Order": an error text
    without a confirmation is a failure; anything else is a success. *)
Definition classify (req : BookingRequest) (courtName : string) (d : Dom) : BookingResult :=
  let pageText := dom_body d in
  let errorText := dom_alert d ?? "" in
  if negb (bool_decide (errorText = "")) && negb (has_confirmation pageText)
  then failure ("Booking failed: " +:+ errorText)
  else {| success := true; confirmation_number := dom_confirmation d;
          message := "Booking completed successfully";
          booked_slot := Some {| bs_time := time_24h req; bs_duration := (duration_hours req * 60)%Z;
                                 bs_location := Js.trim courtName |} |}.

(** ** The pipeline *)

Section Pipeline.
Context {portal : Portal} (env : Auth.ProcessEnv).

(** *** Step 3: the attendee rows *)

(** The first loop: hidden rows are skipped; a row whose label contains
    "(You)" is remembered and, unless its class contains "disabled",
    its enabled checkbox is clicked when unchecked (or the row itself
    when there is none), which ends the loop. *)
Fixpoint select_you (page i : nat) (rows : list Row) (selected : string) : M string :=
  match rows with
  | [] => ret selected
  | r :: rs =>
      if row_hidden r then select_you page (S i) rs selected
      else
        let label := row_label r ?? "" in
        if Js.includes label "(You)" then
          if Js.includes (row_class r ?? "") "disabled" then select_you page (S i) rs label
          else
            match row_checkbox r with
            | Some checked =>
                (if checked then ret tt else click_ page (CCheckbox i) Force) ;;
                ret label
            | None => click_ page (CRow i) Plain ;; ret label
            end
        else select_you page (S i) rs selected
  end.

(** The fallback loop: the first row neither disabled nor hidden with an
    enabled checkbox is checked; its label is read afterwards ("Unknown"
    when that fails). *)
Fixpoint select_first (page i : nat) (rows : list Row) : M string :=
  match rows with
  | [] => ret ""
  | r :: rs =>
      if negb (Js.includes (row_class r ?? "") "disabled") && negb (row_hidden r) then
        match row_checkbox r with
        | Some checked =>
            (if checked then ret tt else click_ page (CCheckbox i) Force) ;;
            d <- dom_of page ;;
            ret (match dom_attendees d !! i with Some r' => row_label r' ?? "Unknown" | None => "Unknown" end)
        | None => select_first page (S i) rs
        end
      else select_first page (S i) rs
  end.

(** *** Arrival on the facility page (lines 646-660) *)

Definition open_facility (page : nat) (req : BookingRequest) : M nat :=
  goto page (facility_url req) NetworkIdle ;;
  page <- Auth.ensureLoggedIn env page ;;
  u <- url_of page ;;
  (if negb (Js.includes u "BookMe4LandingPages/Facility")
   then goto page (facility_url req) NetworkIdle else ret tt) ;;
  ret page.

(** [page.locator('h1.facility-name').first().innerText().catch(() => "Unknown Court")] *)
Definition court_name (page : nat) : M string :=
  d <- dom_of page ;;
  ret (dom_facility_name d ?? "Unknown Court").

(** *** Step 1: click the tile of the requested time (lines 662-708) *)

Definition step1 (page : nat) (req : BookingRequest) : EM unit :=
  time12h <-? lift (time12h_js (time_24h req)) ;;
  d <-? lift (dom_of page) ;;
  let spans := filter (fun sp => Scanner.has_book_now sp = true) (dom_spans d) in
  match select_span spans time12h with
  | None => stop (failure ("Could not find available slot at " +:+ time_24h req +:+ " (" +:+ time12h +:+ ")"))
  | Some i => lift (click_ page (CSpan i) Plain ;; wait_timeout page 2000)
  end.

(** *** Step 2: Reserve (lines 710-915) *)

(** The two waits for overlays to go, each replaced by a script when it
    times out. *)
Definition clear_overlays (page : nat) : M unit :=
  try_catch (wait_for page WOverlayHidden 5000) (fun _ => evaluate page SRemoveOverlays) ;;
  try_catch (wait_for page WLoadingHidden 3000) (fun _ => evaluate page SHideLoading).

(** [request.num_people || 2] *)
Definition num_attendees (req : BookingRequest) : Z :=
  if bool_decide (num_people req = 0%Z) then 2%Z else num_people req.

(** From the overlays to the settling of the page after the forced click. *)
Definition reserve_click (page : nat) (req : BookingRequest) : M unit :=
  clear_overlays page ;;
  evaluate page (SSetAttendees (num_attendees req)) ;;
  wait_timeout page 1000 ;;
  evaluate page SRemoveOverlays ;;
  click_ page (CAff AReserve) Force ;;
  or_else (perform_ page (WaitForURL 15000)) tt ;;
  or_else (wait_load page NetworkIdle (Some 15000%Z)) tt ;;
  wait_timeout page 2000.

(** The re-authentication when the portal redirected to its login page
    (lines 822-873): the CWL button and the form when they are visible,
    then the [returnUrl] unless the attendee page is already shown. *)
Definition reauth (page : nat) : M unit :=
  newUrl <- url_of page ;;
  if Js.includes newUrl "portal.recreation.ubc.ca" || Js.includes newUrl "Login" then
    let returnUrl := search_param "returnUrl" newUrl in
    d <- dom_of page ;;
    (if visible APortalCwl d
     then click_ page (CAff APortalCwl) Plain ;; wait_load page DomContentLoaded None
     else ret tt) ;;
    d <- dom_of page ;;
    (if visible APortalUsername d
     then fill page FPortalUsername (Auth.UBC_USER env ?? "") ;;
          fill page FPortalPassword (Auth.UBC_PASS env ?? "") ;;
          click_ page CPortalSubmit Plain ;;
          wait_load page NetworkIdle (Some 60000%Z)
     else ret tt) ;;
    cur <- url_of page ;;
    match returnUrl with
    | Some r =>
        if negb (bool_decide (r = "")) && negb (Js.includes cur "BookMe4EventParticipants") then
          match decode_uri_component r with
          | Some decoded => goto page decoded NetworkIdle
          | None => throw uri_malformed
          end
        else ret tt
    | None => ret tt
    end
  else ret tt.

(** Still on the facility page: a second forced click, the alternative
    button, and the failure when the page did not change (lines 875-915). *)
Definition reserve_retry (page : nat) : EM unit :=
  u <-? lift (url_of page) ;;
  if Js.includes u "BookMe4LandingPages/Facility" then
    lift (click_ page (CAff AReserve) Force ;; wait_timeout page 3000) ;;?
    d <-? lift (dom_of page) ;;
    lift (if visible AAltBook d
          then evaluate page SRemoveOverlays ;; click_ page (CAff AAltBook) Force ;; wait_timeout page 3000
          else ret tt) ;;?
    finalUrl <-? lift (url_of page) ;;
    if Js.includes finalUrl "BookMe4LandingPages/Facility" then
      d <-? lift (dom_of page) ;;
      let errorMsg := dom_error d ?? "" in
      if negb (bool_decide (errorMsg = ""))
      then stop (failure ("Could not proceed with booking: " +:+ errorMsg))
      else stop (failure "Reserve button click did not navigate to attendee selection page")
    else go tt
  else go tt.

Definition step2 (page : nat) (req : BookingRequest) : EM unit :=
  d <-? lift (dom_of page) ;;
  if negb (visible AReserve d) then stop (failure "Reserve button not found after clicking Book Now")
  else lift (reserve_click page req ;; reauth page) ;;? reserve_retry page.

(** *** Step 3: the attendee and Next (lines 917-1067) *)

(** The eight entries of [nextButtonSelectors], in order. *)
Definition next_selectors : list nat := seq 0 8.

Definition step3 (page : nat) : EM unit :=
  lift (or_else (wait_for page WAttendees 15000) tt) ;;?
  d <-? lift (dom_of page) ;;
  selected <-? lift (select_you page 0 (dom_attendees d) "") ;;
  selected <-? lift (if bool_decide (selected = "") then select_first page 0 (dom_attendees d)
                     else ret selected) ;;
  lift (wait_timeout page 3000) ;;?
  if bool_decide (selected = "")
  then stop (failure "Could not select any attendee - none available or all disabled")
  else
    lift (wait_timeout page 2000) ;;?
    d <-? lift (dom_of page) ;;
    match first_match (fun i => visible (ANext i) d) next_selectors with
    | None => stop (failure "Next button not found on attendee selection page")
    | Some i =>
        lift (click_ page (CAff (ANext i)) Plain ;;
              wait_load page NetworkIdle (Some 30000%Z) ;;
              wait_timeout page 2000)
    end.

(** *** Step 4: the saved card (lines 1069-1084) *)

Definition step4 (page : nat) : M unit :=
  d <- dom_of page ;;
  if visible AExistingCard d then click_ page (CAff AExistingCard) Plain ;; wait_timeout page 1000
  else ret tt.

(** *** Step 5: Place My Order and the result (lines 1086-1143) *)

Definition step5 (page : nat) (req : BookingRequest) (courtName : string) : EM BookingResult :=
  d <-? lift (dom_of page) ;;
  if negb (visible APlaceOrder d) then stop (failure "Place My Order button not found")
  else
    lift (click_ page (CAff APlaceOrder) Plain ;;
          wait_load page NetworkIdle (Some 60000%Z) ;;
          wait_timeout page 3000) ;;?
    d <-? lift (dom_of page) ;;
    go (classify req courtName d).

(** *** The whole function *)

(** The [try] block of [bookSlot]. *)
Definition book_body (page : nat) (req : BookingRequest) : M BookingResult :=
  page <- open_facility page req ;;
  courtName <- court_name page ;;
  r <- (step1 page req ;;? step2 page req ;;? step3 page ;;? lift (step4 page) ;;?
        step5 page req courtName) ;;
  ret (match r with inl res => res | inr res => res end).

(** [catch (error) { return { success: false, message: `Booking failed: ${error?.message || "Unknown error"}` } }] *)
Definition booking_error (e : Exn) : BookingResult :=
  failure ("Booking failed: " +:+ (exn_message e ||ₛ "Unknown error")).

(** [export async function bookSlot(request): Promise<BookingResult>] *)
Definition bookSlot (req : BookingRequest) : M BookingResult :=
  launch ;;
  new_context ;;
  page <- new_page ;;
  try_finally (try_catch (book_body page req) (fun e => ret (booking_error e))) close_browser.
End Pipeline.

(** ** Costs *)

Lemma grows_ebind_sub {A B} (m : EM A) (k : A -> EM B) a n :
  grows m a -> (a <= n)%nat -> (forall x, grows (k x) (n - a)) -> grows (ebind m k) n.
Proof.
  intros Hm Ha Hk. unfold ebind.
  apply (grows_bind_sub _ _ a); [done | done | intros [r|x]; [apply grows_ret | apply Hk]].
Qed.

Lemma grows_ebind {A B} (m : EM A) (k : A -> EM B) a b :
  grows m a -> (forall x, grows (k x) b) -> grows (ebind m k) (a + b).
Proof. intros Hm Hk. apply (grows_ebind_sub _ _ a); [done | lia | intros x; by replace (a + b - a) with b by lia]. Qed.

Lemma grows_lift {A} (m : M A) a : grows m a -> grows (lift m) a.
Proof. intros Hm. unfold lift. rewrite <- (Nat.add_0_r a). apply grows_bind; [done | intros; apply grows_ret]. Qed.

Lemma grows_stop {A} r : grows (@stop A r) 0.
Proof. apply grows_ret. Qed.
Lemma grows_go {A} (a : A) : grows (go a) 0.
Proof. apply grows_ret. Qed.

#[local] Hint Resolve grows_bind grows_ebind grows_lift grows_stop grows_go Auth.ensureLoggedIn_grows : grows.

(** [grows_auto] extended with the early-return bind. *)
Ltac egrows_auto :=
  repeat match goal with
  | |- grows (ebind _ _) _ => eapply grows_ebind_sub; [grows_first | lia | intros ?; cbn [Nat.sub]]
  | |- grows (bind _ _) _ => eapply grows_bind_sub; [grows_first | lia | intros ?; cbn [Nat.sub]]
  | |- grows (if _ then _ else _) _ => case_if
  | |- grows (match _ with _ => _ end) _ => case_match
  | |- grows _ _ => eapply grows_mono; [grows_first | lia]
  end.

Section Costs.
Context {portal : Portal} (env : Auth.ProcessEnv).

Lemma time12h_js_grows t : grows (time12h_js t) 0.
Proof. unfold time12h_js. egrows_auto. Qed.

Lemma select_you_grows page i rows selected : grows (select_you page i rows selected) 1.
Proof.
  revert i selected. induction rows as [|r rows IH]; intros i selected; simpl; egrows_auto.
Qed.

Lemma select_first_grows page i rows : grows (select_first page i rows) 1.
Proof. revert i. induction rows as [|r rows IH]; intros i; simpl; egrows_auto. Qed.

Lemma clear_overlays_grows page : grows (clear_overlays page) 4.
Proof. unfold clear_overlays. egrows_auto. Qed.

#[local] Hint Resolve time12h_js_grows select_you_grows select_first_grows clear_overlays_grows : grows.

Lemma open_facility_grows page req : grows (open_facility env page req) 13.
Proof. unfold open_facility. egrows_auto. Qed.
Lemma court_name_grows page : grows (court_name page) 0.
Proof. unfold court_name. egrows_auto. Qed.
Lemma step1_grows page req : grows (step1 page req) 2.
Proof. unfold step1. egrows_auto. Qed.
Lemma reserve_click_grows page req : grows (reserve_click page req) 11.
Proof. unfold reserve_click. egrows_auto. Qed.
Lemma reauth_grows page : grows (reauth env page) 7.
Proof. unfold reauth. egrows_auto. Qed.
Lemma reserve_retry_grows page : grows (reserve_retry page) 5.
Proof. unfold reserve_retry. egrows_auto. Qed.

#[local] Hint Resolve open_facility_grows court_name_grows step1_grows reserve_click_grows
  reauth_grows reserve_retry_grows : grows.

Lemma step2_grows page req : grows (step2 env page req) 23.
Proof. unfold step2. egrows_auto. Qed.
Lemma step3_grows page : grows (step3 page) 8.
Proof. unfold step3. egrows_auto. Qed.
Lemma step4_grows page : grows (step4 page) 2.
Proof. unfold step4. egrows_auto. Qed.
Lemma step5_grows page req name : grows (step5 page req name) 3.
Proof. unfold step5. egrows_auto. Qed.

#[local] Hint Resolve step2_grows step3_grows step4_grows step5_grows : grows.

Lemma book_body_grows page req : grows (book_body env page req) 51.
Proof.
  unfold book_body.
  apply (grows_bind_sub _ _ 13); [auto with grows | lia | intros p; cbn [Nat.sub]].
  apply (grows_bind_sub _ _ 0); [auto with grows | lia | intros n; cbn [Nat.sub]].
  apply (grows_bind_sub _ _ 38); [| lia | intros; apply grows_ret].
  eapply grows_mono; [eauto 10 with grows | lia].
Qed.
End Costs.

(** ** Runs *)

(** The trace of [s'] extends that of [s]. *)
Definition extends (s s' : BState) : Prop := exists tr, bs_trace s' = bs_trace s ++ tr.

(** Event [e] is among the events appended from [s] to [s']. *)
Definition added (e : Event) (s s' : BState) : Prop :=
  exists tr, bs_trace s' = bs_trace s ++ tr /\ e ∈ tr.

Lemma grows_extends {A} (m : M A) n s r s' : grows m n -> m s = (r, s') -> extends s s'.
Proof. intros Hm E. destruct (Hm s) as (tr & Htr & _). rewrite E in Htr. by exists tr. Qed.

Lemma added_extends_l e s0 s s' : extends s0 s -> added e s s' -> added e s0 s'.
Proof.
  intros [tr0 H0] (tr & H & Hin). exists (tr0 ++ tr).
  rewrite H, H0, app_assoc. split; [done|]. apply elem_of_app. by right.
Qed.

Lemma added_extends_r e s s' s'' : added e s s' -> extends s' s'' -> added e s s''.
Proof.
  intros (tr & H & Hin) [tr1 H1]. exists (tr ++ tr1).
  rewrite H1, H, app_assoc. split; [done|]. apply elem_of_app. by left.
Qed.

Lemma reads_run {A} (m : M A) s r s' : m s = (r, s') -> reads m -> s' = s.
Proof. intros E Hr. specialize (Hr s). by rewrite E in Hr. Qed.

Lemma perform_Ret {portal : Portal} i r s x s' :
  perform i r s = (Ret x, s') -> exists t p, bs_trace s' = bs_trace s ++ [Ev i r (Ok t p)].
Proof. unfold perform. repeat case_match; intros [= <- <-]; simpl; eauto. Qed.

Lemma perform__Ret {portal : Portal} i r s x s' :
  perform_ i r s = (Ret x, s') -> exists t p, added (Ev i r (Ok t p)) s s'.
Proof.
  unfold perform_. intros (y & s1 & E & [= _ <-])%bind_Ret_inv.
  destruct (perform_Ret _ _ _ _ _ E) as (t & p & H). exists t, p, [Ev i r (Ok t p)].
  split; [done|]. by apply list_elem_of_singleton.
Qed.

Lemma lift_Ret_inv {A} (m : M A) s x s' :
  lift m s = (Ret x, s') -> exists a, x = inr a /\ m s = (Ret a, s').
Proof. unfold lift. intros (a & s1 & E & [= <- <-])%bind_Ret_inv. eauto. Qed.

Lemma ebind_Ret_inv {A B} (m : EM A) (k : A -> EM B) s x s' :
  ebind m k s = (Ret x, s') ->
  exists y s1, m s = (Ret y, s1) /\
    match y with inl r => x = inl r /\ s1 = s' | inr a => k a s1 = (Ret x, s') end.
Proof.
  unfold ebind. intros (y & s1 & E & H)%bind_Ret_inv. exists y, s1. split; [done|].
  destruct y; [by injection H as -> -> | done].
Qed.

Lemma ebind_Ret_inr {A B} (m : EM A) (k : A -> EM B) s b s' :
  ebind m k s = (Ret (inr b), s') -> exists a s1, m s = (Ret (inr a), s1) /\ k a s1 = (Ret (inr b), s').
Proof. intros ([r|a] & s1 & E & H)%ebind_Ret_inv; [by destruct H|eauto]. Qed.

(** Every early return of a step is a failure result. *)
Definition fails_early {A} (m : EM A) : Prop :=
  forall s x s', m s = (Ret x, s') -> match x with inl r => exists msg, r = failure msg | inr _ => True end.

Lemma fails_early_ebind {A B} (m : EM A) (k : A -> EM B) :
  fails_early m -> (forall a, fails_early (k a)) -> fails_early (ebind m k).
Proof.
  intros Hm Hk s x s' (y & s1 & E & H)%ebind_Ret_inv. specialize (Hm _ _ _ E).
  destruct y as [r|a]; [by destruct H as [-> _] | exact (Hk a _ _ _ H)].
Qed.

Lemma fails_early_lift {A} (m : M A) : fails_early (lift m).
Proof. intros s x s' (a & -> & _)%lift_Ret_inv. done. Qed.

Lemma fails_early_stop {A} msg : fails_early (@stop A (failure msg)).
Proof. intros s x s' [= <- _]. eauto. Qed.

Lemma fails_early_go {A} (a : A) : fails_early (go a).
Proof. by intros s x s' [= <- _]. Qed.

Ltac fails_early_tac :=
  repeat first
    [ apply fails_early_ebind; [|intros ?]
    | apply fails_early_lift | apply fails_early_stop | apply fails_early_go
    | case_if | case_match ].

Lemma classify_success req name d :
  success (classify req name d) = true ->
  booked_slot (classify req name d) =
    Some {| bs_time := time_24h req; bs_duration := (duration_hours req * 60)%Z; bs_location := Js.trim name |}.
Proof. unfold classify. by case_if. Qed.

Section RunProofs.
Context {portal : Portal} (env : Auth.ProcessEnv).

Lemma step1_fails_early page req : fails_early (step1 page req).
Proof. unfold step1. fails_early_tac. Qed.
Lemma reserve_retry_fails_early page : fails_early (reserve_retry page).
Proof. unfold reserve_retry. fails_early_tac. Qed.
Lemma step2_fails_early page req : fails_early (step2 env page req).
Proof.
  unfold step2. apply fails_early_ebind; [apply fails_early_lift | intros d].
  case_if; [apply fails_early_stop|].
  apply fails_early_ebind; [apply fails_early_lift | intros; apply reserve_retry_fails_early].
Qed.
Lemma step3_fails_early page : fails_early (step3 page).
Proof. unfold step3. fails_early_tac. Qed.

(** A result of step 5 that is not an early return comes after an
    answered click on "Place My Order". *)
Lemma step5_Ret_inr page req name s res s' :
  step5 page req name s = (Ret (inr res), s') ->
  exists d t p, res = classify req name d /\
    added (Ev page (Click (CAff APlaceOrder) Plain) (Ok t p)) s s'.
Proof.
  unfold step5. intros ([a|d] & s1 & E & H)%ebind_Ret_inv;
    [by apply lift_Ret_inv in E as (? & [=] & _)|].
  apply lift_Ret_inv in E as (? & [= <-] & E). apply reads_run in E as ->; [|apply reads_dom_of].
  destruct (negb (visible APlaceOrder d)); [by inversion H|].
  apply ebind_Ret_inv in H as ([a|u] & s2 & E2 & H); [by apply lift_Ret_inv in E2 as (? & [=] & _)|].
  apply lift_Ret_inv in E2 as (? & [= <-] & E2).
  apply ebind_Ret_inv in H as ([a|d2] & s3 & E3 & H); [by apply lift_Ret_inv in E3 as (? & [=] & _)|].
  apply lift_Ret_inv in E3 as (? & [= <-] & E3). apply reads_run in E3 as ->; [|apply reads_dom_of].
  injection H as <- <-. exists d2.
  apply bind_Ret_inv in E2 as (? & s4 & E4 & E5).
  destruct (perform__Ret _ _ _ _ _ E4) as (t & p & Hadd). exists t, p. split; [done|].
  apply (added_extends_r _ _ s4); [done|].
  eapply (grows_extends _ 2 s4 (Ret u)); [|exact E5]. grows_auto.
Qed.
Lemma step5_fails_early page req name : fails_early (step5 page req name).
Proof. unfold step5. fails_early_tac. Qed.

#[local] Hint Resolve open_facility_grows step1_grows step2_grows step3_grows step4_grows : grows.

(** A result of the [try] block is an early failure, or the
    classification of the page reached after an answered click on
    "Place My Order", with the court name read on the facility page
    that [open_facility] reached. *)
Lemma book_body_cases page req s r s' :
  book_body env page req s = (Ret r, s') ->
  (exists msg, r = failure msg) \/
  (exists p name d t pt, r = classify req name d /\
     added (Ev p (Click (CAff APlaceOrder) Plain) (Ok t pt)) s s' /\
     exists s1 df, open_facility env page req s = (Ret p, s1) /\ fst (dom_of p s1) = Ret df /\
       name = dom_facility_name df ?? "Unknown Court").
Proof.
  unfold book_body. intros (p & s1 & E1 & H)%bind_Ret_inv.
  apply bind_Ret_inv in H as (n & s2 & E2 & H).
  assert (Hn : exists df, fst (dom_of p s1) = Ret df /\ n = dom_facility_name df ?? "Unknown Court").
  { unfold court_name in E2. apply bind_Ret_inv in E2 as (df & s1' & Ed & Er).
    cbv [ret] in Er. injection Er as <- _. exists df. by rewrite Ed. }
  assert (s2 = s1) as -> by (eapply reads_run; [exact E2 | apply reads_bind; auto with fb]).
  apply bind_Ret_inv in H as ([r0|res] & s3 & E3 & [= <- <-]).
  - left. assert (Hfe : fails_early (step1 p req ;;? step2 env p req ;;? step3 p ;;? lift (step4 p) ;;?
                                     step5 p req n)).
    { apply fails_early_ebind; [apply step1_fails_early | intros ?].
      apply fails_early_ebind; [apply step2_fails_early | intros ?].
      apply fails_early_ebind; [apply step3_fails_early | intros ?].
      apply fails_early_ebind; [apply fails_early_lift | intros ?]. apply step5_fails_early. }
    exact (Hfe _ _ _ E3).
  - right. apply ebind_Ret_inr in E3 as (? & t1 & F1 & E3). apply ebind_Ret_inr in E3 as (? & t2 & F2 & E3).
    apply ebind_Ret_inr in E3 as (? & t3 & F3 & E3). apply ebind_Ret_inr in E3 as (? & t4 & F4 & E3).
    destruct (step5_Ret_inr _ _ _ _ _ _ E3) as (d & t & pt & -> & Hadd).
    exists p, n, d, t, pt. split; [done|].
    split; [|destruct Hn as (df & ? & ?); eauto]. apply (added_extends_l _ _ t4); [|done].
    destruct (grows_extends _ _ _ _ _ (open_facility_grows env page req) E1) as [tr0 H0].
    destruct (grows_extends _ _ _ _ _ (step1_grows p req) F1) as [tr1 H1].
    destruct (grows_extends _ _ _ _ _ (step2_grows env p req) F2) as [tr2 H2].
    destruct (grows_extends _ _ _ _ _ (step3_grows p) F3) as [tr3 H3].
    destruct (grows_extends _ _ _ _ _ (grows_lift _ _ (step4_grows p)) F4) as [tr4 H4].
    exists (tr0 ++ tr1 ++ tr2 ++ tr3 ++ tr4). rewrite H4, H3, H2, H1, H0. by rewrite !app_assoc.
Qed.

End RunProofs.

(** ** Properties of [bookSlot] *)

(** [BookingResult] is never contradictory: a success carries the booked
    slot; a failure carries neither the slot nor a confirmation number. *)
Definition result_wf (r : BookingResult) : Prop :=
  if success r then is_Some (booked_slot r) else booked_slot r = None /\ confirmation_number r = None.

Lemma failure_wf msg : result_wf (failure msg).
Proof. done. Qed.

Lemma classify_wf req name d : result_wf (classify req name d).
Proof. unfold classify, result_wf. destruct (negb _ && negb _); simpl; eauto. Qed.

Section BookingProofs.
Context {portal : Portal} (env : Auth.ProcessEnv) (req : BookingRequest).

#[local] Hint Resolve book_body_grows : grows.

(** A returned result is the failure of a caught exception, or the
    result of the [try] block run between launch and close. *)
Lemma bookSlot_cases s r s' :
  bookSlot env req s = (Ret r, s') ->
  (exists e, r = booking_error e) \/
  exists p s3 s4, (launch ;; new_context ;; new_page) s = (Ret p, s3) /\
    extends s s3 /\ book_body env p req s3 = (Ret r, s4) /\ extends s4 s'.
Proof.
  unfold bookSlot. intros (u1 & s1 & E1 & H)%bind_Ret_inv. apply bind_Ret_inv in H as (u2 & s2 & E2 & H).
  apply bind_Ret_inv in H as (p & s3 & E3 & H).
  unfold try_finally, try_catch in H. destruct (book_body env p req s3) as [[a|e] s4] eqn:E;
    simpl in H; injection H as <- <-; [right | left; eauto].
  exists p, s3, s4. split; [by rewrite (bind_Ret _ _ _ _ _ E1), (bind_Ret _ _ _ _ _ E2)|].
  split; [|split; [done | by exists [EvClose]]].
  destruct (grows_extends _ _ _ _ _ grows_launch E1) as [tr1 H1].
  destruct (grows_extends _ _ _ _ _ grows_new_context E2) as [tr2 H2].
  destruct (grows_extends _ _ _ _ _ grows_new_page E3) as [tr3 H3].
  exists (tr1 ++ tr2 ++ tr3). rewrite H3, H2, H1. by rewrite !app_assoc.
Qed.

(** A reported success comes after an answered click on "Place My Order"
    during the call. *)
Lemma bookSlot_placed s r s' :
  bookSlot env req s = (Ret r, s') -> success r = true ->
  exists p t pt, added (Ev p (Click (CAff APlaceOrder) Plain) (Ok t pt)) s s'.
Proof.
  intros [[e ->]|(p & s3 & s4 & _ & H3 & E & H4)]%bookSlot_cases Hs; [done|].
  destruct (book_body_cases _ _ _ _ _ _ E) as [[msg ->]|(q & name & d & t & pt & -> & Hadd & _)]; [done|].
  exists q, t, pt. apply (added_extends_l _ _ s3); [done|]. by apply (added_extends_r _ _ s4).
Qed.

(** C2: a reported success is backed by the pipeline. When [bookSlot]
    returns [success: true], "Place My Order" was clicked and answered
    during this call, and the result reports the requested time, the
    requested duration in minutes, and as location the trimmed court
    name shown on the facility page that [open_facility] reached from
    the new page ("Unknown Court" when the page shows none). *)
Theorem bookSlot_success s r s' :
  bookSlot env req s = (Ret r, s') -> success r = true ->
  (exists p t pt, added (Ev p (Click (CAff APlaceOrder) Plain) (Ok t pt)) s s') /\
  exists page s0 p s1 df,
    (launch ;; new_context ;; new_page) s = (Ret page, s0) /\
    open_facility env page req s0 = (Ret p, s1) /\ fst (dom_of p s1) = Ret df /\
    booked_slot r = Some {| bs_time := time_24h req; bs_duration := (duration_hours req * 60)%Z;
                            bs_location := Js.trim (dom_facility_name df ?? "Unknown Court") |}.
Proof.
  intros E0 Hs. split; [exact (bookSlot_placed s r s' E0 Hs)|].
  destruct (bookSlot_cases s r s' E0) as [[e ->]|(p & s3 & s4 & H0 & _ & E & _)]; [done|].
  destruct (book_body_cases _ _ _ _ _ _ E)
    as [[msg ->]|(q & name & d & t & pt & -> & _ & s1 & df & Eo & Ed & ->)]; [done|].
  exists p, s3, q, s1, df. split_and!; [done | done | done | by apply classify_success].
Qed.

(** C10: every result of [bookSlot] is well formed. *)
Theorem bookSlot_result_wf s r s' : bookSlot env req s = (Ret r, s') -> result_wf r.
Proof.
  intros [[e ->]|(p & s3 & s4 & _ & _ & E & _)]%bookSlot_cases; [apply failure_wf|].
  destruct (book_body_cases _ _ _ _ _ _ E) as [[msg ->]|(q & name & d & t & pt & -> & _)];
    [apply failure_wf | apply classify_wf].
Qed.

(** C6: failures are values. Once the browser, its context and its
    page exist, [bookSlot] returns a result whatever the portal does
    (every exception becomes [success: false]), and its last effect
    closes the browser. *)
Theorem bookSlot_total s s1 s2 p s3 :
  launch s = (Ret tt, s1) -> new_context s1 = (Ret tt, s2) -> new_page s2 = (Ret p, s3) ->
  (exists r, fst (bookSlot env req s) = Ret r) /\
  bs_life (snd (bookSlot env req s)) = Closed /\ last (bs_trace (snd (bookSlot env req s))) = Some EvClose.
Proof.
  intros H1 H2 H3. unfold bookSlot.
  rewrite (bind_Ret _ _ _ _ _ H1), (bind_Ret _ _ _ _ _ H2), (bind_Ret _ _ _ _ _ H3).
  unfold try_finally, try_catch. destruct (book_body env p req s3) as [[a|e] s4]; simpl;
    (split; [eauto | by rewrite last_snoc]).
Qed.

(** C17: no step loops or retries without bound: whatever the portal
    answers, [bookSlot] performs at most 55 effects. *)
Theorem bookSlot_bounded : grows (bookSlot env req) 55.
Proof. unfold bookSlot. grows_auto. Qed.
End BookingProofs.

(** ** The order of the steps

    The clicks that move a booking forward are, in the code's order, the
    tile of step 1, Reserve or the alternative button of step 2, Next of
    step 3, and "Place My Order" of step 5; [phase] numbers them 1 to 4.
    [gate k e] follows a trace from the phase [k] reached so far: a click
    of phase [p] is allowed only when [k <= p <= k + 1], so that no step
    comes back after a later one and none is skipped, and it reaches [p]
    when the portal answers it. The other events leave [k] unchanged. *)

Definition phase (r : Request) : option nat :=
  match r with
  | Click (CSpan _) _ => Some 1%nat
  | Click (CAff AReserve) _ | Click (CAff AAltBook) _ => Some 2%nat
  | Click (CAff (ANext _)) _ => Some 3%nat
  | Click (CAff APlaceOrder) _ => Some 4%nat
  | _ => None
  end.

Definition ev_phase (e : Event) : option nat :=
  match e with Ev _ r _ => phase r | EvClose => None end.

Definition gate (k : nat) (e : Event) : option nat :=
  match e with
  | Ev _ r o =>
      match phase r with
      | None => Some k
      | Some p =>
          if (k <=? p) && (p <=? S k) then Some (match o with Ok _ _ => p | Err _ => k end) else None
      end
  | EvClose => Some k
  end.

Fixpoint run_gate (k : nat) (tr : list Event) : option nat :=
  match tr with [] => Some k | e :: tr' => gate k e ≫= fun k' => run_gate k' tr' end.

(** The trace follows the steps in order from the start. *)
Definition gated (tr : list Event) : bool := bool_decide (is_Some (run_gate 0 tr)).

Definition quiet (e : Event) : Prop := ev_phase e = None.

(** [gates k m Q]: from phase [k], whatever the portal answers, the
    events [m] appends pass the gate, and [Q] holds of the result and
    of the phase reached. *)
Definition gates {A} (k : nat) (m : M A) (Q : Res A -> nat -> Prop) : Prop :=
  forall s, exists tr k', bs_trace (snd (m s)) = bs_trace s ++ tr /\ run_gate k tr = Some k' /\ Q (fst (m s)) k'.

(** The posts of a computation that reaches phase [p] when it returns,
    and of a step that reaches it when it goes on. *)
Definition after {A} (p : nat) (r : Res A) (k : nat) : Prop :=
  match r with Ret _ => k = p | Throw _ => (k <= p)%nat end.
Definition reach {A} (p : nat) (r : Res (BookingResult + A)) (k : nat) : Prop :=
  match r with Ret (inr _) => k = p | _ => (k <= p)%nat end.

Lemma run_gate_app k tr1 tr2 : run_gate k (tr1 ++ tr2) = run_gate k tr1 ≫= fun k1 => run_gate k1 tr2.
Proof. revert k. induction tr1 as [|e tr1 IH]; intros k; simpl; [done|]. destruct (gate k e); simpl; [apply IH | done]. Qed.

Lemma run_gate_quiet k tr : Forall quiet tr -> run_gate k tr = Some k.
Proof.
  intros H. revert k. induction H as [|[i r o|] tr Hq _ IH]; intros k; simpl; [done| |apply IH].
  unfold quiet in Hq. simpl in Hq. rewrite Hq. apply IH.
Qed.

Lemma gate_bool k p : (k <= p <= S k)%nat -> (k <=? p) && (p <=? S k) = true.
Proof. intros Hk. apply andb_true_intro. split; apply Nat.leb_le; lia. Qed.

Section Gates.
Context {portal : Portal}.

Lemma gates_ret {A} k (a : A) Q : Q (Ret a) k -> gates k (ret a) Q.
Proof. intros HQ s. exists [], k. by rewrite app_nil_r. Qed.

Lemma gates_quiet {A} k (m : M A) Q : emits quiet m -> (forall r, Q r k) -> gates k m Q.
Proof. intros Hm HQ s. destruct (Hm s) as (tr & Htr & Hq). exists tr, k. by rewrite run_gate_quiet. Qed.

Lemma gates_bind {A B} k (m : M A) (f : A -> M B) Q1 Q :
  gates k m Q1 -> (forall a k1, Q1 (Ret a) k1 -> gates k1 (f a) Q) ->
  (forall e k1, Q1 (Throw e) k1 -> Q (Throw e) k1) -> gates k (bind m f) Q.
Proof.
  intros Hm Hf He s. destruct (Hm s) as (tr1 & k1 & Htr1 & Hg1 & HQ1). unfold bind.
  destruct (m s) as [[a|e] s1]; simpl in *; [|exists tr1, k1; eauto].
  destruct (Hf a k1 HQ1 s1) as (tr2 & k2 & Htr2 & Hg2 & HQ). exists (tr1 ++ tr2), k2.
  rewrite Htr2, Htr1, app_assoc, run_gate_app, Hg1. eauto.
Qed.

Lemma gates_bind_assoc {A B C} k (m : M A) (f : A -> M B) (g : B -> M C) Q :
  gates k (bind m (fun a => bind (f a) g)) Q -> gates k (bind (bind m f) g) Q.
Proof.
  intros H s. destruct (H s) as (tr & k' & Htr & Hg & HQ). exists tr, k'.
  unfold bind in *. destruct (m s) as [[a|e] s1]; simpl in *; auto.
Qed.

Lemma gates_ret_bind {A B} k (a : A) (f : A -> M B) Q : gates k (f a) Q -> gates k (bind (ret a) f) Q.
Proof. done. Qed.

Lemma gates_quiet_bind {A B} k (m : M A) (f : A -> M B) Q :
  emits quiet m -> (forall a, gates k (f a) Q) -> (forall e, Q (Throw e) k) -> gates k (bind m f) Q.
Proof.
  intros Hm Hf He. apply (gates_bind _ _ _ (fun _ k' => k' = k)); [by apply gates_quiet | |]; by intros ? ? ->.
Qed.

(** An answered click of the next phase moves the gate to it. *)
Lemma gates_click_bind {B} k p i r (f : unit -> M B) Q :
  phase r = Some p -> (k <= p <= S k)%nat -> (forall a, gates p (f a) Q) -> (forall e, Q (Throw e) k) ->
  gates k (bind (perform_ i r) f) Q.
Proof.
  intros Hp Hk Hf He.
  apply (gates_bind _ _ _ (fun res k' => match res with Ret _ => k' = p | Throw _ => k' = k end));
    [| by intros ? ? -> | by intros ? ? ->].
  intros s. unfold perform_, bind, perform.
  destruct (bs_life s); [exists [], k; rewrite app_nil_r; simpl; split_and!; done || lia| |
                         exists [], k; rewrite app_nil_r; simpl; split_and!; done || lia].
  exists [Ev i r (respond (bs_trace s) (bs_tabs s !! i) r)].
  destruct (respond _ _ _) as [t [pt|]|e] eqn:Ho; simpl; eexists;
    (split; [done | split; [|simpl; reflexivity]]); rewrite Hp, (gate_bool k p Hk); done.
Qed.

Lemma gates_try_catch {A} k (m : M A) h Q :
  gates k m Q -> (forall e k1, Q (Throw e) k1 -> gates k1 (h e) Q) -> gates k (try_catch m h) Q.
Proof.
  intros Hm Hh s. destruct (Hm s) as (tr1 & k1 & Htr1 & Hg1 & HQ1). unfold try_catch.
  destruct (m s) as [[a|e] s1]; simpl in *; [exists tr1, k1; eauto|].
  destruct (Hh e k1 HQ1 s1) as (tr2 & k2 & Htr2 & Hg2 & HQ). exists (tr1 ++ tr2), k2.
  rewrite Htr2, Htr1, app_assoc, run_gate_app, Hg1. eauto.
Qed.

Lemma gates_try_finally {A} k (m : M A) f Q :
  gates k m Q -> emits quiet f -> gates k (try_finally m f) (fun _ k' => exists r, Q r k').
Proof.
  intros Hm Hf s. destruct (Hm s) as (tr1 & k1 & Htr1 & Hg1 & HQ1). unfold try_finally.
  destruct (m s) as [r s1]; simpl in *. destruct (Hf s1) as (tr2 & Htr2 & H2).
  exists (tr1 ++ tr2), k1. destruct (f s1) as [[]s2]; simpl in *;
    (rewrite Htr2, Htr1, app_assoc, run_gate_app, Hg1; simpl; rewrite run_gate_quiet; eauto).
Qed.

Lemma gates_conseq {A} k (m : M A) Q Q' : gates k m Q' -> (forall r k', Q' r k' -> Q r k') -> gates k m Q.
Proof. intros Hm HQ s. destruct (Hm s) as (tr & k' & ? & ? & ?). eauto 10. Qed.

(** A step that reaches [p] when it goes on, followed by the rest of
    the pipeline from [p]; an early return or an exception ends the run
    at a phase no later than [p]. *)
Lemma gates_ebind {A B} k p (m : EM A) (f : A -> EM B) Q :
  gates k m (reach p) -> (forall a, gates p (f a) Q) -> (forall r k1, (k1 <= p)%nat -> Q r k1) ->
  gates k (ebind m f) Q.
Proof.
  intros Hm Hf HQ. unfold ebind.
  eapply gates_bind; [exact Hm | intros [r|a] k1 Hk; simpl in Hk | intros e k1 Hk; by apply HQ].
  - apply gates_ret. by apply HQ.
  - subst. apply Hf.
Qed.
End Gates.

Ltac gate_post :=
  solve [ intros; simpl; lia | intros [[?|?]|?]; simpl; lia | intros [?|?]; simpl; lia ].

(** Close [gates k m Q] for a step whose phase clicks are in the order
    the gate allows: binds are reassociated, a click of a phase moves
    the gate, a quiet computation leaves it, and the post is checked at
    each exit. *)
Ltac gates_auto :=
  repeat first
    [ match goal with |- gates _ (bind (bind _ _) _) _ => apply gates_bind_assoc end
    | eapply gates_click_bind; [reflexivity | lia | intros ? | gate_post]
    | apply gates_quiet; [solve [emits_auto] | gate_post]
    | apply gates_quiet_bind; [solve [emits_auto] | intros ? | gate_post]
    | apply gates_ret; gate_post
    | case_match | case_if ].

Section GateProofs.
Context {portal : Portal} (env : Auth.ProcessEnv).

Lemma ensureLoggedIn_quiet page : emits quiet (Auth.ensureLoggedIn env page).
Proof.
  unfold Auth.ensureLoggedIn, Auth.click_login, Auth.cwl_step, Auth.credentials_step, Auth.return_to_list.
  emits_auto.
Qed.
Lemma time12h_js_quiet t : emits quiet (time12h_js t).
Proof. unfold time12h_js. emits_auto. Qed.
Lemma select_you_quiet page i rows sel : emits quiet (select_you page i rows sel).
Proof. revert i sel. induction rows; intros; simpl; emits_auto. Qed.
Lemma select_first_quiet page i rows : emits quiet (select_first page i rows).
Proof. revert i. induction rows; intros; simpl; emits_auto. Qed.
Lemma clear_overlays_quiet page : emits quiet (clear_overlays page).
Proof. unfold clear_overlays. emits_auto. Qed.
Lemma reauth_quiet page : emits quiet (reauth env page).
Proof. unfold reauth. emits_auto. Qed.

#[local] Hint Resolve ensureLoggedIn_quiet time12h_js_quiet select_you_quiet select_first_quiet
  clear_overlays_quiet reauth_quiet : emits.

Lemma open_facility_quiet page req : emits quiet (open_facility env page req).
Proof. unfold open_facility. emits_auto. Qed.
Lemma court_name_quiet page : emits quiet (court_name page).
Proof. unfold court_name. emits_auto. Qed.
Lemma step4_quiet page : emits quiet (lift (step4 page)).
Proof. unfold lift, step4. emits_auto. Qed.

#[local] Hint Resolve open_facility_quiet court_name_quiet step4_quiet : emits.

Lemma reserve_click_gates page req : gates 1 (reserve_click page req) (after 2).
Proof. unfold reserve_click. gates_auto. Qed.
Lemma reserve_retry_gates page : gates 2 (reserve_retry page) (fun _ k => k = 2%nat).
Proof. unfold reserve_retry, ebind, lift, stop, go. gates_auto. Qed.

Lemma step1_gates page req : gates 0 (step1 page req) (reach 1).
Proof. unfold step1, ebind, lift, stop. gates_auto. Qed.
Lemma step2_gates page req : gates 1 (step2 env page req) (reach 2).
Proof.
  unfold step2, ebind, lift, stop. gates_auto.
  eapply gates_bind; [apply reserve_click_gates | intros ? ? Hk; simpl in Hk; subst | intros; simpl in *; lia].
  apply gates_quiet_bind; [auto with emits | intros ? | gate_post].
  apply gates_ret_bind. cbv beta iota.
  eapply gates_conseq; [apply reserve_retry_gates | intros [[?|?]|?] ? ->; simpl; lia].
Qed.
Lemma step3_gates page : gates 2 (step3 page) (reach 3).
Proof. unfold step3, ebind, lift, stop. gates_auto. Qed.
Lemma step5_gates page req name : gates 3 (step5 page req name) (fun _ k => (k <= 4)%nat).
Proof. unfold step5, ebind, lift, stop, go. gates_auto. Qed.

Lemma book_body_gates page req : gates 0 (book_body env page req) (fun _ k => (k <= 4)%nat).
Proof.
  unfold book_body. apply gates_quiet_bind; [auto with emits | intros p | gate_post].
  apply gates_quiet_bind; [auto with emits | intros name | gate_post].
  apply (gates_bind _ _ _ (fun _ k => (k <= 4)%nat)); [| intros; by apply gates_ret | done].
  apply (gates_ebind _ 1); [apply step1_gates | intros _ | intros; lia].
  apply (gates_ebind _ 2); [apply step2_gates | intros _ | intros; lia].
  apply (gates_ebind _ 3); [apply step3_gates | intros _ | intros; lia].
  apply (gates_ebind _ 3); [apply gates_quiet; [auto with emits | gate_post] | intros _ | intros; lia].
  apply step5_gates.
Qed.
End GateProofs.

Section Order.
Context {portal : Portal} (env : Auth.ProcessEnv) (req : BookingRequest).

Lemma bookSlot_gates : gates 0 (bookSlot env req) (fun _ k => (k <= 4)%nat).
Proof.
  unfold bookSlot. apply gates_quiet_bind; [emits_auto | intros _ | gate_post].
  apply gates_quiet_bind; [emits_auto | intros _ | gate_post].
  apply gates_quiet_bind; [emits_auto | intros p | gate_post].
  eapply gates_conseq; [apply gates_try_finally; [|emits_auto] | intros r k [? Hk]; exact Hk].
  apply gates_try_catch; [apply book_body_gates | intros e k1 Hk; by apply gates_ret].
Qed.

(** C3: the steps in order. Whatever the portal answers, the events
    [bookSlot] appends pass the gate from the start: the clicks on the
    tile, Reserve, Next and "Place My Order" come in this order, none
    comes back after a later one, and each is made only once the click
    of the step before was answered. *)
Theorem bookSlot_steps_ordered s :
  exists tr, bs_trace (snd (bookSlot env req s)) = bs_trace s ++ tr /\ gated tr = true.
Proof.
  destruct (bookSlot_gates s) as (tr & k & Htr & Hg & _). exists tr. split; [done|].
  unfold gated. rewrite Hg. by apply bool_decide_eq_true.
Qed.

End Order.

(** ** Witnesses: a portal that takes a booking through *)

Definition page_dom (vis : list Affordance) (spans : list Span) (name : option string) (rows : list Row)
    (body : string) (conf : option string) : Dom :=
  {| dom_visible := vis; dom_courts := []; dom_facility_name := name; dom_spans := spans;
     dom_attendees := rows; dom_body := body; dom_error := None; dom_alert := None; dom_confirmation := conf;
     dom_tables := []; dom_player_options := []; dom_buttons := [] |}.

(** The facility page of the scanner's example, with a Reserve button. *)
Definition facility_dom : Dom :=
  page_dom [AReserve] [Scanner.demo_tile "3:00 PM-4:00 PM"; Scanner.demo_tile "7:00 PM-8:00 PM"]
    (Some " Tennis Court 1 ") [] "" None.

Definition you_row : Row :=
  {| row_label := Some "Alex Doe (You)"; row_class := Some "bm-selectable-row"; row_hidden := false;
     row_checkbox := Some false |}.

Definition attendee_tab : Tab :=
  {| tab_url := "https://ubc.perfectmind.com/24063/Menu/BookMe4EventParticipants?eventId=1";
     tab_dom := page_dom [ANext 0] [] None [you_row] "" None |}.

Definition payment_tab : Tab :=
  {| tab_url := "https://ubc.perfectmind.com/24063/Menu/BookMe4Checkout";
     tab_dom := page_dom [AExistingCard; APlaceOrder] [] None [] "" None |}.

Definition receipt_tab : Tab :=
  {| tab_url := "https://ubc.perfectmind.com/24063/Menu/BookMe4Receipt";
     tab_dom := page_dom [] [] None [] "Thank you for your order" (Some "R-1042") |}.

(** Reserve leads to the attendee page, Next to the payment page, and
    Place My Order to the receipt; everything else is the static site. *)
Definition booking_site : Portal :=
  {| respond := fun tr cur r =>
       match r with
       | Click (CAff AReserve) Force => Ok attendee_tab None
       | Click (CAff (ANext _)) Plain => Ok payment_tab None
       | Click (CAff APlaceOrder) Plain => Ok receipt_tab None
       | _ => site_respond [(Scanner.demo_facility_url, facility_dom)] tr cur r
       end |}.

Definition evening_request (t : string) : BookingRequest :=
  {| facility_url := Scanner.demo_facility_url; time_24h := t; duration_hours := 1; num_people := 2 |}.

Definition booked_evening : BookingResult :=
  {| success := true; confirmation_number := Some "R-1042"; message := "Booking completed successfully";
     booked_slot := Some {| bs_time := "19:00"; bs_duration := 60; bs_location := "Tennis Court 1" |} |}.

(** The spec's scenario D on this portal. *)
Lemma bookSlot_success_witness :
  success booked_evening = true /\
  (exists p t pt, added (Ev p (Click (CAff APlaceOrder) Plain) (Ok t pt)) Scanner.demo_start
     (snd (bookSlot (portal := booking_site) Auth.demo_env (evening_request "19:00") Scanner.demo_start))).
Proof.
  split; [reflexivity|].
  refine (proj1 (bookSlot_success (portal := booking_site) Auth.demo_env (evening_request "19:00")
                   Scanner.demo_start booked_evening _ _ eq_refl)).
  vm_compute. reflexivity.
Defined.

Lemma bookSlot_result_wf_witness : result_wf booked_evening.
Proof.
  apply (bookSlot_result_wf (portal := booking_site) Auth.demo_env (evening_request "19:00")
           Scanner.demo_start booked_evening
           (snd (bookSlot (portal := booking_site) Auth.demo_env (evening_request "19:00") Scanner.demo_start))).
  vm_compute. reflexivity.
Defined.

Lemma bookSlot_total_witness :
  bs_life (snd (bookSlot (portal := booking_site) Auth.demo_env (evening_request "19:00") Scanner.demo_start))
  = Closed.
Proof.
  apply (bookSlot_total (portal := booking_site) Auth.demo_env (evening_request "19:00") Scanner.demo_start
           (snd (launch (portal := booking_site) Scanner.demo_start))
           (snd (new_context (portal := booking_site) (snd (launch (portal := booking_site) Scanner.demo_start))))
           0
           (snd (new_page (portal := booking_site)
                   (snd (new_context (portal := booking_site) (snd (launch (portal := booking_site) Scanner.demo_start))))))); 
    vm_compute; reflexivity.
Defined.

(** the spec's scenario C. A request for a time that no tile shows
    ends with the step-1 failure. *)
Example bookSlot_no_matching_tile :
  fst (bookSlot (portal := booking_site) Auth.demo_env (evening_request "09:00") Scanner.demo_start) =
  Ret (failure "Could not find available slot at 09:00 (9:00 AM)").
Proof. vm_compute. reflexivity. Qed.

End Booking.
