(* ===== verification/Config.v ===== *)
(** * Process configuration

    [src/src/config/env.ts]: the zod schema [EnvSchema] over
    [process.env], the fail-fast exit on invalid input, and the
    normalised [env] object that the API and the notifier read.
    [safeParse] is [parse_env]: it collects the issues of every field
    or returns the parsed data. A non-empty issue list stops the process
    ([load_env] is [None]). zod's e-mail check is a library predicate;
    the section takes it as the variable [is_email]. *)

From S2P Require Import Prelude JsString.
From Stdlib Require Import Setoid.

Module Config.

(** [process.env], restricted to the variables the schema names. *)
Record RawEnv := {
  PORT : option string; BOOKER_GPT_TOKEN : option string;
  UBC_USER : option string; UBC_PASS : option string;
  EMAIL_FROM : option string; EMAIL_TO : option string;
  SMTP_HOST : option string; SMTP_PORT : option string;
  SMTP_USER : option string; SMTP_PASS : option string;
  TELEGRAM_BOT_TOKEN : option string; TELEGRAM_CHAT_ID : option string
}.

(** A zod issue: the offending key and the message. *)
Record Issue := { issue_path : string; issue_message : string }.

(** [parsed.data]: [PORT] has its default; the three required strings
    are present. *)
Record ParsedEnv := {
  p_PORT : string; p_BOOKER_GPT_TOKEN : string; p_UBC_USER : string; p_UBC_PASS : string;
  p_EMAIL_FROM : option string; p_EMAIL_TO : option string;
  p_SMTP_HOST : option string; p_SMTP_PORT : option string;
  p_SMTP_USER : option string; p_SMTP_PASS : option string;
  p_TELEGRAM_BOT_TOKEN : option string; p_TELEGRAM_CHAT_ID : option string
}.

(** [env.smtp]; the non-null assertions [raw.SMTP_USER!] and the like do
    not check anything, so those fields stay optional. *)
Record Smtp := {
  smtp_host : string; smtp_port : option Z; smtp_user : option string; smtp_pass : option string;
  smtp_from : option string; smtp_to : option string
}.

Record Telegram := { botToken : string; chatId : option string }.

(** [export const env = { ... } as const] *)
Record Env := {
  port : option Z; bookerToken : string; ubc_user : string; ubc_pass : string;
  smtp : option Smtp; telegram : option Telegram
}.

Section Schema.
Variable is_email : string -> bool.

(** [z.string().min(n, msg)], a required key. *)
Definition check_min (key : string) (n : nat) (msg : string) (v : option string) : list Issue :=
  match v with
  | None => [{| issue_path := key; issue_message := "Required" |}]
  | Some s => if bool_decide (String.length s < n)%nat then [{| issue_path := key; issue_message := msg |}] else []
  end.

(** [z.string().email().optional()] *)
Definition check_email (key : string) (v : option string) : list Issue :=
  match v with
  | Some s => if is_email s then [] else [{| issue_path := key; issue_message := "Invalid email" |}]
  | None => []
  end.

(** [EnvSchema.safeParse(process.env)] *)
Definition parse_env (raw : RawEnv) : list Issue + ParsedEnv :=
  let issues :=
    check_min "BOOKER_GPT_TOKEN" 10 "BOOKER_GPT_TOKEN is missing" (BOOKER_GPT_TOKEN raw) ++
    check_min "UBC_USER" 1 "UBC_USER missing" (UBC_USER raw) ++
    check_min "UBC_PASS" 1 "UBC_PASS missing" (UBC_PASS raw) ++
    check_email "EMAIL_FROM" (EMAIL_FROM raw) ++ check_email "EMAIL_TO" (EMAIL_TO raw) in
  match issues, BOOKER_GPT_TOKEN raw, UBC_USER raw, UBC_PASS raw with
  | [], Some tok, Some u, Some p =>
      inr {| p_PORT := PORT raw ?? "8080"; p_BOOKER_GPT_TOKEN := tok; p_UBC_USER := u; p_UBC_PASS := p;
             p_EMAIL_FROM := EMAIL_FROM raw; p_EMAIL_TO := EMAIL_TO raw;
             p_SMTP_HOST := SMTP_HOST raw; p_SMTP_PORT := SMTP_PORT raw;
             p_SMTP_USER := SMTP_USER raw; p_SMTP_PASS := SMTP_PASS raw;
             p_TELEGRAM_BOT_TOKEN := TELEGRAM_BOT_TOKEN raw; p_TELEGRAM_CHAT_ID := TELEGRAM_CHAT_ID raw |}
  | _, _, _, _ => inl issues
  end.

(** A JavaScript-truthy optional string: present and non-empty. *)
Definition truthy (v : option string) : option string :=
  match v with Some s => if bool_decide (s = "") then None else Some s | None => None end.

(** Step 3 of [env.ts]: [Number(raw.PORT)], and the [smtp] and
    [telegram] blocks, present exactly when their host or token is
    truthy. *)
Definition normalize (raw : ParsedEnv) : Env :=
  {| port := Js.number (p_PORT raw);
     bookerToken := p_BOOKER_GPT_TOKEN raw;
     ubc_user := p_UBC_USER raw; ubc_pass := p_UBC_PASS raw;
     smtp := (fun host =>
                {| smtp_host := host;
                   smtp_port := match p_SMTP_PORT raw with Some s => Js.number s | None => Some 465%Z end;
                   smtp_user := p_SMTP_USER raw; smtp_pass := p_SMTP_PASS raw;
                   smtp_from := p_EMAIL_FROM raw; smtp_to := p_EMAIL_TO raw |}) <$> truthy (p_SMTP_HOST raw);
     telegram := (fun tok => {| botToken := tok; chatId := p_TELEGRAM_CHAT_ID raw |})
                   <$> truthy (p_TELEGRAM_BOT_TOKEN raw) |}.

(** The module's effect: the normalised [env], or [process.exit(1)]. *)
Definition load_env (raw : RawEnv) : option Env :=
  match parse_env raw with
  | inl _ => None
  | inr p => Some (normalize p)
  end.
End Schema.

(** ** Properties *)

Section Proofs.
Variable is_email : string -> bool.

Lemma check_min_nil key n msg v :
  check_min key n msg v = [] <-> exists s, v = Some s /\ (n <= String.length s)%nat.
Proof.
  unfold check_min. destruct v as [s|]; [|naive_solver].
  case_bool_decide as Hlt; split.
  - by intros [=].
  - intros (? & [= <-] & ?). lia.
  - intros _. exists s. split; [done | lia].
  - done.
Qed.

Lemma check_email_nil key v :
  check_email is_email key v = [] <-> forall s, v = Some s -> is_email s = true.
Proof.
  unfold check_email. destruct v as [s|]; [|naive_solver].
  destruct (is_email s) eqn:E; split; intros H; try done; [naive_solver|].
  by rewrite (H s eq_refl) in E.
Qed.

Lemma nonempty_min1 (v : option string) :
  (exists s, v = Some s /\ (1 <= String.length s)%nat) <-> (exists s, v = Some s /\ s <> "").
Proof.
  split; intros (s & -> & H); exists s; (split; [done|]); destruct s; simpl in *; done || lia.
Qed.

(** C18: the process starts exactly when the token has at least ten
    characters, the UBC user and password are non-empty, and the e-mail
    addresses that are set are valid. Then the token and the
    credentials are passed through unchanged, and the SMTP and Telegram
    blocks exist exactly when [SMTP_HOST] and [TELEGRAM_BOT_TOKEN] are
    non-empty. *)
Theorem load_env_spec raw :
  is_Some (load_env is_email raw) <->
  (exists tok, BOOKER_GPT_TOKEN raw = Some tok /\ (10 <= String.length tok)%nat) /\
  (exists u, UBC_USER raw = Some u /\ u <> "") /\
  (exists p, UBC_PASS raw = Some p /\ p <> "") /\
  (forall s, EMAIL_FROM raw = Some s -> is_email s = true) /\
  (forall s, EMAIL_TO raw = Some s -> is_email s = true).
Proof.
  unfold load_env, parse_env.
  remember (check_min "BOOKER_GPT_TOKEN" 10 "BOOKER_GPT_TOKEN is missing" (BOOKER_GPT_TOKEN raw) ++
            check_min "UBC_USER" 1 "UBC_USER missing" (UBC_USER raw) ++
            check_min "UBC_PASS" 1 "UBC_PASS missing" (UBC_PASS raw) ++
            check_email is_email "EMAIL_FROM" (EMAIL_FROM raw) ++
            check_email is_email "EMAIL_TO" (EMAIL_TO raw)) as issues eqn:Hi.
  assert (Hnil : issues = [] <->
    (exists tok, BOOKER_GPT_TOKEN raw = Some tok /\ (10 <= String.length tok)%nat) /\
    (exists u, UBC_USER raw = Some u /\ (1 <= String.length u)%nat) /\
    (exists p, UBC_PASS raw = Some p /\ (1 <= String.length p)%nat) /\
    (forall s, EMAIL_FROM raw = Some s -> is_email s = true) /\
    (forall s, EMAIL_TO raw = Some s -> is_email s = true))
    by (rewrite Hi, <- (check_min_nil "BOOKER_GPT_TOKEN" 10 "BOOKER_GPT_TOKEN is missing"),
          <- (check_min_nil "UBC_USER" 1 "UBC_USER missing"),
          <- (check_min_nil "UBC_PASS" 1 "UBC_PASS missing"), <- (check_email_nil "EMAIL_FROM"),
          <- (check_email_nil "EMAIL_TO"), !app_nil; reflexivity).
  rewrite <- (nonempty_min1 (UBC_USER raw)), <- (nonempty_min1 (UBC_PASS raw)), <- Hnil.
  destruct issues; [|by destruct (BOOKER_GPT_TOKEN raw), (UBC_USER raw), (UBC_PASS raw)].
  split; [intros _; done|intros _].
  destruct (proj1 Hnil eq_refl) as ((? & -> & _) & (? & -> & _) & (? & -> & _) & _). by eexists.
Qed.

Lemma truthy_Some v : is_Some (truthy v) <-> exists s, v = Some s /\ s <> "".
Proof. unfold truthy. destruct v as [s|]; [case_bool_decide; naive_solver | naive_solver]. Qed.

Lemma fmap_is_Some_iff {A B} (f : A -> B) (o : option A) : is_Some (f <$> o) <-> is_Some o.
Proof. destruct o; simpl; split; intros [? ?]; eauto; done. Qed.

(** C32: the normalised [env]. The token and the UBC credentials are
    the variables' values; [env.smtp] exists exactly when [SMTP_HOST]
    is non-empty, with port [Number(SMTP_PORT ?? 465)] and recipient
    [EMAIL_TO]; [env.telegram] exists exactly when
    [TELEGRAM_BOT_TOKEN] is non-empty. *)
Theorem load_env_normalize raw e :
  load_env is_email raw = Some e ->
  BOOKER_GPT_TOKEN raw = Some (bookerToken e) /\ UBC_USER raw = Some (ubc_user e) /\
  UBC_PASS raw = Some (ubc_pass e) /\
  (is_Some (smtp e) <-> exists h, SMTP_HOST raw = Some h /\ h <> "") /\
  (is_Some (telegram e) <-> exists t, TELEGRAM_BOT_TOKEN raw = Some t /\ t <> "") /\
  (forall sm, smtp e = Some sm ->
     smtp_port sm = match SMTP_PORT raw with Some p => Js.number p | None => Some 465%Z end /\
     smtp_to sm = EMAIL_TO raw).
Proof.
  unfold load_env, parse_env. repeat case_match; intros; simplify_eq; simpl;
    rewrite !fmap_is_Some_iff, !truthy_Some; do 5 (split; [done|]);
    intros ? (h & _ & ->)%fmap_Some; done.
Qed.

End Proofs.

(** ** Witnesses *)

Definition demo_raw : RawEnv :=
  {| PORT := None; BOOKER_GPT_TOKEN := Some "0123456789abcdef"; UBC_USER := Some "user";
     UBC_PASS := Some "secret"; EMAIL_FROM := None; EMAIL_TO := Some "me@example.com";
     SMTP_HOST := Some "smtp.example.com"; SMTP_PORT := None; SMTP_USER := None; SMTP_PASS := None;
     TELEGRAM_BOT_TOKEN := Some ""; TELEGRAM_CHAT_ID := Some "42" |}.

(** Any address is accepted by this stand-in for zod's e-mail check. *)
Definition any_email (_ : string) : bool := true.

Definition demo_env : Env :=
  {| port := Some 8080%Z; bookerToken := "0123456789abcdef"; ubc_user := "user"; ubc_pass := "secret";
     smtp := Some {| smtp_host := "smtp.example.com"; smtp_port := Some 465%Z; smtp_user := None;
                     smtp_pass := None; smtp_from := None; smtp_to := Some "me@example.com" |};
     telegram := None |}.

Lemma load_env_normalize_witness :
  load_env any_email demo_raw = Some demo_env /\ BOOKER_GPT_TOKEN demo_raw = Some (bookerToken demo_env).
Proof.
  assert (E : load_env any_email demo_raw = Some demo_env) by reflexivity.
  split; [exact E|]. exact (proj1 (load_env_normalize any_email demo_raw demo_env E)).
Defined.

(** [SMTP_HOST] alone enables e-mail: [env.smtp] exists with no
    user, password or sender, since the [!] assertions check nothing;
    and an empty [TELEGRAM_BOT_TOKEN] disables Telegram although a chat
    id is set. *)
Example smtp_without_credentials :
  option_map smtp_user (smtp demo_env) = Some None /\ option_map smtp_from (smtp demo_env) = Some None /\
  load_env any_email demo_raw = Some demo_env /\ telegram demo_env = None.
Proof. repeat split. Qed.

End Config.
