(* ===== verification/OldConfig.v ===== *)
(** * The older configuration module

    [src/unnamed/part_004] is an earlier revision of [config/env.ts].
    Its schema also accepts [UBC_BASE_URL], and its [env] differs from
    the current one in three places: [env.ubc.baseUrl] exists (the
    older scanner of [src/src/ubc.ts] reads it), the SMTP recipient
    falls back to [EMAIL_FROM] when [EMAIL_TO] is missing or empty, and
    the SMTP port and Telegram chat id use [||] where the current code
    uses [??]. The older notifier comment "EMAIL_TO/EMAIL_FROM" in
    [notify.ts] describes this revision. *)

From S2P Require Import Prelude JsString Config.

Module OldConfig.
Import Config.

(** [process.env] with the extra key of the older schema. *)
Record RawEnv0 := { raw : RawEnv; UBC_BASE_URL : option string }.

(** [env.ubc] of the older revision *)
Record Ubc0 := { user0 : string; pass0 : string; baseUrl : option string }.

(** [export const env = { ... } as const] of the older revision *)
Record Env0 := {
  port0 : option Z; bookerToken0 : string; ubc0 : Ubc0; smtp0 : option Smtp; telegram0 : option Telegram
}.

Section Schema.
Variable is_email : string -> bool.

(** [EnvSchema.safeParse(process.env)] of the older revision: the same
    checks with other messages; [UBC_BASE_URL] is an optional string. *)
Definition parse_env0 (r : RawEnv0) : list Issue + (ParsedEnv * option string) :=
  let e := raw r in
  let issues :=
    check_min "BOOKER_GPT_TOKEN" 10 "BOOKER_GPT_TOKEN is missing" (BOOKER_GPT_TOKEN e) ++
    check_min "UBC_USER" 1 "UBC_USER is missing" (UBC_USER e) ++
    check_min "UBC_PASS" 1 "UBC_PASS is missing" (UBC_PASS e) ++
    check_email is_email "EMAIL_FROM" (EMAIL_FROM e) ++ check_email is_email "EMAIL_TO" (EMAIL_TO e) in
  match issues, BOOKER_GPT_TOKEN e, UBC_USER e, UBC_PASS e with
  | [], Some tok, Some u, Some p =>
      inr ({| p_PORT := PORT e ?? "8080"; p_BOOKER_GPT_TOKEN := tok; p_UBC_USER := u; p_UBC_PASS := p;
              p_EMAIL_FROM := EMAIL_FROM e; p_EMAIL_TO := EMAIL_TO e;
              p_SMTP_HOST := SMTP_HOST e; p_SMTP_PORT := SMTP_PORT e;
              p_SMTP_USER := SMTP_USER e; p_SMTP_PASS := SMTP_PASS e;
              p_TELEGRAM_BOT_TOKEN := TELEGRAM_BOT_TOKEN e; p_TELEGRAM_CHAT_ID := TELEGRAM_CHAT_ID e |},
           UBC_BASE_URL r)
  | _, _, _, _ => inl issues
  end.

(** [a || b] on optional strings. *)
Definition or_opt (a b : option string) : option string := match truthy a with Some s => Some s | None => b end.

(** Step 3 of the older [env.ts]. *)
Definition normalize0 (p : ParsedEnv) (base : option string) : Env0 :=
  {| port0 := Js.number (p_PORT p);
     bookerToken0 := p_BOOKER_GPT_TOKEN p;
     ubc0 := {| user0 := p_UBC_USER p; pass0 := p_UBC_PASS p; baseUrl := base |};
     smtp0 := (fun host =>
                 {| smtp_host := host;
                    smtp_port := match truthy (p_SMTP_PORT p) with Some s => Js.number s | None => Some 465%Z end;
                    smtp_user := p_SMTP_USER p; smtp_pass := p_SMTP_PASS p; smtp_from := p_EMAIL_FROM p;
                    smtp_to := or_opt (p_EMAIL_TO p) (truthy (p_EMAIL_FROM p)) |}) <$> truthy (p_SMTP_HOST p);
     telegram0 := (fun tok => {| botToken := tok; chatId := truthy (p_TELEGRAM_CHAT_ID p) |})
                    <$> truthy (p_TELEGRAM_BOT_TOKEN p) |}.

(** The module's effect: the older [env], or [process.exit(1)]. *)
Definition load_env0 (r : RawEnv0) : option Env0 :=
  match parse_env0 r with
  | inl _ => None
  | inr (p, base) => Some (normalize0 p base)
  end.
End Schema.

(** ** Properties *)

(** The two revisions start the process on the same configurations
    (only the messages of the issues differ). *)
Lemma load_env0_same_start is_email r :
  is_Some (load_env0 is_email r) <-> is_Some (load_env is_email (raw r)).
Proof.
  unfold load_env0, parse_env0, load_env, parse_env.
  destruct (BOOKER_GPT_TOKEN (raw r)), (UBC_USER (raw r)), (UBC_PASS (raw r)); simpl;
    repeat case_match; simplify_eq; split; intros [? ?]; simplify_eq; eauto; try done;
    repeat match goal with H : _ ++ _ = [] |- _ => apply app_nil in H as [? ?] end;
    repeat match goal with H : check_min _ _ _ _ = [] |- _ => unfold check_min in H end;
    repeat case_bool_decide; simplify_eq; try done.
Qed.

(** The older [env.smtp.to] is [EMAIL_TO || EMAIL_FROM]: with only a
    sender configured, the sender is the recipient. *)
Lemma smtp0_to is_email r e sm :
  load_env0 is_email r = Some e -> smtp0 e = Some sm ->
  smtp_to sm = or_opt (EMAIL_TO (raw r)) (truthy (EMAIL_FROM (raw r))).
Proof.
  unfold load_env0, parse_env0. repeat case_match; intros; simplify_eq; simpl in *.
  match goal with H : _ <$> _ = Some _ |- _ => apply fmap_Some in H as (? & _ & ->) end. done.
Qed.

(** ** The change that the notifier's comment documents *)

Definition from_only : RawEnv :=
  {| PORT := None; BOOKER_GPT_TOKEN := Some "0123456789abcdef"; UBC_USER := Some "user";
     UBC_PASS := Some "secret"; EMAIL_FROM := Some "bot@example.com"; EMAIL_TO := None;
     SMTP_HOST := Some "smtp.example.com"; SMTP_PORT := None; SMTP_USER := Some "u"; SMTP_PASS := Some "p";
     TELEGRAM_BOT_TOKEN := None; TELEGRAM_CHAT_ID := None |}.

Example email_from_fallback_dropped :
  option_map smtp_to (load_env0 any_email {| raw := from_only; UBC_BASE_URL := None |} ≫= smtp0) =
    Some (Some "bot@example.com") /\
  option_map smtp_to (load_env any_email from_only ≫= smtp) = Some None.
Proof. split; reflexivity. Qed.
End OldConfig.
