(* ===== verification/Notify.v ===== *)
(** * The notifier

    [src/src/notify.ts]: [notify(payload)] prefers Telegram (the
    payload's chat id, else the configured one) and falls back to
    e-mail (the payload's address, else [EMAIL_TO]); [sendTelegram]
    posts to the Bot API with [fetch]; [sendEmail] sends through
    nodemailer. The two network calls are the class [Transport], an
    oracle like the browser's portal. [notify] returns the sends it
    performed, in order, with its value: the delivery, or the message
    of the [Error] it throws. *)

From S2P Require Import Prelude JsString Config.

Module Notify.
Import Config.

Inductive Priority := Info | Warn | Urgent.

(** [type NotifyTarget] *)
Record NotifyTarget := { email : option string; sms : option string; telegram_chat_id : option string }.

(** [type NotifyPayload] *)
Record NotifyPayload := { notify_target : option NotifyTarget; text : string; priority : option Priority }.

(** The options [sendEmail] passes to [createTransport] and [sendMail];
    an option is [None] when the code passes [undefined]. *)
Record Mail := {
  mail_host : option string; mail_port : option Z; mail_secure : bool;
  mail_user : option string; mail_pass : option string; mail_from : option string;
  mail_to : string; mail_subject : string; mail_text : string
}.

(** What [fetch] resolves to, or the message it rejects with. *)
Inductive FetchResult := Response (ok : bool) (status : Z) (body : string) | FetchError (msg : string).

Class Transport := {
  fetch_post : string -> string -> FetchResult;  (** URL and JSON body *)
  send_mail : Mail -> option string              (** [Some msg] when [sendMail] rejects *)
}.

Inductive Send := SendTelegram (url body : string) | SendEmail (m : Mail).

(** The value of [notify]: [{ via: "telegram", chat_id }] or
    [{ via: "email", to }]. *)
Inductive Delivery := ViaTelegram (chat_id : string) | ViaEmail (to : string).

(** ** [JSON.stringify] of a string *)

Definition hex_digit (n : nat) : ascii := ascii_of_nat (if (n <? 10)%nat then 48 + n else 87 + n).

(** The double quote, character 34. *)
Definition quote : string := String "034"%char "".

Definition json_char (c : ascii) : string :=
  let n := nat_of_ascii c in
  if Ascii.eqb c "034"%char then "\" +:+ quote
  else if Ascii.eqb c "\" then "\\"
  else if (n =? 8)%nat then "\b"
  else if (n =? 9)%nat then "\t"
  else if (n =? 10)%nat then "\n"
  else if (n =? 12)%nat then "\f"
  else if (n =? 13)%nat then "\r"
  else if (n <? 32)%nat then "\u00" +:+ String (hex_digit (n / 16)) (String (hex_digit (n mod 16)) "")
  else String c "".

Fixpoint json_chars (s : string) : string :=
  match s with "" => "" | String c r => json_char c +:+ json_chars r end.

Definition json_string (s : string) : string := quote +:+ json_chars s +:+ quote.

(** [JSON.stringify({ chat_id: chatId, text })] *)
Definition telegram_body (chatId text : string) : string :=
  "{" +:+ json_string "chat_id" +:+ ":" +:+ json_string chatId +:+ "," +:+
  json_string "text" +:+ ":" +:+ json_string text +:+ "}".

(** ** The functions *)

(** JavaScript [a || b] on optional strings. *)
Definition js_or (a b : option string) : option string :=
  match a with Some s => if bool_decide (s = "") then b else a | None => b end.

Section Notifier.
Context {transport : Transport} (env : Env).

(** [async function sendTelegram(text, chatId)]: the sends and the
    error, if any. *)
Definition sendTelegram (text chatId : string) : list Send * option string :=
  match telegram env with
  | None => ([], Some "Telegram is not configured")
  | Some tg =>
      let url := "https://api.telegram.org/bot" +:+ botToken tg +:+ "/sendMessage" in
      let body := telegram_body chatId text in
      ([SendTelegram url body],
       match fetch_post url body with
       | Response true _ _ => None
       | Response false status b => Some ("Telegram sendMessage failed: " +:+ Js.Z_to_string status +:+ " " +:+ b)
       | FetchError m => Some m
       end)
  end.

(** [async function sendEmail(to, text)] *)
Definition sendEmail (to text : string) : list Send * option string :=
  match smtp env with
  | None => ([], Some "SMTP is not configured")
  | Some sm =>
      let m := {| mail_host := Some (smtp_host sm); mail_port := smtp_port sm;
                  mail_secure := bool_decide (smtp_port sm = Some 465%Z);
                  mail_user := smtp_user sm; mail_pass := smtp_pass sm; mail_from := smtp_from sm;
                  mail_to := to; mail_subject := "UBC Tennis Booker"; mail_text := text |} in
      ([SendEmail m], send_mail m)
  end.

Definition no_notifier : string :=
  "No notifier configured or no recipient provided (Telegram and SMTP both unavailable).".

(** The chat id of the Telegram path: [userChat || defaultChat]. *)
Definition chat_of (tg : Telegram) (p : NotifyPayload) : option string :=
  js_or (Js.trim <$> (notify_target p ≫= telegram_chat_id)) (Js.trim <$> chatId tg).

(** The recipient of the e-mail path: [(notify?.email || env.smtp.to || "").trim()]. *)
Definition recipient_of (sm : Smtp) (p : NotifyPayload) : string :=
  Js.trim (js_or (notify_target p ≫= email) (smtp_to sm) ?? "").

(** [export async function notify(payload)] *)
Definition notify (p : NotifyPayload) : list Send * (string + Delivery) :=
  let email_path :=
    match smtp env with
    | Some sm =>
        let to := recipient_of sm p in
        if bool_decide (to = "") then ([], inl no_notifier)
        else let '(sends, err) := sendEmail to (text p) in
             (sends, match err with Some m => inl m | None => inr (ViaEmail to) end)
    | None => ([], inl no_notifier)
    end in
  match telegram env with
  | Some tg =>
      match chat_of tg p with
      | Some c =>
          if bool_decide (c = "") then email_path
          else let '(sends, err) := sendTelegram (text p) c in
               (sends, match err with Some m => inl m | None => inr (ViaTelegram c) end)
      | None => email_path
      end
  | None => email_path
  end.
End Notifier.

(** ** Properties *)

Section Proofs.
Context {transport : Transport} (env : Env).

(** The Telegram path does not apply: no bot, or no non-empty chat id. *)
Definition no_telegram (p : NotifyPayload) : Prop :=
  forall tg c, telegram env = Some tg -> chat_of tg p = Some c -> c = "".

Lemma notify_email_path p :
  no_telegram p -> notify env p =
    match smtp env with
    | Some sm =>
        let to := recipient_of sm p in
        if bool_decide (to = "") then ([], inl no_notifier)
        else let '(sends, err) := sendEmail env to (text p) in
             (sends, match err with Some m => inl m | None => inr (ViaEmail to) end)
    | None => ([], inl no_notifier)
    end.
Proof.
  intros Hno. unfold notify. destruct (telegram env) as [tg|] eqn:Htg; [|done].
  destruct (chat_of tg p) as [c|] eqn:Hc; [|done]. by rewrite (Hno tg c), bool_decide_eq_true_2.
Qed.

(** C19: routing, exactly. When Telegram is configured and a non-empty
    chat id is found, [notify] makes one post, to the bot's
    [sendMessage] URL with that chat id and the text, and its outcome is
    that of the post: delivered on an ok answer, else the error thrown
    (no e-mail is tried). Otherwise, when SMTP is configured and the
    trimmed recipient is not empty, it sends one mail to that recipient
    with the text, the fixed subject and the configured host, port,
    [secure] exactly for port 465, credentials and sender, and its
    outcome is that of the mail. In every other case it sends nothing
    and throws the "No notifier configured" error. *)
Theorem notify_routes p :
  (forall tg c, telegram env = Some tg -> chat_of tg p = Some c -> c <> "" ->
     let url := "https://api.telegram.org/bot" +:+ botToken tg +:+ "/sendMessage" in
     let body := telegram_body c (text p) in
     notify env p =
       ([SendTelegram url body],
        match fetch_post url body with
        | Response true _ _ => inr (ViaTelegram c)
        | Response false st b => inl ("Telegram sendMessage failed: " +:+ Js.Z_to_string st +:+ " " +:+ b)
        | FetchError m => inl m
        end)) /\
  (forall sm, no_telegram p -> smtp env = Some sm -> recipient_of sm p <> "" ->
     exists m, notify env p =
       ([SendEmail m], match send_mail m with None => inr (ViaEmail (recipient_of sm p)) | Some e => inl e end) /\
       mail_to m = recipient_of sm p /\ mail_text m = text p /\ mail_subject m = "UBC Tennis Booker" /\
       mail_host m = Some (smtp_host sm) /\ mail_port m = smtp_port sm /\
       mail_secure m = bool_decide (smtp_port sm = Some 465%Z) /\
       mail_user m = smtp_user sm /\ mail_pass m = smtp_pass sm /\ mail_from m = smtp_from sm) /\
  (no_telegram p -> (forall sm, smtp env = Some sm -> recipient_of sm p = "") ->
     notify env p = ([], inl no_notifier)).
Proof.
  split_and!.
  - intros tg c Htg Hc Hne. unfold notify, sendTelegram. rewrite Htg, Hc, bool_decide_eq_false_2 by done.
    simpl. destruct (fetch_post _ _) as [[] ? ?|?]; reflexivity.
  - intros sm Hno Hsm Hto. rewrite (notify_email_path p Hno), Hsm. cbv zeta.
    rewrite bool_decide_eq_false_2 by done. unfold sendEmail. rewrite Hsm.
    eexists. split; [reflexivity | done].
  - intros Hno Hto. rewrite (notify_email_path p Hno).
    destruct (smtp env) as [sm|] eqn:Hsm; [|done]. cbv zeta. by rewrite (Hto sm eq_refl), bool_decide_eq_true_2.
Qed.

(** Telegram first. When Telegram is configured and the chat id is
    non-empty, the only send is the post to Telegram, whatever its
    answer: a failed post is thrown, never retried by e-mail. *)
Theorem notify_telegram_first p tg c :
  telegram env = Some tg -> chat_of tg p = Some c -> c <> "" ->
  fst (notify env p) = [SendTelegram ("https://api.telegram.org/bot" +:+ botToken tg +:+ "/sendMessage")
                                     (telegram_body c (text p))].
Proof.
  intros Htg Hc Hne. unfold notify, sendTelegram. rewrite Htg, Hc.
  rewrite bool_decide_eq_false_2 by done. by case_match.
Qed.
End Proofs.

(** ** Witnesses and findings *)

(** A transport whose Telegram posts fail with a 403 and whose mails go out. *)
Definition forbidden_transport : Transport :=
  {| fetch_post := fun _ _ => Response false 403 "Forbidden"; send_mail := fun _ => None |}.

Definition both_env : Env :=
  {| port := Some 8080%Z; bookerToken := "0123456789abcdef"; ubc_user := "user"; ubc_pass := "secret";
     smtp := Some {| smtp_host := "smtp.example.com"; smtp_port := Some 465%Z; smtp_user := Some "u";
                     smtp_pass := Some "p"; smtp_from := Some "bot@example.com"; smtp_to := Some "me@example.com" |};
     telegram := Some {| botToken := "123:abc"; chatId := Some " 42 " |} |}.

Definition hello : NotifyPayload := {| notify_target := None; text := "Court free at 19:00"; priority := None |}.

Lemma notify_telegram_first_witness :
  fst (notify (transport := forbidden_transport) both_env hello) =
  [SendTelegram "https://api.telegram.org/bot123:abc/sendMessage" (telegram_body "42" "Court free at 19:00")].
Proof.
  exact (notify_telegram_first (transport := forbidden_transport) both_env hello
           {| botToken := "123:abc"; chatId := Some " 42 " |} "42" eq_refl eq_refl ltac:(discriminate)).
Defined.

Definition from_only_env : Env :=
  {| port := Some 8080%Z; bookerToken := "0123456789abcdef"; ubc_user := "user"; ubc_pass := "secret";
     smtp := Some {| smtp_host := "smtp.example.com"; smtp_port := Some 587%Z; smtp_user := Some "u";
                     smtp_pass := Some "p"; smtp_from := Some "bot@example.com"; smtp_to := None |};
     telegram := None |}.

(** [EMAIL_FROM] is never a recipient, although the comment of
    [notify] lists it as the last fallback: with only a sender
    configured, nothing is sent. *)
Example notify_ignores_email_from :
  notify (transport := forbidden_transport) from_only_env hello = ([], inl no_notifier).
Proof. reflexivity. Qed.

End Notify.
