(* ===== verification/Api.v ===== *)
(** * The HTTP API

    [index.ts] ([src/unnamed/part_001]): the Express application. A
    request is a method, a path, the [Authorization] header and the
    body that [express.json()] parsed (or [None] when there is none).
    [requireBearer] guards the three POST routes. Each route validates
    its body with a zod schema and calls [checkAvailability],
    [bookSlot] or [notify]. [app] dispatches a request to its route and
    returns the notifier's sends with the response, in the browser
    monad, so the browser effects of a route are those of the function
    it calls.

    zod is a library the code calls. Its parsers are written out here
    as functions from an optional JSON value ([None] is [undefined]) to
    the list of issues or the parsed value, collecting the issues of
    every field as zod does. The formatting of [ZodError.message], the
    e-mail and URL checks, and [Date.now()] are Section variables. *)

From S2P Require Import Prelude JsString Preferences Slots Browser Auth Scanner Booking Config Notify.

Module Api.
Import Browser Slots.

(** ** JSON values *)

(** What [JSON.parse] produces; numbers are integers. The proofs only
    need case analysis, so no induction scheme is generated. *)
Unset Elimination Schemes.
Inductive Json :=
  | JNull | JBool (b : bool) | JNum (n : Z) | JStr (s : string)
  | JArr (l : list Json) | JObj (kvs : list (string * Json)).
Set Elimination Schemes.

(** [obj[k]] on a parsed object: the last duplicate key wins. *)
Definition jget (k : string) (kvs : list (string * Json)) : option Json :=
  fold_left (fun acc kv => if bool_decide (kv.1 = k) then Some kv.2 else acc) kvs None.

(** ** zod *)

Inductive ZCode :=
  | InvalidType | TooSmall (min : Z) | TooBig (max : Z)
  | InvalidString (validation : string) | InvalidUnion | InvalidEnumValue.

Record ZIssue := { zi_path : list string; zi_code : ZCode }.

(** A schema: the input, [undefined] as [None], to issues or a value. *)
Definition Parser (A : Type) : Type := option Json -> list ZIssue + A.

Definition zfail {A} (c : ZCode) : list ZIssue + A := inl [{| zi_path := []; zi_code := c |}].

(** The issues of a field, with the key put in front of their path. *)
Definition at_key {A} (k : string) (r : list ZIssue + A) : list ZIssue + A :=
  match r with
  | inl iss => inl ((fun i => {| zi_path := k :: zi_path i; zi_code := zi_code i |}) <$> iss)
  | inr a => inr a
  end.

(** Field by field, keeping the issues of every field. *)
Definition zap {A B} (rf : list ZIssue + (A -> B)) (ra : list ZIssue + A) : list ZIssue + B :=
  match rf, ra with
  | inr f, inr a => inr (f a)
  | inl e1, inl e2 => inl (e1 ++ e2)
  | inl e, inr _ => inl e
  | inr _, inl e => inl e
  end.
Infix "<*>ᶻ" := zap (at level 61, left associativity) : fb_scope.

(** [schema.optional()]: [undefined] passes; [null] does not. *)
Definition z_optional {A} (p : Parser A) : Parser (option A) :=
  fun v => match v with
           | None => inr None
           | Some _ => match p v with inl e => inl e | inr a => inr (Some a) end
           end.

(** [z.object(shape)]: the input must be a non-array object; unknown keys
    are dropped. *)
Definition z_object {A} (fields : list (string * Json) -> list ZIssue + A) : Parser A :=
  fun v => match v with Some (JObj kvs) => fields kvs | _ => zfail InvalidType end.

Definition z_field {A} (kvs : list (string * Json)) (k : string) (p : Parser A) : list ZIssue + A :=
  at_key k (p (jget k kvs)).

(** [z.number().min(lo).max(hi)]: both bounds are checked. *)
Definition z_number_range (lo hi : Z) : Parser Z :=
  fun v => match v with
           | Some (JNum n) =>
               match (if bool_decide (n < lo)%Z then [{| zi_path := []; zi_code := TooSmall lo |}] else []) ++
                     (if bool_decide (hi < n)%Z then [{| zi_path := []; zi_code := TooBig hi |}] else []) with
               | [] => inr n
               | iss => inl iss
               end
           | _ => zfail InvalidType
           end.

Definition z_boolean : Parser bool :=
  fun v => match v with Some (JBool b) => inr b | _ => zfail InvalidType end.

Definition z_string : Parser string :=
  fun v => match v with Some (JStr s) => inr s | _ => zfail InvalidType end.

(** [z.string()] with a refinement such as [.email()] or [.regex(re)]. *)
Definition z_string_check (name : string) (ok : string -> bool) : Parser string :=
  fun v => match v with
           | Some (JStr s) => if ok s then inr s else zfail (InvalidString name)
           | _ => zfail InvalidType
           end.

Fixpoint z_string_items (i : nat) (l : list Json) : list ZIssue + list string :=
  match l with
  | [] => inr []
  | x :: l' => inr cons <*>ᶻ at_key (Js.nat_to_string i) (z_string (Some x)) <*>ᶻ z_string_items (S i) l'
  end.

(** [z.array(z.string())] *)
Definition z_string_array : Parser (list string) :=
  fun v => match v with Some (JArr l) => z_string_items 0 l | _ => zfail InvalidType end.

(** [z.union([z.literal(a), z.literal(b), ...])] on numbers. *)
Definition z_num_literals (ls : list Z) : Parser Z :=
  fun v => match v with
           | Some (JNum n) => if bool_decide (n ∈ ls) then inr n else zfail InvalidUnion
           | _ => zfail InvalidUnion
           end.

(** [z.enum([...])] *)
Definition z_enum {A} (cases : list (string * A)) : Parser A :=
  fun v => match v with
           | Some (JStr s) => match first_match (fun c => bool_decide (c.1 = s)) cases with
                              | Some c => inr c.2
                              | None => zfail InvalidEnumValue
                              end
           | _ => zfail InvalidEnumValue
           end.

(** ** The schemas of [index.ts] *)

(** [/^\d{2}:\d{2}$/]: [$] without the [m] flag is the end of the input. *)
Definition is_hhmm (s : string) : bool :=
  match s with
  | String a (String b (String c (String d (String e "")))) =>
      Js.is_digit a && Js.is_digit b && Ascii.eqb c ":" && Js.is_digit d && Js.is_digit e
  | _ => false
  end.

Section Schemas.
Variables is_email is_url : string -> bool.

(** [const PreferencesSchema = z.object({ ... })] *)
Definition PreferencesSchema : Parser Preferences.Preferences :=
  z_object (fun o =>
    inr Preferences.Build_Preferences
      <*>ᶻ z_field o "days_ahead" (z_optional (z_number_range 0 14))
      <*>ᶻ z_field o "start_hour" (z_optional (z_number_range 0 23))
      <*>ᶻ z_field o "end_hour" (z_optional (z_number_range 1 24))
      <*>ᶻ z_field o "min_minutes" (z_optional (z_number_range 30 120))
      <*>ᶻ z_field o "indoor_only" (z_optional z_boolean)
      <*>ᶻ z_field o "locations" (z_optional z_string_array)
      <*>ᶻ z_field o "dates" (z_optional z_string_array)).

(** [z.object({ preferences: PreferencesSchema })] of [/check_now] *)
Definition CheckNowSchema : Parser Preferences.Preferences :=
  z_object (fun o => z_field o "preferences" PreferencesSchema).

(** The object of the [notify] field of [NotifyRequestSchema] *)
Definition NotifyObject : Parser Notify.NotifyTarget :=
  z_object (fun o =>
    inr Notify.Build_NotifyTarget
      <*>ᶻ z_field o "email" (z_optional (z_string_check "email" is_email))
      <*>ᶻ z_field o "sms" (z_optional z_string)
      <*>ᶻ z_field o "telegram_chat_id" (z_optional z_string)).

(** The [notify] field of [NotifyRequestSchema]: [.optional()] *)
Definition NotifyTargetSchema : Parser (option Notify.NotifyTarget) := z_optional NotifyObject.

(** [const NotifyRequestSchema = z.object({ ... })], read [as NotifyPayload] *)
Definition NotifyRequestSchema : Parser Notify.NotifyPayload :=
  z_object (fun o =>
    inr Notify.Build_NotifyPayload
      <*>ᶻ z_field o "notify" NotifyTargetSchema
      <*>ᶻ z_field o "text" z_string
      <*>ᶻ z_field o "priority"
             (z_optional (z_enum [("info", Notify.Info); ("warn", Notify.Warn); ("urgent", Notify.Urgent)]))).

(** [const BookingRequestSchema = z.object({ ... })] *)
Definition BookingRequestSchema : Parser Booking.BookingRequest :=
  z_object (fun o =>
    inr Booking.Build_BookingRequest
      <*>ᶻ z_field o "facility_url" (z_string_check "url" is_url)
      <*>ᶻ z_field o "time_24h" (z_string_check "regex" is_hhmm)
      <*>ᶻ z_field o "duration_hours" (z_num_literals [1; 2]%Z)
      <*>ᶻ z_field o "num_people" (z_num_literals [1; 2; 3; 4]%Z)).
End Schemas.

(** ** Responses *)

(** What [res.json], [res.send] or Express's fallback write. *)
Inductive Body := JsonBody (j : Json) | TextBody (s : string) | NoRoute (method path : string).

Record Response := { status : Z; body : Body }.

Definition ok_json (kvs : list (string * Json)) : Response := {| status := 200; body := JsonBody (JObj kvs) |}.

(** [res.status(code).json({ error, detail })] *)
Definition error_detail (code : Z) (error detail : string) : Response :=
  {| status := code; body := JsonBody (JObj [("error", JStr error); ("detail", JStr detail)]) |}.

(** [res.status(401).json({ error: "Unauthorized" })] *)
Definition unauthorized : Response :=
  {| status := 401; body := JsonBody (JObj [("error", JStr "Unauthorized")]) |}.

(** [JSON.stringify] of a [Slot] *)
Definition slot_json (sl : Slot) : Json :=
  JObj [("date_iso", JStr (date_iso sl)); ("time_24h", JStr (time_24h sl)); ("minutes", JNum (minutes sl));
        ("location", JStr (location sl)); ("deep_link", match deep_link sl with Some u => JStr u | None => JNull end)].

(** The own fields of a [BookingResult]; an [undefined] field is not written. *)
Definition result_fields (r : Booking.BookingResult) : list (string * Json) :=
  [("success", JBool (Booking.success r))] ++
  match Booking.confirmation_number r with Some c => [("confirmation_number", JStr c)] | None => [] end ++
  [("message", JStr (Booking.message r))] ++
  match Booking.booked_slot r with
  | Some b => [("booked_slot", JObj [("time", JStr (Booking.bs_time b)); ("duration", JNum (Booking.bs_duration b));
                                     ("location", JStr (Booking.bs_location b))])]
  | None => []
  end.

(** The fields of [notify]'s value. *)
Definition delivery_fields (d : Notify.Delivery) : list (string * Json) :=
  match d with
  | Notify.ViaTelegram c => [("via", JStr "telegram"); ("chat_id", JStr c)]
  | Notify.ViaEmail to => [("via", JStr "email"); ("to", JStr to)]
  end.

Definition exn_name_string (n : ExnName) : string :=
  match n with TimeoutError => "TimeoutError" | PlainError => "Error" | TypeError => "TypeError" | URIError => "URIError" end.

(** [String(err?.message || err)]: an [Error] with an empty message prints
    as its name. *)
Definition exn_detail (e : Exn) : string := exn_message e ||ₛ exn_name_string (exn_name e).

(** ** The application *)

(** A request as the handlers see it. [req_body] is what [express.json()]
    left in [req.body]. *)
Record HttpRequest := {
  req_method : string; req_path : string; req_authorization : option string; req_body : option Json
}.

(** Express matches paths case-insensitively and ignores one trailing
    slash (the defaults [caseSensitive: false] and [strict: false]). *)
Definition strip_slash (p : string) : string :=
  match String.rev p with String "/" (String c r) => String.rev (String c r) | _ => p end.

Definition route_is (route p : string) : bool := bool_decide (Js.to_lower (strip_slash p) = route).

(** [app.get] also answers [HEAD]. *)
Definition is_get (m : string) : bool := bool_decide (m = "GET") || bool_decide (m = "HEAD").

Section App.
Context {portal : Portal} {transport : Notify.Transport}.
Context (penv : Auth.ProcessEnv) (env : Config.Env).
Variables (is_email is_url : string -> bool) (zod_message : list ZIssue -> string) (now_ms : Z).

(** [function requireBearer(req, res, next)]: [true] when [next()] is called. *)
Definition requireBearer (authorization : option string) : bool :=
  let header := authorization ?? "" in
  let token := if Js.starts_with header "Bearer " then String.substring 7 (String.length header - 7) header
               else "" in
  negb (bool_decide (token = "") || negb (bool_decide (token = Config.bookerToken env))).

(** [app.post("/check_now", ...)]: the [ZodError] of [.parse] is thrown
    inside the [try] and answered like any other error. *)
Definition check_now (b : option Json) : M Response :=
  match CheckNowSchema b with
  | inl iss => ret (error_detail 400 "Invalid request" (zod_message iss))
  | inr prefs =>
      try_catch (slots <- Scanner.checkAvailability penv prefs ;;
                 ret (ok_json [("slots", JArr (slot_json <$> slots))]))
                (fun e => ret (error_detail 400 "Invalid request" (exn_detail e)))
  end.

(** [app.post("/notify", ...)] *)
Definition notify_route (b : option Json) : list Notify.Send * Response :=
  match NotifyRequestSchema is_email b with
  | inl iss => ([], error_detail 502 "Notify failed" (zod_message iss))
  | inr p =>
      let '(sends, r) := Notify.notify env p in
      (sends, match r with
              | inl m => error_detail 502 "Notify failed" (m ||ₛ "Error")
              | inr d => ok_json (("ok", JBool true) :: delivery_fields d)
              end)
  end.

(** The two answers of [/book] to a result of [bookSlot]. *)
Definition book_response (r : Booking.BookingResult) : Response :=
  if Booking.success r then ok_json (("ok", JBool true) :: result_fields r)
  else {| status := 400; body := JsonBody (JObj [("ok", JBool false); ("error", JStr (Booking.message r))]) |}.

(** [app.post("/book", ...)] *)
Definition book (b : option Json) : M Response :=
  match BookingRequestSchema is_url b with
  | inl iss => ret (error_detail 400 "Booking failed" (zod_message iss))
  | inr req =>
      try_catch (r <- Booking.bookSlot penv req ;; ret (book_response r))
                (fun e => ret (error_detail 400 "Booking failed" (exn_detail e)))
  end.

(** A POST route behind [requireBearer]. *)
Definition guarded (r : HttpRequest) (k : M (list Notify.Send * Response)) : M (list Notify.Send * Response) :=
  if requireBearer (req_authorization r) then k else ret ([], unauthorized).

(** The routes of [app], in the order they are registered; a request no
    route matches gets Express's 404. *)
Definition app (r : HttpRequest) : M (list Notify.Send * Response) :=
  let m := req_method r in
  let p := req_path r in
  if is_get m && route_is "/" p then
    ret ([], {| status := 200; body := TextBody "UBC Tennis Booker API is running. Try GET /health" |})
  else if is_get m && route_is "/health" p then
    ret ([], ok_json [("ok", JBool true); ("ts", JNum now_ms)])
  else if bool_decide (m = "POST") && route_is "/check_now" p then
    guarded r (resp <- check_now (req_body r) ;; ret ([], resp))
  else if bool_decide (m = "POST") && route_is "/notify" p then
    guarded r (ret (notify_route (req_body r)))
  else if bool_decide (m = "POST") && route_is "/book" p then
    guarded r (resp <- book (req_body r) ;; ret ([], resp))
  else ret ([], {| status := 404; body := NoRoute m p |}).
End App.

(** ** Lemmas on the parsers *)

Lemma zap_inr {A B} (rf : list ZIssue + (A -> B)) ra b :
  zap rf ra = inr b -> exists f a, rf = inr f /\ ra = inr a /\ b = f a.
Proof. destruct rf, ra; simpl; intros; simplify_eq; eauto. Qed.

Ltac zap_inv :=
  repeat match goal with
  | H : zap _ _ = inr _ |- _ => apply zap_inr in H as (? & ? & ? & ? & ->)
  | H : inr _ = inr _ |- _ => injection H as <-
  end.

Lemma at_key_inr {A} k (r : list ZIssue + A) a : at_key k r = inr a <-> r = inr a.
Proof. destruct r; simpl; split; intros; simplify_eq; done. Qed.

Lemma z_range_inr lo hi v x :
  z_optional (z_number_range lo hi) v = inr x -> Preferences.in_range lo hi x = true.
Proof.
  destruct v as [[]|]; simpl; intros; simplify_eq; try done.
  do 2 case_bool_decide; simpl in *; simplify_eq; simpl; apply bool_decide_eq_true; lia.
Qed.

Lemma z_string_check_inr name ok v x : z_string_check name ok v = inr x -> ok x = true.
Proof. destruct v as [[]|]; simpl; try case_if; intros; simplify_eq; done. Qed.

Lemma z_num_literals_inr ls v x : z_num_literals ls v = inr x -> x ∈ ls.
Proof. destruct v as [[]|]; simpl; try case_bool_decide; intros; simplify_eq; done. Qed.

Lemma jget_fold k l acc :
  fold_left (fun acc kv => if bool_decide (kv.1 = k) then Some kv.2 else acc) l acc =
  match jget k l with Some v => Some v | None => acc end.
Proof.
  unfold jget. revert acc. induction l as [|[k' v] l IH]; intros acc; simpl; [done|].
  rewrite (IH (if bool_decide (k' = k) then Some v else acc)), (IH (if bool_decide (k' = k) then Some v else None)).
  by case_bool_decide; case_match.
Qed.

(** A field written only when it is defined. *)
Definition opt_field (k : string) (o : option Json) : list (string * Json) :=
  match o with Some v => [(k, v)] | None => [] end.

Lemma jget_opt_field k k' o : jget k (opt_field k' o) = if bool_decide (k' = k) then o else None.
Proof. destruct o; simpl; unfold jget; simpl; by case_bool_decide. Qed.

Lemma jget_opt_field_app k k' o l :
  jget k (opt_field k' o ++ l) =
  match jget k l with Some v => Some v | None => if bool_decide (k' = k) then o else None end.
Proof.
  destruct o; simpl; [unfold jget at 1; simpl; rewrite jget_fold|]; case_bool_decide; by destruct (jget k l).
Qed.

Lemma z_string_items_map i l : z_string_items i (JStr <$> l) = inr l.
Proof. revert i. induction l as [|x l IH]; intros i; simpl; [done|]. by rewrite IH. Qed.

Lemma z_range_roundtrip lo hi o :
  Preferences.in_range lo hi o = true -> z_optional (z_number_range lo hi) (JNum <$> o) = inr o.
Proof.
  destruct o as [n|]; simpl; [|done]. intros ?%bool_decide_eq_true.
  rewrite !bool_decide_eq_false_2 by lia. done.
Qed.

(** [JSON.stringify] of a [Preferences] object: the defined fields. *)
Definition prefs_json (p : Preferences.Preferences) : Json :=
  JObj (opt_field "days_ahead" (JNum <$> Preferences.days_ahead p) ++
        opt_field "start_hour" (JNum <$> Preferences.start_hour p) ++
        opt_field "end_hour" (JNum <$> Preferences.end_hour p) ++
        opt_field "min_minutes" (JNum <$> Preferences.min_minutes p) ++
        opt_field "indoor_only" (JBool <$> Preferences.indoor_only p) ++
        opt_field "locations" ((fun l => JArr (JStr <$> l)) <$> Preferences.locations p) ++
        opt_field "dates" ((fun l => JArr (JStr <$> l)) <$> Preferences.dates p)).

Lemma route_is_other a b p : route_is a p = true -> a <> b -> route_is b p = false.
Proof. unfold route_is. intros ?%bool_decide_eq_true ?. apply bool_decide_eq_false. congruence. Qed.

Lemma is_get_post : is_get "POST" = false.
Proof. reflexivity. Qed.

(** ** Properties *)

Section ApiProofs.
Context {portal : Portal} {transport : Notify.Transport}.
Context (penv : Auth.ProcessEnv) (env : Config.Env).
Variables (is_email is_url : string -> bool) (zod_message : list ZIssue -> string) (now_ms : Z).

(** C14: [requireBearer] lets a request through exactly when its
    [Authorization] header is ["Bearer "] followed by the configured
    token, and that token is not empty. *)
Theorem requireBearer_spec a :
  requireBearer env a = true <->
  a = Some ("Bearer " +:+ Config.bookerToken env) /\ Config.bookerToken env <> "".
Proof.
  unfold requireBearer. destruct a as [h|]; cbn [default id].
  - destruct (Js.starts_with h "Bearer ") eqn:Hs.
    + apply Js.prefixb_inv in Hs as [t ->].
      replace (String.substring 7 _ _) with t by (symmetry; exact (Js.substring_app "Bearer " t)).
      repeat case_bool_decide; subst; simpl; split; intros Hx; try done;
        try (destruct Hx as [[= Ht] ?]; subst; done); split; congruence.
    + rewrite bool_decide_eq_true_2 by done. split; [done|].
      intros [[= ->] _]. unfold Js.starts_with in Hs. by rewrite Js.prefixb_app in Hs.
  - rewrite bool_decide_eq_true_2 by done. naive_solver.
Qed.

(** C15: A request the three POST routes would refuse performs no browser
    effect and no send. On those routes its answer is 401. *)
Theorem app_unauthenticated r s :
  requireBearer env (req_authorization r) = false ->
  exists resp, app penv env is_email is_url zod_message now_ms r s = (Ret ([], resp), s) /\
    (req_method r = "POST" ->
     route_is "/check_now" (req_path r) || route_is "/notify" (req_path r) || route_is "/book" (req_path r) = true ->
     resp = unauthorized).
Proof.
  intros Ha. unfold app, guarded. rewrite Ha.
  destruct (bool_decide (req_method r = "POST")) eqn:Hp;
    [apply bool_decide_eq_true in Hp; rewrite Hp, is_get_post|]; simpl;
    repeat case_if; (eexists; split; [reflexivity|]); try done;
    try (intros Hm; exfalso; rewrite Hm in Hp; by vm_compute in Hp);
    intros _ Hr; rewrite !orb_true_iff in Hr; naive_solver.
Qed.

(** C12: A POST to [/book] that passes the bearer check and the schema runs
    [bookSlot] on the parsed request and nothing else. The answer is
    200 with [ok: true] and the result's fields exactly when the result
    reports success, 400 with [ok: false] and the result's message on a
    failure, and 400 with the error's message when [bookSlot] throws. So
    a 200 answer means that "Place My Order" was clicked and answered
    during the request. *)
Theorem app_book r s req :
  req_method r = "POST" -> route_is "/book" (req_path r) = true ->
  requireBearer env (req_authorization r) = true ->
  BookingRequestSchema is_url (req_body r) = inr req ->
  app penv env is_email is_url zod_message now_ms r s =
    (let '(res, s') := Booking.bookSlot penv req s in
     (Ret ([], match res with
               | Ret x =>
                   if Booking.success x
                   then {| status := 200; body := JsonBody (JObj (("ok", JBool true) :: result_fields x)) |}
                   else {| status := 400;
                           body := JsonBody (JObj [("ok", JBool false); ("error", JStr (Booking.message x))]) |}
               | Throw e => error_detail 400 "Booking failed" (exn_detail e)
               end), s')) /\
  (forall resp s', app penv env is_email is_url zod_message now_ms r s = (Ret ([], resp), s') ->
     status resp = 200%Z -> exists p t pt, Booking.added (Ev p (Click (CAff APlaceOrder) Plain) (Ok t pt)) s s').
Proof.
  intros Hm Hr Ha Hb.
  assert (E : app penv env is_email is_url zod_message now_ms r s =
    let '(res, s') := Booking.bookSlot penv req s in
    (Ret ([], match res with Ret x => book_response x
                             | Throw e => error_detail 400 "Booking failed" (exn_detail e) end), s')).
  { unfold app, guarded, book. cbv zeta. rewrite Hm, is_get_post, Ha, Hb.
    rewrite (route_is_other "/book" "/check_now"), (route_is_other "/book" "/notify"),
      bool_decide_eq_true_2 by first [done | discriminate]. cbn [andb]. rewrite Hr.
    unfold bind, try_catch, ret. by destruct (Booking.bookSlot penv req s) as [[x|e] s']. }
  rewrite E. unfold book_response, ok_json.
  destruct (Booking.bookSlot penv req s) as [[x|e] s'] eqn:Eb; split; try done;
    intros resp s'' [= <- <-]; [|done].
  destruct (Booking.success x) eqn:Hs; [|done]. intros _.
  exact (Booking.bookSlot_placed penv req s x s' Eb Hs).
Qed.

(** A POST to [/check_now] that passes the bearer check and the schema
    runs [checkAvailability] and answers its slots, or 400 with the
    message of the error it throws. *)
Lemma app_check_now r s prefs :
  req_method r = "POST" -> route_is "/check_now" (req_path r) = true ->
  requireBearer env (req_authorization r) = true ->
  CheckNowSchema (req_body r) = inr prefs ->
  app penv env is_email is_url zod_message now_ms r s =
    let '(res, s') := Scanner.checkAvailability penv prefs s in
    (Ret ([], match res with
              | Ret slots => ok_json [("slots", JArr (slot_json <$> slots))]
              | Throw e => error_detail 400 "Invalid request" (exn_detail e)
              end), s').
Proof.
  intros Hm Hr Ha Hb. unfold app, guarded, check_now. cbv zeta. rewrite Hm, is_get_post, Ha, Hb,
    bool_decide_eq_true_2 by done. cbn [andb]. rewrite Hr.
  unfold bind, try_catch, ret. by destruct (Scanner.checkAvailability penv prefs s) as [[x|e] s'].
Qed.
End ApiProofs.

Lemma PreferencesSchema_sound v p :
  PreferencesSchema v = inr p -> Preferences.PreferencesSchema_ok p = true.
Proof.
  unfold PreferencesSchema. destruct v as [[]|]; cbn [z_object]; try (unfold zfail; congruence).
  unfold z_field. intros H. zap_inv.
  repeat match goal with H : at_key _ _ = inr _ |- _ => apply at_key_inr in H end.
  simplify_eq. unfold Preferences.PreferencesSchema_ok; simpl.
  repeat (apply andb_true_intro; split); eauto using z_range_inr.
Qed.

Lemma CheckNowSchema_sound v p : CheckNowSchema v = inr p -> Preferences.PreferencesSchema_ok p = true.
Proof.
  unfold CheckNowSchema, z_object, z_field. destruct v as [[]|]; try (unfold zfail; congruence).
  intros H%at_key_inr. by eapply PreferencesSchema_sound.
Qed.

Section EndToEnd.
Context {portal : Portal} {transport : Notify.Transport}.
Context (penv : Auth.ProcessEnv) (env : Config.Env).
Variables (is_email is_url : string -> bool) (zod_message : list ZIssue -> string) (now_ms : Z).

(** C13: [/check_now] end to end: the API, the schema and the scanner. An
    authenticated POST whose body passes [CheckNowSchema] sends no
    notification and is answered either 200 with [{ slots }], where the
    slots are the stub slot of the day or a non-empty list sorted by
    (date, time) of slots that pass the preferences, or 400 with the
    scan's error. The preferences the scan ran with are within the
    schema's bounds. *)
Theorem check_now_end_to_end r s prefs res s' :
  req_method r = "POST" -> route_is "/check_now" (req_path r) = true ->
  requireBearer env (req_authorization r) = true -> CheckNowSchema (req_body r) = inr prefs ->
  app penv env is_email is_url zod_message now_ms r s = (Ret res, s') ->
  res.1 = [] /\ Preferences.PreferencesSchema_ok prefs = true /\
  ((exists l, res.2 = ok_json [("slots", JArr (slot_json <$> l))] /\
              Scanner.avail_post penv prefs (bs_today s) l) \/
   (exists e, res.2 = error_detail 400 "Invalid request" (exn_detail e))).
Proof.
  intros Hm Hr Ha Hb E. erewrite app_check_now in E by eassumption.
  destruct (Scanner.checkAvailability penv prefs s) as [[l|e] s1] eqn:Ec; injection E as <- <-.
  all: split; [done | split; [by eapply CheckNowSchema_sound|]]; eauto.
  left. exists l. split; [done|]. exact (Scanner.check_yields penv prefs (bs_today s) s l s1 eq_refl Ec).
Qed.
End EndToEnd.

(** C20: [PreferencesSchema] round trip. Written as JSON, a
    [Preferences] value is parsed back to itself exactly when its
    numbers are within the schema's bounds (days 0-14, start 0-23, end
    1-24, minimum 30-120 minutes). *)
Theorem preferences_schema_roundtrip p :
  PreferencesSchema (Some (prefs_json p)) = inr p <-> Preferences.PreferencesSchema_ok p = true.
Proof.
  split; [apply PreferencesSchema_sound|].
  destruct p as [da sh eh mm io ls ds]. unfold Preferences.PreferencesSchema_ok; simpl.
  intros [[[Hda Hsh]%andb_prop Heh]%andb_prop Hmm]%andb_prop.
  unfold PreferencesSchema, prefs_json, z_object, z_field. simpl Preferences.days_ahead.
  rewrite !jget_opt_field_app, !jget_opt_field. simpl. rewrite !option_match_id.
  rewrite !z_range_roundtrip by done.
  destruct io, ls, ds; simpl; rewrite ?z_string_items_map; done.
Qed.

(** C21: what [BookingRequestSchema] lets through: a URL, a time of the
    form dd:dd, a duration of 1 or 2 hours and 1 to 4 people. *)
Theorem BookingRequestSchema_sound (is_url : string -> bool) v req :
  BookingRequestSchema is_url v = inr req ->
  is_url (Booking.facility_url req) = true /\ is_hhmm (Booking.time_24h req) = true /\
  Booking.duration_hours req ∈ [1; 2]%Z /\ Booking.num_people req ∈ [1; 2; 3; 4]%Z.
Proof.
  unfold BookingRequestSchema. destruct v as [[]|]; cbn [z_object]; try (unfold zfail; congruence).
  unfold z_field. intros H. zap_inv.
  repeat match goal with H : at_key _ _ = inr _ |- _ => apply at_key_inr in H end.
  simplify_eq; simpl. split_and!; eauto using z_string_check_inr, z_num_literals_inr.
Qed.

(** ** Witnesses and findings *)

(** The header of a client holding the token of [Notify.both_env]. *)
Definition demo_auth : option string := Some ("Bearer " +:+ "0123456789abcdef").

Definition book_json (t : string) : Json :=
  JObj [("facility_url", JStr Scanner.demo_facility_url); ("time_24h", JStr t);
        ("duration_hours", JNum 1); ("num_people", JNum 2)].

Definition post (path : string) (auth : option string) (b : Json) : HttpRequest :=
  {| req_method := "POST"; req_path := path; req_authorization := auth; req_body := Some b |}.

(** Stand-ins for zod's URL check and message. *)
Definition any_url (_ : string) : bool := true.
Definition zod_stub (_ : list ZIssue) : string := "invalid".

(** The application on the booking portal of [Booking.v]. *)
Definition demo_app (site : Portal) (r : HttpRequest) : M (list Notify.Send * Response) :=
  app (portal := site) (transport := Notify.forbidden_transport) Auth.demo_env Notify.both_env
      any_url any_url zod_stub 0 r.

Lemma app_unauthenticated_witness :
  requireBearer Notify.both_env (Some "Bearer wrong") = false /\
  exists resp, demo_app Booking.booking_site (post "/book" (Some "Bearer wrong") (book_json "19:00")) Scanner.demo_start =
               (Ret ([], resp), Scanner.demo_start).
Proof.
  split; [reflexivity|].
  destruct (app_unauthenticated (portal := Booking.booking_site) (transport := Notify.forbidden_transport)
              Auth.demo_env Notify.both_env any_url any_url zod_stub 0
              (post "/book" (Some "Bearer wrong") (book_json "19:00")) Scanner.demo_start eq_refl)
    as [resp [E _]].
  exists resp. exact E.
Defined.

(** Scenario D through the API: 200 with the booked slot. *)
Lemma app_book_witness :
  fst (demo_app Booking.booking_site (post "/book" demo_auth (book_json "19:00")) Scanner.demo_start) =
  Ret ([], book_response Booking.booked_evening).
Proof.
  unfold demo_app.
  rewrite (proj1 (app_book (portal := Booking.booking_site) (transport := Notify.forbidden_transport)
             Auth.demo_env Notify.both_env any_url any_url zod_stub 0
             (post "/book" demo_auth (book_json "19:00")) Scanner.demo_start (Booking.evening_request "19:00")
             eq_refl eq_refl eq_refl eq_refl)).
  vm_compute. reflexivity.
Defined.

Lemma BookingRequestSchema_sound_witness :
  BookingRequestSchema any_url (Some (book_json "19:00")) = inr (Booking.evening_request "19:00") /\
  is_hhmm (Booking.time_24h (Booking.evening_request "19:00")) = true.
Proof.
  split; [reflexivity|].
  exact (proj1 (proj2 (BookingRequestSchema_sound any_url _ _ (eq_refl : BookingRequestSchema any_url
           (Some (book_json "19:00")) = inr (Booking.evening_request "19:00"))))).
Defined.

Definition evening_body : Json :=
  JObj [("preferences", JObj [("start_hour", JNum 18); ("end_hour", JNum 22)])].

(** The scan of the static site through the API: the evening slot. *)
Lemma check_now_end_to_end_witness :
  Preferences.PreferencesSchema_ok Scanner.evening = true.
Proof.
  refine (proj1 (proj2 (check_now_end_to_end (portal := Scanner.demo_site)
    (transport := Notify.forbidden_transport) Auth.demo_env Notify.both_env any_url any_url zod_stub 0
    (post "/check_now" demo_auth evening_body) Scanner.demo_start Scanner.evening
    ([], ok_json [("slots", JArr [slot_json Scanner.demo_evening_slot])])
    (snd (demo_app Scanner.demo_site (post "/check_now" demo_auth evening_body) Scanner.demo_start))
    eq_refl eq_refl eq_refl _ _))); vm_compute; reflexivity.
Defined.

(** a portal error during a scan is answered 400 "Invalid request",
    the status of a malformed request, with the portal's message. *)
Example check_now_portal_error_400 :
  fst (demo_app Scanner.broken_facility_site
         (post "/check_now" demo_auth (JObj [("preferences", JObj [("start_hour", JNum 18)])]))
         Scanner.demo_start) =
  Ret ([], error_detail 400 "Invalid request" "net::ERR_NAME_NOT_RESOLVED").
Proof. vm_compute. reflexivity. Qed.

(** A body without [text] is answered 502 "Notify failed", the status
    of a failed upstream call, although the request itself is invalid. *)
Example notify_invalid_body_502 :
  fst (demo_app Booking.booking_site (post "/notify" demo_auth (JObj [])) Scanner.demo_start) =
  Ret ([], error_detail 502 "Notify failed" "invalid").
Proof. vm_compute. reflexivity. Qed.

End Api.
