(* ===== verification/Legacy.v ===== *)
(** * The older revision of the scanner

    [src/src/ubc.ts] is an earlier revision of [ubc.ts] that the
    repository still ships. It has its own [ensureLoggedIn] (lines
    30-133), [inferCourtName] (137-151), [getDesiredMinutes] (153-157),
    [parseTimeFromText] (159-175), [scanSingleCourtPage] (179-264),
    [scanCourtsAndSlots] (291-364) and [checkAvailability] (371-411),
    and no [bookSlot]. It reads its credentials from [env] of
    [config/env.ts]; its [BASE_URL] is [env.ubc.baseUrl ?? DEFAULT],
    and [env.ts] defines no [baseUrl], so it is always the default.

    Unlike the current revision, it reads the schedule as a [table]
    whose rows start with a time label, it catches the error of each
    court and of the whole scan, and it stops the loop when the way
    back to the list fails. The theorems compare the two revisions:
    [parseTimeFromText] agrees with [to24h] wherever [to24h] answers,
    and the older scanner never throws, as the spec asks. *)

From S2P Require Import Prelude JsString TimeFormat Preferences Slots Browser Auth Scanner Config.

Module Legacy.
Import Browser Slots.

(** ** [parseTimeFromText] *)

(** [/(\d{1,2}):(\d{2})\s*(AM|PM)/i] at the start of [s]: unlike
    [to24h]'s pattern, nothing is required after the AM/PM. *)
Definition match_12h_at (s : string) : option (string * string * string) :=
  first_some (fun '(hh, r1) =>
    match TimeFormat.rx_colon_mm r1 with
    | Some (mm, r2) =>
        let '(_, r3) := TimeFormat.span_ws r2 in
        match TimeFormat.rx_ampm true r3 with
        | Some (ap, _) => Some (hh, mm, ap)
        | None => None
        end
    | None => None
    end) (TimeFormat.rx_d12 s).

(** [text.match(...)]: the leftmost match. *)
Fixpoint search_12h (s : string) : option (string * string * string) :=
  match match_12h_at s with
  | Some m => Some m
  | None => match s with "" => None | String _ s' => search_12h s' end
  end.

(** [function parseTimeFromText(raw: string): string | null] *)
Definition parseTimeFromText (raw : string) : option string :=
  let text := Js.trim raw in
  if bool_decide (text = "") then None
  else match search_12h text with
       | None => None
       | Some (h, minute, ap) =>
           let hour := Js.parse_int h in
           let ampm := Js.to_upper ap in
           let hour := if bool_decide (ampm = "PM") && negb (bool_decide (hour = Some 12%Z))
                       then (fun x => x + 12)%Z <$> hour else hour in
           let hour := if bool_decide (ampm = "AM") && bool_decide (hour = Some 12%Z) then Some 0%Z else hour in
           Some (Js.pad_start 2 "0" (TimeFormat.num_to_string hour) +:+ ":" +:+ minute)
       end.

(** [function getDesiredMinutes(prefs)]; no caller uses it. *)
Definition getDesiredMinutes (prefs : Preferences.Preferences) : Z :=
  let requested := Preferences.min_minutes prefs ?? 60%Z in
  if bool_decide (requested <= 60)%Z then 60%Z else 120%Z.

(** ** The pure parts of the scan *)

(** [text.split("\n").map((t) => t.trim()).filter(Boolean)[0] ?? ""] *)
Definition first_line (text : string) : string :=
  match filter (fun t => bool_decide (t <> "")) (Js.trim <$> Js.split "010"%char text) with
  | l :: _ => l
  | [] => ""
  end.

(** [inferCourtName]: the first non-empty line of the card's text, or
    "Unknown court" when there is none or the read fails. *)
Definition court_name_of (c : option CourtCard) : string :=
  match c ≫= cc_card_text with
  | Some text => first_line (Js.trim text) ||ₛ "Unknown court"
  | None => "Unknown court"
  end.

(** [/8:00 AM|9:00 AM|10:00 PM|Bookable 24hrs in advance/i.test(snippet)] *)
Definition is_scheduler_snippet (snippet : string) : bool :=
  let s := Js.to_lower snippet in
  Js.includes s "8:00 am" || Js.includes s "9:00 am" || Js.includes s "10:00 pm" ||
  Js.includes s "bookable 24hrs in advance".

(** [(await t.innerText().catch(() => "")).slice(0, 500)] *)
Definition snippet_of (t : Table) : string := String.substring 0 500 (tb_text t ?? "").

(** The body of the row loop of [scanSingleCourtPage] (lines 223-260):
    the slot the row adds, if any. *)
Definition row_slot (todayIso url courtName : string) (prefs : Preferences.Preferences)
    (r : TableRow) : option Slot :=
  let rawTime := Js.trim (tr_first_cell r ?? "") in
  match parseTimeFromText rawTime with
  | None => None
  | Some time24h =>
      let hh := Preferences.start_hour_of time24h in
      let prefsStart := Preferences.start_hour prefs ?? 0%Z in
      let prefsEnd := Preferences.end_hour prefs ?? 24%Z in
      if Preferences.js_lt hh prefsStart || Preferences.js_ge hh prefsEnd then None
      else if bool_decide (tr_book_now r = 0)%nat then None
      else Some {| date_iso := todayIso; time_24h := time24h;
                   minutes := Preferences.min_minutes prefs ?? 60%Z;
                   location := courtName ||ₛ "UBC Tennis Centre – court"; deep_link := Some url |}
  end.

(** The older revision's [BASE_URL]: [env.ubc.baseUrl] is undefined. *)
Definition BASE_URL : string := Auth.DEFAULT_BASE_URL.

(** The configuration as [Auth]'s steps read it: the older revision
    takes the credentials from [env.ubc] and never overrides the base. *)
Definition penv_of (env : Config.Env) : Auth.ProcessEnv :=
  {| Auth.UBC_BASE_URL := None; Auth.UBC_USER := Some (Config.ubc_user env);
     Auth.UBC_PASS := Some (Config.ubc_pass env) |}.

Section Scan.
Context {portal : Portal} (env : Config.Env).

(** [ensureLoggedIn] of the older revision: a role-based Login
    locator, the same CWL candidates as the current code, and no check
    of the credentials ([env.ts] already requires them). *)
Definition ensureLoggedIn (page : nat) : M nat :=
  d <- dom_of page ;;
  if negb (visible ALoginRole d) then ret page
  else
    maybeNewPage <- click page (CAff ALoginRole) WithPopup ;;
    let authPage := maybeNewPage ?? page in
    wait_load authPage DomContentLoaded None ;;
    authPage <- Auth.cwl_step authPage ;;
    wait_for authPage WUsername 60000 ;;
    wait_for authPage WPassword 60000 ;;
    fill authPage FUsername (Config.ubc_user env) ;;
    fill authPage FPassword (Config.ubc_pass env) ;;
    click_ authPage CSubmit Plain ;;
    wait_load authPage NetworkIdle (Some 60000%Z) ;;
    Auth.return_to_list (penv_of env) authPage ;;
    ret authPage.

(** [async function inferCourtName(chooseButton)] *)
Definition inferCourtName (page i : nat) : M string :=
  d <- dom_of page ;;
  ret (court_name_of (dom_courts d !! i)).

(** [async function scanSingleCourtPage(page, prefs, courtName)]; the
    debug listing when no table is found only reads and logs. *)
Definition scanSingleCourtPage (page : nat) (prefs : Preferences.Preferences) (courtName : string)
    : M (list Slot) :=
  or_else (wait_timeout page 2000) tt ;;
  d <- dom_of page ;;
  match first_match (fun t => is_scheduler_snippet (snippet_of t)) (dom_tables d) with
  | None => ret []
  | Some t =>
      todayIso <- today ;;
      u <- url_of page ;;
      ret (omap (row_slot todayIso u courtName prefs) (tb_rows t))
  end.

(** The [try] block of the court loop (lines 322-339). *)
Definition scan_court (page : nat) (prefs : Preferences.Preferences) (i : nat) (courtName : string)
    : M (list Slot) :=
  d <- dom_of page ;;
  match dom_courts d !! i with
  | None => throw Scanner.nth_timeout
  | Some c =>
      (match cc_href c with
       | Some href =>
           if bool_decide (href = "") then click_ page (CChoose i) Plain
           else goto page (Scanner.url_resolve href BASE_URL) DomContentLoaded
       | None => click_ page (CChoose i) Plain
       end) ;;
      scanSingleCourtPage page prefs courtName
  end.

(** Courts [i], ..., [i+k-1] after [acc]: a court's error is caught and
    its slots dropped; when the way back to the list fails the loop
    [break]s with what it has. *)
Fixpoint scan_from (page : nat) (prefs : Preferences.Preferences) (k i : nat) (acc : list Slot)
    : M (list Slot) :=
  match k with
  | O => ret acc
  | S k' =>
      courtName <- inferCourtName page i ;;
      acc <- try_catch (courtSlots <- scan_court page prefs i courtName ;; ret (acc ++ courtSlots))
                       (fun _ => ret acc) ;;
      back <- try_catch (goto page BASE_URL DomContentLoaded ;; ret true) (fun _ => ret false) ;;
      if back then scan_from page prefs k' (S i) acc else ret acc
  end.

(** [async function scanCourtsAndSlots(page, prefs)] *)
Definition scanCourtsAndSlots (page : nat) (prefs : Preferences.Preferences) : M (list Slot) :=
  d <- dom_of page ;;
  let totalCourts := length (dom_courts d) in
  if bool_decide (totalCourts = 0)%nat then ret []
  else scan_from page prefs (Nat.min totalCourts 10) 0 [].

(** The inner [try] of [checkAvailability] and the fallback (lines
    383-407): a scan error or an empty scan gives the stub slot. *)
Definition scan_or_stub (page : nat) (prefs : Preferences.Preferences) : M (list Slot) :=
  realSlots <- try_catch (scanCourtsAndSlots page prefs) (fun _ => ret []) ;;
  if bool_decide (0 < length realSlots)%nat then ret realSlots
  else
    todayIso <- today ;;
    ret [stub_slot todayIso BASE_URL prefs].

(** The outer [try] block of [checkAvailability] (lines 377-407). *)
Definition check_body (page : nat) (prefs : Preferences.Preferences) : M (list Slot) :=
  goto page BASE_URL NetworkIdle ;;
  page <- ensureLoggedIn page ;;
  scan_or_stub page prefs.

(** [export async function checkAvailability(prefs)] *)
Definition checkAvailability (prefs : Preferences.Preferences) : M (list Slot) :=
  launch ;;
  new_context ;;
  page <- new_page ;;
  try_finally (check_body page prefs) close_browser.
End Scan.
(** ** [parseTimeFromText] and [to24h] *)

Lemma rx_colon_mm_digit b r : Js.is_digit b = true -> TimeFormat.rx_colon_mm (String b r) = None.
Proof. destruct b as [[] [] [] [] [] [] [] []]; by vm_compute. Qed.

Lemma match_12h_at_of s g : TimeFormat.match_12h s = Some g -> match_12h_at s = Some g.
Proof.
  unfold TimeFormat.match_12h, match_12h_at, TimeFormat.rx_d12.
  destruct s as [|a [|b r]]; cbn -[TimeFormat.rx_colon_mm TimeFormat.rx_ampm TimeFormat.span_ws Js.is_digit];
    [done| |].
  - case_if; cbn -[TimeFormat.rx_colon_mm TimeFormat.rx_ampm TimeFormat.span_ws]; [|done].
    repeat case_match; simplify_eq; done.
  - case_if; cbn -[TimeFormat.rx_colon_mm TimeFormat.rx_ampm TimeFormat.span_ws]; [|done].
    case_if; cbn -[TimeFormat.rx_colon_mm TimeFormat.rx_ampm TimeFormat.span_ws];
      [|repeat case_match; simplify_eq; done].
    rewrite (rx_colon_mm_digit b r) by done. repeat case_match; simplify_eq; done.
Qed.

Lemma search_12h_at s g : match_12h_at s = Some g -> search_12h s = Some g.
Proof. intros H. destruct s; cbn [search_12h]; by rewrite H. Qed.

Lemma rx_ampm_upper s ap r :
  TimeFormat.rx_ampm true s = Some (ap, r) -> Js.to_upper ap = "AM" \/ Js.to_upper ap = "PM".
Proof.
  destruct s as [|a [|b s]]; simpl; try done. case_if; [|done]. intros [= <- _].
  apply andb_prop in E as [[Ha|Ha]%orb_prop Hb]; apply Ascii.eqb_eq in Ha, Hb;
    unfold Js.to_upper; simpl; rewrite Ha, Hb; auto.
Qed.

Lemma match_12h_upper s hh mm ap :
  TimeFormat.match_12h s = Some (hh, mm, ap) -> Js.to_upper ap = "AM" \/ Js.to_upper ap = "PM".
Proof.
  unfold TimeFormat.match_12h. generalize (TimeFormat.rx_d12 s).
  induction l as [|[h r1] l IH]; simpl; [done|].
  repeat case_match; intros; simplify_eq; eauto using rx_ampm_upper.
Qed.

(** C25: the older [parseTimeFromText] agrees with [to24h]: on every
    input that [to24h] converts, it gives the same 24-hour time. (It
    also accepts more: the label may be surrounded by other text.) *)
Theorem parseTimeFromText_to24h t x :
  TimeFormat.to24h t = Some x -> parseTimeFromText t = Some x.
Proof.
  unfold TimeFormat.to24h, parseTimeFromText.
  destruct (TimeFormat.match_12h (Js.trim t)) as [[[hh mm] ap]|] eqn:E; [|done]. intros [= <-].
  rewrite bool_decide_eq_false_2 by (intros Ht; by rewrite Ht in E).
  rewrite (search_12h_at _ _ (match_12h_at_of _ _ E)).
  destruct (TimeFormat.match_12h_digits _ _ _ _ E) as (Hh & Hhd & _).
  rewrite (Js.parse_int_digits hh) by done. cbn [fmap option_fmap option_map].
  destruct (match_12h_upper _ _ _ _ E) as [Hu|Hu]; rewrite Hu; clear E;
    generalize (Z.of_nat (Js.digits_value hh)); intros n;
    destruct (decide (n = 12%Z)) as [->|Hn]; simpl;
    rewrite ?bool_decide_eq_true_2, ?bool_decide_eq_false_2 by congruence; simpl;
    rewrite ?bool_decide_eq_true_2, ?bool_decide_eq_false_2 by congruence; done.
Qed.

(** ** The older scanner recovers locally *)

Section Recovery.
Context {portal : Portal} (prefs : Preferences.Preferences) (page : nat).

Lemma scanSingleCourtPage_safe courtName : safe page (scanSingleCourtPage page prefs courtName).
Proof. unfold scanSingleCourtPage. recover_auto. Qed.

Lemma scan_court_keeps_live i courtName : keeps_live page (scan_court page prefs i courtName).
Proof. unfold scan_court. recover_auto; apply keeps_live_safe, scanSingleCourtPage_safe. Qed.

Lemma scan_from_safe k i acc : safe page (scan_from page prefs k i acc).
Proof.
  revert i acc. induction k as [|k IH]; intros i acc; simpl; [apply safe_ret|].
  apply safe_bind; [unfold inferCourtName; recover_auto|intros courtName].
  apply safe_bind; [apply safe_try_catch; [|intros; apply safe_ret]|intros acc'].
  - apply keeps_live_bind; [apply scan_court_keeps_live | intros; apply keeps_live_safe, safe_ret].
  - apply safe_bind; [recover_auto|intros []; [apply IH|apply safe_ret]].
Qed.

(** The older [scanCourtsAndSlots] never throws: every error of a court,
    and of the way back to the list, is caught inside the loop, as the
    spec's propagation policy asks of a scan. *)
Lemma scanCourtsAndSlots_safe : safe page (scanCourtsAndSlots page prefs).
Proof. unfold scanCourtsAndSlots. recover_auto. apply scan_from_safe. Qed.

Lemma scan_from_keeps k i acc : keeps_today (scan_from page prefs k i acc).
Proof.
  revert i acc. induction k as [|k IH]; intros i acc; simpl; [apply keeps_ret|].
  unfold inferCourtName, scan_court, scanSingleCourtPage, or_else. keeps_tac.
Qed.

Lemma scanCourtsAndSlots_keeps : keeps_today (scanCourtsAndSlots page prefs).
Proof. unfold scanCourtsAndSlots. keeps_tac. apply scan_from_keeps. Qed.

(** C34: from an open page, the fallback block of the older
    [checkAvailability] always returns, and never an empty list: the
    scanned slots when there are any, otherwise the stub slot of the
    day. A scan error cannot escape, in contrast with the current
    revision. *)
Theorem scan_or_stub_total s :
  live page s ->
  exists l, fst (scan_or_stub page prefs s) = Ret l /\ l <> [] /\
    (l = [stub_slot (bs_today s) BASE_URL prefs] \/ fst (scanCourtsAndSlots page prefs s) = Ret l).
Proof.
  intros Hs. unfold scan_or_stub, bind, try_catch.
  destruct (scanCourtsAndSlots_safe s Hs) as (l & El & _).
  destruct (scanCourtsAndSlots page prefs s) as [r s1] eqn:Es; simpl in El; subst r.
  assert (Ht : bs_today s1 = bs_today s) by (rewrite <- (scanCourtsAndSlots_keeps s), Es; done).
  case_bool_decide as Hl; simpl.
  - exists l. split_and!; [done | by destruct l; simpl in Hl; [lia|] | by right].
  - rewrite Ht. eexists; split_and!; [done | done | by left].
Qed.
End Recovery.

(** ** The loop invariant of the older scanner *)

(** What every slot of the older scanner satisfies: a non-empty
    location, the minimum duration of the preferences (or 60), and a
    start hour inside the [start_hour]..[end_hour] window whenever the
    hour is a number. *)
Definition row_ok (prefs : Preferences.Preferences) (sl : Slot) : Prop :=
  location sl <> "" /\ minutes sl = Preferences.min_minutes prefs ?? 60%Z /\
  forall h, Preferences.start_hour_of (time_24h sl) = Some h ->
    (Preferences.start_hour prefs ?? 0 <= h < Preferences.end_hour prefs ?? 24)%Z.

Lemma row_slot_ok td u name prefs r sl : row_slot td u name prefs r = Some sl -> row_ok prefs sl.
Proof.
  unfold row_slot. case_match; [|done].
  destruct (Preferences.js_lt _ _ || Preferences.js_ge _ _) eqn:Hw; [done|].
  case_bool_decide; [done|]. intros [= <-].
  apply orb_false_iff in Hw as [Hlt Hge]. unfold row_ok; simpl.
  split_and!; [apply str_or_nonempty; discriminate | done |].
  intros h Hh. rewrite Hh in Hlt, Hge. simpl in Hlt, Hge.
  apply bool_decide_eq_false in Hlt, Hge. lia.
Qed.

Section Invariant.
Context {portal : Portal} (prefs : Preferences.Preferences) (page : nat) (td : string).

Lemma scanSingleCourtPage_ok courtName :
  yields td (scanSingleCourtPage page prefs courtName) (Forall (row_ok prefs)).
Proof.
  unfold scanSingleCourtPage. yields_skip. yields_skip. cbv beta.
  case_match; [|apply yields_ret; constructor].
  yields_skip. yields_skip. cbv beta. apply yields_ret.
  apply Forall_forall. intros sl (r & _ & Hr)%list_elem_of_omap. by eapply row_slot_ok.
Qed.

Lemma scan_court_keeps i courtName : keeps_today (scan_court page prefs i courtName).
Proof. unfold scan_court, scanSingleCourtPage, or_else. keeps_tac. Qed.

Lemma scan_court_ok i courtName : yields td (scan_court page prefs i courtName) (Forall (row_ok prefs)).
Proof.
  unfold scan_court. yields_skip. cbv beta. case_match; [|apply yields_throw].
  eapply yields_bind; [keeps_tac | apply yields_true | intros ? _]. apply scanSingleCourtPage_ok.
Qed.

(** C33: the loop invariant of the older [scanCourtsAndSlots]: when
    every slot collected so far satisfies [row_ok], every slot of the
    result does, whatever the portal answers and wherever the loop
    breaks. *)
Theorem scan_from_invariant k i acc :
  Forall (row_ok prefs) acc -> yields td (scan_from page prefs k i acc) (Forall (row_ok prefs)).
Proof.
  revert i acc. induction k as [|k IH]; intros i acc Hacc; simpl; [by apply yields_ret|].
  yields_skip. eapply yields_bind.
  - apply keeps_try_catch; [|intros; apply keeps_ret]. apply keeps_bind; [apply scan_court_keeps|intros; apply keeps_ret].
  - apply yields_try_catch; [apply keeps_bind; [apply scan_court_keeps|intros; apply keeps_ret]| |intros; by apply yields_ret].
    eapply yields_bind; [apply scan_court_keeps | apply scan_court_ok |].
    intros l Hl. apply yields_ret. by apply Forall_app.
  - intros acc' Hacc'. cbv beta. eapply yields_bind; [unfold or_else; keeps_tac | apply yields_true |].
    intros [] _; [by apply IH | by apply yields_ret].
Qed.
End Invariant.

(** ** Witnesses *)

Lemma parseTimeFromText_to24h_witness :
  TimeFormat.to24h " 7:00 pm " = Some "19:00" /\ parseTimeFromText " 7:00 pm " = Some "19:00".
Proof. split; [reflexivity | apply parseTimeFromText_to24h; reflexivity]. Defined.

(** A facility page with the older scheduler table: a row at 7:00 PM
    with a "Book Now" cell and a row at 3:00 PM without one. *)
Definition legacy_facility : Dom :=
  {| dom_visible := []; dom_courts := []; dom_facility_name := None; dom_spans := [];
     dom_attendees := []; dom_body := ""; dom_error := None; dom_alert := None; dom_confirmation := None;
     dom_tables := [{| tb_text := Some "8:00 AM ... 10:00 PM";
                       tb_rows := [{| tr_first_cell := Some " 7:00 PM "; tr_book_now := 1 |};
                                   {| tr_first_cell := Some "3:00 PM"; tr_book_now := 0 |}] |}];
     dom_player_options := []; dom_buttons := [] |}.

Definition legacy_site : Portal :=
  site_portal [(Auth.DEFAULT_BASE_URL, Scanner.demo_list); (Scanner.demo_facility_url, legacy_facility)].

(** The court list open in a running browser. *)
Definition legacy_state : BState :=
  {| bs_life := Running; bs_tabs := [{| tab_url := Auth.DEFAULT_BASE_URL; tab_dom := Scanner.demo_list |}];
     bs_trace := []; bs_today := "2026-11-09" |}.

Lemma scan_or_stub_total_witness :
  live 0 legacy_state /\
  exists l, fst (scan_or_stub (portal := legacy_site) 0 Scanner.evening legacy_state) = Ret l /\ l <> [].
Proof.
  assert (Hl : live 0 legacy_state) by (split; [reflexivity | by eexists]).
  split; [exact Hl|].
  destruct (scan_or_stub_total (portal := legacy_site) Scanner.evening 0 legacy_state Hl)
    as (l & E & Hne & _).
  exists l. split; [exact E | exact Hne].
Defined.

Lemma scan_from_invariant_witness :
  Forall (row_ok Scanner.evening) [] /\
  yields "2026-11-09" (scan_from (portal := legacy_site) 0 Scanner.evening 10 0 []) (Forall (row_ok Scanner.evening)).
Proof. split; [constructor | apply scan_from_invariant; constructor]. Defined.

(** The row at 7:00 PM becomes a slot of the court named by its card. *)
Example legacy_scan_table :
  fst (scan_or_stub (portal := legacy_site) 0 Scanner.evening legacy_state) =
  Ret [{| date_iso := "2026-11-09"; time_24h := "19:00"; minutes := 60; location := "Court 01 Choose";
          deep_link := Some Scanner.demo_facility_url |}].
Proof. vm_compute. reflexivity. Qed.

(** Where the current revision throws (see [Scanner.v]), the older one
    recovers: the facility page fails to load and the stub is returned. *)
Example legacy_scan_error_stub :
  fst (checkAvailability (portal := Scanner.broken_facility_site) Config.demo_env Scanner.evening
         Scanner.demo_start) =
  Ret [stub_slot "2026-11-09" BASE_URL Scanner.evening].
Proof. vm_compute. reflexivity. Qed.

End Legacy.
