(* ===== verification/OldNotify.v ===== *)
(** * The older notifier

    [src/unnamed/part_000] holds two earlier revisions of [notify.ts]:
    the first (lines 1-20) is only [sendEmail]; the second (lines
    21-71) adds [sendTelegram] and [notifyAny]. Its [sendEmail] is the
    first revision's, line for line. Both read [process.env] directly,
    which is the record [Config.RawEnv]. The network calls go through
    the [Transport] of [Notify.v], and each function returns the sends
    it performed with its value or the message of the exception it lets
    escape.

    What changed since: the older [sendTelegram] does not look at the
    HTTP status, so a refused post counts as delivered and the e-mail
    fallback is skipped; the current [sendTelegram] throws on a non-OK
    answer. *)

From S2P Require Import Prelude JsString Config Notify.

Module OldNotify.
Import Config Notify.

(** JavaScript truthiness of an optional string. *)
Definition js_truthy (v : option string) : bool :=
  match v with Some s => negb (bool_decide (s = "")) | None => false end.

(** [parseInt(process.env.SMTP_PORT || "465", 10)] *)
Definition smtp_port_of (penv : RawEnv) : option Z := Js.parse_int ((SMTP_PORT penv ?? "") ||ₛ "465").

Section Senders.
Context {transport : Transport} (penv : RawEnv).

(** The transport and message options of [sendEmail]; the [!]
    assertions check nothing. *)
Definition mail_of (to subject text : string) : Mail :=
  let port := smtp_port_of penv in
  {| mail_host := SMTP_HOST penv; mail_port := port; mail_secure := bool_decide (port = Some 465%Z);
     mail_user := SMTP_USER penv; mail_pass := SMTP_PASS penv; mail_from := EMAIL_FROM penv;
     mail_to := to; mail_subject := subject; mail_text := text |}.

(** [export async function sendEmail({ to, subject, text })] *)
Definition sendEmail (to subject text : string) : list Send * option string :=
  let m := mail_of to subject text in ([SendEmail m], send_mail m).

(** [async function sendTelegram(text)]: [inr b] is the boolean it
    returns, [inl msg] the rejection of [fetch]. *)
Definition sendTelegram (text : string) : list Send * (string + bool) :=
  if js_truthy (TELEGRAM_BOT_TOKEN penv) && js_truthy (TELEGRAM_CHAT_ID penv) then
    let token := TELEGRAM_BOT_TOKEN penv ?? "" in
    let chatId := TELEGRAM_CHAT_ID penv ?? "" in
    let url := "https://api.telegram.org/bot" +:+ token +:+ "/sendMessage" in
    let body := telegram_body chatId text in
    ([SendTelegram url body],
     match fetch_post url body with FetchError m => inl m | Response _ _ _ => inr true end)
  else ([], inr false).

Definition subject : string := "UBC Tennis Booker".

(** [export async function notifyAny({ emailTo, text })]: [Some msg]
    when an exception of [sendEmail] escapes. *)
Definition notifyAny (emailTo : option string) (text : string) : list Send * option string :=
  let '(tsends, tres) := sendTelegram text in
  let teleOK := match tres with inr b => b | inl _ => false end in
  if teleOK then (tsends, None)
  else if js_truthy emailTo && js_truthy (SMTP_USER penv) && js_truthy (SMTP_PASS penv) then
    let '(es, err) := sendEmail (emailTo ?? "") subject text in (tsends ++ es, err)
  else if js_truthy (EMAIL_TO penv) && js_truthy (SMTP_USER penv) && js_truthy (SMTP_PASS penv) then
    let '(es, err) := sendEmail (EMAIL_TO penv ?? "") subject text in (tsends ++ es, err)
  else (tsends, None).
End Senders.

(** ** Properties *)

Section Proofs.
Context {transport : Transport} (penv : RawEnv).

(** [notifyAny] never sends more than two messages, the Telegram post
    first; a second send is an e-mail, made only when the post was not
    made or its [fetch] rejected. *)
Theorem notifyAny_sends emailTo text :
  let '(sends, _) := notifyAny penv emailTo text in
  (length sends <= 2)%nat /\
  (forall m, SendEmail m ∈ sends ->
     mail_subject m = subject /\ mail_text m = text /\
     match (sendTelegram penv text).2 with inr true => False | _ => True end).
Proof.
  unfold notifyAny.
  destruct (sendTelegram penv text) as [ts tr] eqn:Ht.
  assert (Hlen : (length ts <= 1)%nat /\ forall m, SendEmail m ∉ ts).
  { unfold sendTelegram in Ht. destruct (js_truthy _ && js_truthy _); simplify_eq; split; simpl; try lia;
      intros ? Hm; rewrite ?list_elem_of_singleton, ?elem_of_nil in Hm; done. }
  destruct Hlen as [Hlen Hno].
  destruct tr as [msg|[]]; simpl;
    repeat case_if; simpl; (split; [rewrite ?length_app; simpl; lia|]);
    intros m Hm; rewrite ?elem_of_app, ?list_elem_of_singleton in Hm;
    naive_solver.
Qed.
End Proofs.

(** ** Findings *)

(** Telegram configured, the Bot API refuses the post with 403, and
    mail is ready: the older [notifyAny] counts the refused post as
    delivered and sends no e-mail. *)
Definition telegram_and_mail : RawEnv :=
  {| PORT := None; BOOKER_GPT_TOKEN := Some "0123456789abcdef"; UBC_USER := Some "user";
     UBC_PASS := Some "secret"; EMAIL_FROM := Some "bot@example.com"; EMAIL_TO := Some "me@example.com";
     SMTP_HOST := Some "smtp.example.com"; SMTP_PORT := None; SMTP_USER := Some "u"; SMTP_PASS := Some "p";
     TELEGRAM_BOT_TOKEN := Some "123:abc"; TELEGRAM_CHAT_ID := Some "42" |}.

Example notifyAny_ignores_http_status :
  notifyAny (transport := forbidden_transport) telegram_and_mail None "Court free at 19:00" =
  ([SendTelegram "https://api.telegram.org/bot123:abc/sendMessage" (telegram_body "42" "Court free at 19:00")],
   None).
Proof. reflexivity. Qed.
End OldNotify.
