(* ===== verification/OldApi.v ===== *)
(** * The older revisions of the HTTP API

    [src/src/index.ts] holds two earlier revisions of [index.ts], one
    after the other:
    - the first (lines 1-81): [requireBearer], [/health], [/check_now]
      with [safeParse] and no [try], and a [/notify] that mails the
      payload's address or [EMAIL_TO] through the first notifier
      ([src/unnamed/part_000], lines 1-20);
    - the second (lines 82-265): [/], [/health], [/check_now] in a
      [try], and a [/notify] with its own Telegram and e-mail senders
      that read [process.env].
    Both read [process.env] directly ([Config.RawEnv]) and share the
    JSON values, the zod parsers and the responses of [Api.v]. In the
    first revision an exception of an [async] handler is not caught
    and no response is written: the outcome [Unhandled]. *)

From S2P Require Import Prelude JsString Preferences Slots Browser Auth Scanner Config Notify OldNotify Api.

Module OldApi.
Import Browser Slots Config Notify Api.

(** What a request leads to: a response, or a rejected handler that
    answers nothing. *)
Inductive Outcome := Answered (r : Response) | Unhandled (msg : string).

(** [function requireBearer(req, res, next)] of both revisions: the
    token is compared with [process.env.BOOKER_GPT_TOKEN]. *)
Definition requireBearer (penv : RawEnv) (authorization : option string) : bool :=
  let header := authorization ?? "" in
  let token := if Js.starts_with header "Bearer " then String.substring 7 (String.length header - 7) header
               else "" in
  negb (bool_decide (token = "") || negb (bool_decide (Some token = BOOKER_GPT_TOKEN penv))).

(** [res.status(400).json({ error: parsed.error.message })] *)
Definition zod_error (zod_message : list ZIssue -> string) (iss : list ZIssue) : Response :=
  {| status := 400; body := JsonBody (JObj [("error", JStr (zod_message iss))]) |}.

Module V1.
Section App.
Context {portal : Portal} {transport : Transport}.
Context (penv : RawEnv) (aenv : Auth.ProcessEnv).
Variables (is_email : string -> bool) (zod_message : list ZIssue -> string) (now_ms : Z).

(** [z.object({ notify: NotifySchema, text, priority })]: [notify] is
    required. *)
Definition NotifyRequestSchema : Parser (NotifyTarget * string) :=
  z_object (fun o =>
    inr (fun n t (_ : option Priority) => (n, t))
      <*>ᶻ z_field o "notify" (NotifyObject is_email)
      <*>ᶻ z_field o "text" z_string
      <*>ᶻ z_field o "priority" (z_optional (z_enum [("info", Info); ("warn", Warn); ("urgent", Urgent)]))).

(** [app.post("/check_now", ...)]: an error of [checkAvailability]
    escapes the handler. *)
Definition check_now (b : option Json) : M Outcome :=
  match CheckNowSchema b with
  | inl iss => ret (Answered (zod_error zod_message iss))
  | inr prefs =>
      try_catch (slots <- Scanner.checkAvailability aenv prefs ;;
                 ret (Answered (ok_json [("slots", JArr (slot_json <$> slots))])))
                (fun e => ret (Unhandled (exn_message e)))
  end.

(** [app.post("/notify", ...)] *)
Definition notify_route (b : option Json) : list Send * Outcome :=
  match NotifyRequestSchema b with
  | inl iss => ([], Answered (zod_error zod_message iss))
  | inr (n, text) =>
      let sent :=
        if OldNotify.js_truthy (email n) then OldNotify.sendEmail penv (email n ?? "") OldNotify.subject text
        else if OldNotify.js_truthy (EMAIL_TO penv) then
          OldNotify.sendEmail penv (EMAIL_TO penv ?? "") OldNotify.subject text
        else ([], None) in
      (sent.1, match sent.2 with
               | Some m => Unhandled m
               | None => Answered (ok_json [("ok", JBool true)])
               end)
  end.

Definition guarded (r : HttpRequest) (k : M (list Send * Outcome)) : M (list Send * Outcome) :=
  if requireBearer penv (req_authorization r) then k else ret ([], Answered unauthorized).

(** The routes of the first revision. *)
Definition app (r : HttpRequest) : M (list Send * Outcome) :=
  let m := req_method r in
  let p := req_path r in
  if is_get m && route_is "/health" p then ret ([], Answered (ok_json [("ok", JBool true); ("ts", JNum now_ms)]))
  else if bool_decide (m = "POST") && route_is "/check_now" p then
    guarded r (o <- check_now (req_body r) ;; ret ([], o))
  else if bool_decide (m = "POST") && route_is "/notify" p then guarded r (ret (notify_route (req_body r)))
  else ret ([], Answered {| status := 404; body := NoRoute m p |}).
End App.
End V1.

Module V2.
Section App.
Context {portal : Portal} {transport : Transport}.
Context (penv : RawEnv) (aenv : Auth.ProcessEnv).
Variables (is_email : string -> bool) (zod_message : list ZIssue -> string) (now_ms : Z).

(** [async function sendTelegramMessage(text, chatId)] *)
Definition sendTelegramMessage (text chatId : string) : list Send * option string :=
  if negb (OldNotify.js_truthy (TELEGRAM_BOT_TOKEN penv)) then ([], Some "TELEGRAM_BOT_TOKEN is not set")
  else
    let url := "https://api.telegram.org/bot" +:+ (TELEGRAM_BOT_TOKEN penv ?? "") +:+ "/sendMessage" in
    let body := telegram_body chatId text in
    ([SendTelegram url body],
     match fetch_post url body with
     | Notify.Response true _ _ => None
     | Notify.Response false status b => Some ("Telegram sendMessage failed: " +:+ Js.Z_to_string status +:+ " " +:+ b)
     | FetchError m => Some m
     end).

(** [async function sendEmailMessage(to, text)] *)
Definition sendEmailMessage (to text : string) : list Send * option string :=
  OldNotify.sendEmail penv to OldNotify.subject text.

Definition no_recipient : string :=
  "No email recipient set. Provide notify.email or set EMAIL_TO on the server.".
Definition no_notifier : string :=
  "No notifier configured. Set TELEGRAM_BOT_TOKEN/TELEGRAM_CHAT_ID or SMTP_* env vars.".

(** [!!SMTP_HOST && !!SMTP_USER && !!SMTP_PASS && !!EMAIL_FROM] *)
Definition smtpReady : bool :=
  OldNotify.js_truthy (SMTP_HOST penv) && OldNotify.js_truthy (SMTP_USER penv) &&
  OldNotify.js_truthy (SMTP_PASS penv) && OldNotify.js_truthy (EMAIL_FROM penv).

(** The answer to a send: the error is answered 502. *)
Definition answer (sent : list Send * option string) (ok : list (string * Json)) : list Send * Response :=
  (sent.1, match sent.2 with
           | Some m => error_detail 502 "Notify failed" (m ||ₛ "Error")
           | None => ok_json (("ok", JBool true) :: ok)
           end).

(** [app.post("/notify", ...)] of the second revision. *)
Definition notify_route (b : option Json) : list Send * Response :=
  match NotifyRequestSchema is_email b with
  | inl iss => ([], error_detail 502 "Notify failed" (zod_message iss))
  | inr p =>
      let userChatId := Js.trim ((notify_target p ≫= telegram_chat_id) ?? "") in
      let envChatId := Js.trim (TELEGRAM_CHAT_ID penv ?? "") in
      let chatIdToUse := userChatId ||ₛ envChatId in
      if negb (bool_decide (chatIdToUse = "")) && OldNotify.js_truthy (TELEGRAM_BOT_TOKEN penv) then
        answer (sendTelegramMessage (text p) chatIdToUse) [("via", JStr "telegram"); ("chat_id", JStr chatIdToUse)]
      else if smtpReady then
        let to := Js.trim (((notify_target p ≫= email) ?? "") ||ₛ (EMAIL_TO penv ?? "")) in
        if bool_decide (to = "") then ([], {| status := 400; body := JsonBody (JObj [("error", JStr no_recipient)]) |})
        else answer (sendEmailMessage to (text p)) [("via", JStr "email"); ("to", JStr to)]
      else ([], {| status := 500; body := JsonBody (JObj [("error", JStr no_notifier)]) |})
  end.

Definition guarded (r : HttpRequest) (k : M (list Send * Response)) : M (list Send * Response) :=
  if requireBearer penv (req_authorization r) then k else ret ([], unauthorized).

(** The routes of the second revision; [/check_now] is the current
    handler. *)
Definition app (r : HttpRequest) : M (list Send * Response) :=
  let m := req_method r in
  let p := req_path r in
  if is_get m && route_is "/" p then
    ret ([], {| status := 200; body := TextBody "UBC Tennis Booker API is running. Try GET /health" |})
  else if is_get m && route_is "/health" p then ret ([], ok_json [("ok", JBool true); ("ts", JNum now_ms)])
  else if bool_decide (m = "POST") && route_is "/check_now" p then
    guarded r (resp <- check_now aenv zod_message (req_body r) ;; ret ([], resp))
  else if bool_decide (m = "POST") && route_is "/notify" p then guarded r (ret (notify_route (req_body r)))
  else ret ([], {| status := 404; body := NoRoute m p |}).
End App.
End V2.
(** ** Properties *)

(** Both revisions refuse every request when [BOOKER_GPT_TOKEN] is not
    set. *)
Lemma requireBearer_unset penv a : BOOKER_GPT_TOKEN penv = None -> requireBearer penv a = false.
Proof. intros Hn. unfold requireBearer. rewrite Hn. rewrite (bool_decide_eq_false_2 (Some _ = None)) by done. by rewrite orb_true_r. Qed.

Lemma js_truthy_Some v : OldNotify.js_truthy v = true -> exists s, v = Some s /\ s <> "".
Proof. destruct v as [s|]; simpl; [|done]. case_bool_decide; [done|eauto]. Qed.

Section V2Proofs.
Context {transport : Transport} (penv : RawEnv) (is_email : string -> bool) (zod_message : list ZIssue -> string).

(** The second revision sends an e-mail only when [SMTP_HOST],
    [SMTP_USER], [SMTP_PASS] and [EMAIL_FROM] are all set, and the mail
    then carries a host, credentials and a sender. The current
    notifier lost this check (see [Config.smtp_without_credentials]). *)
Theorem v2_mail_needs_smtp b m :
  SendEmail m ∈ (V2.notify_route penv is_email zod_message b).1 ->
  V2.smtpReady penv = true /\ is_Some (mail_host m) /\ is_Some (mail_user m) /\ is_Some (mail_pass m) /\
  is_Some (mail_from m).
Proof.
  unfold V2.notify_route. destruct (NotifyRequestSchema is_email b) as [|p]; simpl; [by intros ?%elem_of_nil|].
  repeat case_if; simpl; unfold V2.answer, V2.sendTelegramMessage; simpl; try case_if; simpl;
    rewrite ?list_elem_of_singleton, ?elem_of_nil; try done.
  intros [= Hm]; subst m. unfold V2.smtpReady in *. apply andb_prop in E0 as [[[Hh Hu]%andb_prop Hp]%andb_prop Hf].
  apply js_truthy_Some in Hh as (? & Hh & _), Hu as (? & Hu & _), Hp as (? & Hp & _), Hf as (? & Hf & _).
  unfold OldNotify.mail_of; simpl. rewrite Hh, Hu, Hp, Hf. split_and!; done.
Qed.
End V2Proofs.

(** ** Findings *)

Definition host_only : RawEnv :=
  {| PORT := None; BOOKER_GPT_TOKEN := Some "0123456789abcdef"; UBC_USER := Some "user";
     UBC_PASS := Some "secret"; EMAIL_FROM := None; EMAIL_TO := Some "me@example.com";
     SMTP_HOST := Some "smtp.example.com"; SMTP_PORT := None; SMTP_USER := None; SMTP_PASS := None;
     TELEGRAM_BOT_TOKEN := None; TELEGRAM_CHAT_ID := None |}.

Definition hello_json : Json := JObj [("text", JStr "Court free at 19:00")].

(** With only [SMTP_HOST] and [EMAIL_TO] set, the second revision
    answers 500 and sends nothing. *)
Example v2_host_only_refused :
  V2.notify_route (transport := forbidden_transport) host_only any_url zod_stub (Some hello_json) =
  ([], {| status := 500; body := JsonBody (JObj [("error", JStr V2.no_notifier)]) |}).
Proof. reflexivity. Qed.

Definition nothing_set : RawEnv :=
  {| PORT := None; BOOKER_GPT_TOKEN := Some "0123456789abcdef"; UBC_USER := Some "user";
     UBC_PASS := Some "secret"; EMAIL_FROM := None; EMAIL_TO := None; SMTP_HOST := None; SMTP_PORT := None;
     SMTP_USER := None; SMTP_PASS := None; TELEGRAM_BOT_TOKEN := None; TELEGRAM_CHAT_ID := None |}.

(** The first revision answers [{ ok: true }] to a notification it did
    not send: no address in the payload and no [EMAIL_TO]. *)
Example v1_ok_without_send :
  V1.notify_route (transport := forbidden_transport) nothing_set any_url zod_stub
    (Some (JObj [("notify", JObj []); ("text", JStr "Court free at 19:00")])) =
  ([], Answered (ok_json [("ok", JBool true)])).
Proof. reflexivity. Qed.

(** The first revision's [/check_now] lets a scan error escape: no
    response is written. *)
Example v1_scan_error_unanswered :
  fst (V1.app (portal := Scanner.broken_facility_site) (transport := forbidden_transport) nothing_set
         Auth.demo_env any_url zod_stub 0
         (post "/check_now" demo_auth (JObj [("preferences", JObj [])])) Scanner.demo_start) =
  Ret ([], Unhandled "net::ERR_NAME_NOT_RESOLVED").
Proof. vm_compute. reflexivity. Qed.

End OldApi.
