(* ===== verification/OldScanner.v ===== *)
(** * The earliest revisions of the scanner

    Two superseded revisions of [ubc.ts], both paired with the older
    configuration of [OldConfig.v], whose [env.ubc.baseUrl] gives the
    [BASE_URL] (lines 24-26 of each):
    - [src/unnamed/part_002] (lines 1-359): the first real scanner. For
      each court it sets the duration radio and the number of players
      (both best effort), then reads every [button] or link whose text
      holds a time as a slot, without looking at whether the time is
      free. Its [ensureLoggedIn] and [inferCourtName] are the code of
      [src/src/ubc.ts], line for line. A scan error falls back to the
      stub slot, but an error of the login or of the first navigation
      escapes. Lines 361-385 hold the placeholder module that came
      before it: a fake slot without a browser.
    - [src/unnamed/part_003] lines 1-168: the stub revision, which logs
      in and returns the stub slot. Its [ensureLoggedIn] is, again, the
      same code.
    The theorems show what a slot of the first scanner carries (today's
    date, the duration asked for, a start hour inside the window), the
    bound on its effects, and that the stub revision and the placeholder
    return only the stub. *)

From S2P Require Import Prelude JsString TimeFormat Preferences Slots Browser Loops Auth Scanner Config OldConfig Legacy.

Module OldScanner.
Import Browser Slots OldConfig.

(** [const BASE_URL = env.ubc.baseUrl ?? DEFAULT_BASE_URL] *)
Definition BASE_URL (env : Env0) : string := baseUrl (ubc0 env) ?? Auth.DEFAULT_BASE_URL.

(** The configuration as [Auth]'s steps read it. *)
Definition penv_of (env : Env0) : Auth.ProcessEnv :=
  {| Auth.UBC_BASE_URL := baseUrl (ubc0 env); Auth.UBC_USER := Some (user0 (ubc0 env));
     Auth.UBC_PASS := Some (pass0 (ubc0 env)) |}.

(** ** The time of a button *)

(** [/(\d{1,2}):(\d{2})\s*(am|pm)?/i] at the start of [s]; the third
    group is [None] when no AM/PM follows. *)
Definition match_time_at (s : string) : option (string * string * option string) :=
  first_some (fun '(hh, r1) =>
    match TimeFormat.rx_colon_mm r1 with
    | Some (mm, r2) =>
        let '(_, r3) := TimeFormat.span_ws r2 in
        Some (hh, mm, fst <$> TimeFormat.rx_ampm true r3)
    | None => None
    end) (TimeFormat.rx_d12 s).

(** [label.match(...)]: the leftmost match. *)
Fixpoint search_time (s : string) : option (string * string * option string) :=
  match match_time_at s with
  | Some m => Some m
  | None => match s with "" => None | String _ s' => search_time s' end
  end.

(** [.filter({ hasText: /(\d{1,2}:\d{2}\s*(am|pm)?)/i })]: the same
    pattern, tested on the element's text. *)
Definition is_time_button (text : string) : bool := bool_decide (is_Some (search_time text)).

(** [n.toString().padStart(2, "0")], of a number that may be [NaN]. *)
Definition two_digits (n : option Z) : string := Js.pad_start 2 "0" (TimeFormat.num_to_string n).

(** The body of the loop over the time buttons (lines 235-267): the
    slot a button adds, if any. [NaN] ([None]) compares false with
    everything and is printed as ["NaN"]. *)
Definition button_slot (todayIso url courtName : string) (prefs : Preferences.Preferences)
    (desiredMinutes : Z) (raw : string) : option Slot :=
  let label := Js.trim raw in
  match search_time label with
  | None => None
  | Some (h, mi, ap) =>
      let hour := Js.parse_int h in
      let minute := Js.parse_int mi in
      let ampm := Js.to_lower <$> ap in
      let hour24 : option Z := if bool_decide (ampm = Some "pm") && negb (bool_decide (hour = Some 12%Z))
                    then (fun x => x + 12)%Z <$> hour else hour in
      let hour24 := if bool_decide (ampm = Some "am") && bool_decide (hour = Some 12%Z)
                    then Some 0%Z else hour24 in
      if Preferences.js_lt hour24 (Preferences.start_hour prefs ?? 0%Z) ||
         Preferences.js_ge hour24 (Preferences.end_hour prefs ?? 24%Z)
      then None
      else Some {| date_iso := todayIso; time_24h := two_digits hour24 +:+ ":" +:+ two_digits minute;
                   minutes := desiredMinutes; location := courtName; deep_link := Some url |}
  end.

Section Scan.
Context {portal : Portal} (env : Env0).

(** [ensureLoggedIn] of [part_002] (lines 30-133), which is also that
    of [part_003] (lines 29-133): the code of [Legacy.ensureLoggedIn],
    with the credentials and the base of the older [env]. *)
Definition ensureLoggedIn (page : nat) : M nat :=
  d <- dom_of page ;;
  if negb (visible ALoginRole d) then ret page
  else
    maybeNewPage <- click page (CAff ALoginRole) WithPopup ;;
    let authPage := maybeNewPage ?? page in
    wait_load authPage DomContentLoaded None ;;
    authPage <- Auth.cwl_step authPage ;;
    wait_for authPage WUsername 60000 ;;
    wait_for authPage WPassword 60000 ;;
    fill authPage FUsername (user0 (ubc0 env)) ;;
    fill authPage FPassword (pass0 (ubc0 env)) ;;
    click_ authPage CSubmit Plain ;;
    wait_load authPage NetworkIdle (Some 60000%Z) ;;
    Auth.return_to_list (penv_of env) authPage ;;
    ret authPage.

(** Step 1 of [scanSingleCourtPage] (lines 171-190): the duration
    radio, clicked when visible; an error is only logged. *)
Definition select_duration (page : nat) (desiredMinutes : Z) : M unit :=
  let radio := ADuration (bool_decide (60 < desiredMinutes)%Z) in
  try_catch (d <- dom_of page ;;
             if visible radio d then click_ page (CAff radio) Plain else ret tt)
            (fun _ => ret tt).

(** Step 2 (lines 192-218): two players when the combobox is visible;
    when [selectOption("2")] fails, the [value] of the first option whose
    text holds a 2, if it has one. An error is only logged. *)
Definition select_players (page : nat) : M unit :=
  try_catch
    (d <- dom_of page ;;
     if visible APlayers d then
       try_catch (perform_ page (SelectOption "2"))
         (fun _ =>
            d <- dom_of page ;;
            match filter (fun o => Js.includes o.1 "2") (dom_player_options d) with
            | (_, Some value) :: _ => if bool_decide (value = "") then ret tt else perform_ page (SelectOption value)
            | _ => ret tt
            end)
     else ret tt)
    (fun _ => ret tt).

(** [async function scanSingleCourtPage(page, prefs, courtName)] (lines
    159-271): the buttons are read after the two selections. *)
Definition scanSingleCourtPage (page : nat) (prefs : Preferences.Preferences) (courtName : string)
    : M (list Slot) :=
  let desiredMinutes := Legacy.getDesiredMinutes prefs in
  select_duration page desiredMinutes ;;
  select_players page ;;
  d <- dom_of page ;;
  todayIso <- today ;;
  u <- url_of page ;;
  ret (omap (button_slot todayIso u courtName prefs desiredMinutes) (filter is_time_button (dom_buttons d))).

(** One turn of the court loop (lines 291-312): the Choose button is
    clicked with [waitForNavigation] (a missing [nth(i)] times out), the
    page scanned, its slots pushed, and the list reloaded. Nothing is
    caught. *)
Definition court_step (page : nat) (prefs : Preferences.Preferences) (i : nat) (slots : list Slot)
    : M (list Slot) :=
  courtName <- Legacy.inferCourtName page i ;;
  d <- dom_of page ;;
  match dom_courts d !! i with
  | None => throw Scanner.nth_timeout
  | Some _ =>
      click_ page (CChoose i) WithNavigation ;;
      courtSlots <- scanSingleCourtPage page prefs courtName ;;
      let slots := slots ++ courtSlots in
      goto page (BASE_URL env) NetworkIdle ;;
      ret slots
  end.

(** [async function scanCourtsAndSlots(page, prefs)] (lines 273-316):
    [for (let i = 0; i < maxCourts; i++)] over the court loop's turn. *)
Definition scanCourtsAndSlots (page : nat) (prefs : Preferences.Preferences) : M (list Slot) :=
  d <- dom_of page ;;
  let totalCourts := length (dom_courts d) in
  let maxCourts := Nat.min totalCourts 10 in
  Loops.for_acc 0 maxCourts [] (court_step page prefs).

(** The [try] block of [checkAvailability] (lines 325-356): a scan
    error or an empty scan gives the stub slot; the navigation and the
    login are not guarded. *)
Definition check_body (page : nat) (prefs : Preferences.Preferences) : M (list Slot) :=
  goto page (BASE_URL env) NetworkIdle ;;
  page <- ensureLoggedIn page ;;
  realSlots <- try_catch (scanCourtsAndSlots page prefs) (fun _ => ret []) ;;
  if bool_decide (0 < length realSlots)%nat then ret realSlots
  else
    todayIso <- today ;;
    ret [stub_slot todayIso (BASE_URL env) prefs].

(** [export async function checkAvailability(prefs)] (lines 320-360) *)
Definition checkAvailability (prefs : Preferences.Preferences) : M (list Slot) :=
  launch ;;
  new_context ;;
  page <- new_page ;;
  try_finally (check_body page prefs) close_browser.

(** The stub revision ([part_003], lines 136-168): log in, then the stub. *)
Definition stub_check_body (page : nat) (prefs : Preferences.Preferences) : M (list Slot) :=
  goto page (BASE_URL env) NetworkIdle ;;
  page <- ensureLoggedIn page ;;
  todayIso <- today ;;
  ret [stub_slot todayIso (BASE_URL env) prefs].

Definition stub_checkAvailability (prefs : Preferences.Preferences) : M (list Slot) :=
  launch ;;
  new_context ;;
  page <- new_page ;;
  try_finally (stub_check_body page prefs) close_browser.
End Scan.

(** The placeholder module ([part_002], lines 375-385): no browser, a
    fixed slot on today's date. *)
Definition placeholder_checkAvailability (prefs : Preferences.Preferences) : M (list Slot) :=
  todayIso <- today ;;
  ret [{| date_iso := todayIso; time_24h := "19:00"; minutes := 60;
          location := "UBC Tennis Centre – Indoor Court 3"; deep_link := None |}].

(** ** What a slot of the first scanner carries *)

(** Today's date, the duration the preferences ask for (60 or 120
    minutes, whatever the page offers), and a 24-hour time whose hour is
    inside the [start_hour]..[end_hour] window. *)
Definition button_ok (td : string) (prefs : Preferences.Preferences) (sl : Slot) : Prop :=
  date_iso sl = td /\ minutes sl = Legacy.getDesiredMinutes prefs /\
  exists h m, time_24h sl = two_digits (Some h) +:+ ":" +:+ two_digits (Some m) /\
    (Preferences.start_hour prefs ?? 0 <= h < Preferences.end_hour prefs ?? 24)%Z.

Lemma getDesiredMinutes_cases prefs : Legacy.getDesiredMinutes prefs = 60%Z \/ Legacy.getDesiredMinutes prefs = 120%Z.
Proof. unfold Legacy.getDesiredMinutes. case_bool_decide; auto. Qed.

Lemma match_time_at_digits s h mi ap :
  match_time_at s = Some (h, mi, ap) -> h <> "" /\ Js.all_digits h = true /\ mi <> "" /\ Js.all_digits mi = true.
Proof.
  unfold match_time_at. intros ([hh r1] & Hin & Hf)%first_some_Some.
  destruct (TimeFormat.rx_colon_mm r1) as [[mm r2]|] eqn:Hc; [|discriminate].
  destruct (TimeFormat.span_ws r2). injection Hf as <- <- _.
  apply TimeFormat.rx_d12_digits in Hin. apply TimeFormat.rx_colon_mm_digits in Hc. naive_solver.
Qed.

Lemma search_time_digits s h mi ap :
  search_time s = Some (h, mi, ap) -> h <> "" /\ Js.all_digits h = true /\ mi <> "" /\ Js.all_digits mi = true.
Proof.
  induction s as [|c s IH]; [simpl; discriminate|]. cbn [search_time].
  destruct (match_time_at (String c s)) as [[[h' mi'] ap']|] eqn:E; [|exact IH].
  intros [= <- <- <-]. exact (match_time_at_digits _ _ _ _ E).
Qed.

Lemma button_slot_ok td u name prefs raw sl :
  button_slot td u name prefs (Legacy.getDesiredMinutes prefs) raw = Some sl -> button_ok td prefs sl.
Proof.
  unfold button_slot. destruct (search_time _) as [[[h mi] ap]|] eqn:Hs; [|done].
  apply search_time_digits in Hs as (? & ? & ? & ?).
  rewrite !Js.parse_int_digits by done. cbn [fmap option_fmap option_map].
  match goal with |- (if ?c then _ else _) = _ -> _ => destruct c eqn:Hw end; [done|].
  intros [= <-]. apply orb_false_iff in Hw as [Hlt Hge].
  split_and!; [done | done |]. repeat case_match; simpl in *; eexists _, _;
    (split; [reflexivity|]); apply bool_decide_eq_false in Hlt, Hge; lia.
Qed.

Section Invariant.
Context {portal : Portal} (env : Env0) (prefs : Preferences.Preferences) (page : nat) (td : string).

Lemma early_page_ok courtName :
  yields td (scanSingleCourtPage page prefs courtName) (Forall (button_ok td prefs)).
Proof.
  unfold scanSingleCourtPage, select_duration, select_players. yields_skip. yields_skip. yields_skip.
  eapply yields_bind; [keeps_tac | apply yields_today | intros ? ->]. yields_skip.
  apply yields_ret. apply Forall_forall. intros sl (raw & _ & Hr)%list_elem_of_omap. by eapply button_slot_ok.
Qed.

Lemma early_page_keeps courtName : keeps_today (scanSingleCourtPage page prefs courtName).
Proof. unfold scanSingleCourtPage, select_duration, select_players. keeps_tac. Qed.

Lemma court_step_keeps i slots : keeps_today (court_step env page prefs i slots).
Proof. unfold court_step, Legacy.inferCourtName. keeps_tac; apply early_page_keeps. Qed.

Lemma court_step_ok i slots :
  Forall (button_ok td prefs) slots -> yields td (court_step env page prefs i slots) (Forall (button_ok td prefs)).
Proof.
  intros Hs. unfold court_step, Legacy.inferCourtName. yields_skip. yields_skip.
  case_match; [|apply yields_throw]. yields_skip.
  eapply yields_bind; [apply early_page_keeps | apply early_page_ok |].
  intros l Hl. yields_skip. apply yields_ret. by apply Forall_app.
Qed.

(** C26: the loop invariant of the first scanner: every slot its
    [scanCourtsAndSlots] returns carries today's date, the asked
    duration and an hour inside the window, whatever the portal
    answers. *)
Theorem early_scan_invariant :
  yields td (scanCourtsAndSlots env page prefs) (Forall (button_ok td prefs)).
Proof.
  unfold scanCourtsAndSlots. yields_skip.
  apply Loops.yields_for_acc; [apply court_step_keeps | apply court_step_ok | constructor].
Qed.
End Invariant.

(** ** The number of effects *)

Section Costs.
Context {portal : Portal} (env : Env0) (prefs : Preferences.Preferences) (page : nat).

Lemma select_duration_grows m : grows (select_duration page m) 1.
Proof.
  unfold select_duration. eapply grows_mono; [apply grows_try_catch with (a := 1) (b := 0) | lia];
    [grows_auto | intros; apply grows_ret].
Qed.
Lemma select_players_grows : grows (select_players page) 2.
Proof.
  unfold select_players. eapply grows_mono; [apply grows_try_catch with (a := 2) (b := 0) | lia];
    [|intros; apply grows_ret].
  eapply grows_bind_sub with (a := 0); [auto with grows | lia | intros d; cbn [Nat.sub]].
  case_if; [|apply grows_ret]. apply (grows_try_catch _ _ 1 1); [apply grows_perform_ | intros e; grows_auto].
Qed.

#[local] Hint Resolve select_duration_grows select_players_grows : grows.

Lemma early_page_grows courtName : grows (scanSingleCourtPage page prefs courtName) 3.
Proof. unfold scanSingleCourtPage. grows_auto. Qed.
Lemma inferCourtName_grows i : grows (Legacy.inferCourtName page i) 0.
Proof. unfold Legacy.inferCourtName. grows_auto. Qed.

#[local] Hint Resolve early_page_grows inferCourtName_grows : grows.

Lemma court_step_grows i slots : grows (court_step env page prefs i slots) 5.
Proof. unfold court_step. grows_auto. Qed.

(** The first scanner is bounded: whatever the portal answers, its
    [scanCourtsAndSlots] performs at most five effects for each of at
    most ten courts. *)
Theorem early_scanCourtsAndSlots_bounded : grows (scanCourtsAndSlots env page prefs) 50.
Proof.
  unfold scanCourtsAndSlots. eapply grows_bind_sub with (a := 0); [auto with grows | lia | intros d].
  eapply grows_mono; [apply Loops.grows_for_acc, court_step_grows | lia].
Qed.

End Costs.

(** ** The stub revision and the placeholder *)

Section Stubs.
Context {portal : Portal} (env : Env0) (prefs : Preferences.Preferences).

Lemma ensureLoggedIn_keeps page : keeps_today (ensureLoggedIn env page).
Proof. unfold ensureLoggedIn, Auth.cwl_step, Auth.return_to_list. keeps_tac. Qed.

(** the stub revision answers only the stub: started on date [td], every
    list its [checkAvailability] returns is the one stub slot of [td],
    with the older [env]'s base as its link. *)
Theorem stub_checkAvailability_stub td :
  yields td (stub_checkAvailability env prefs) (fun l => l = [stub_slot td (BASE_URL env) prefs]).
Proof.
  unfold stub_checkAvailability. yields_skip. yields_skip. yields_skip.
  apply yields_try_finally. unfold stub_check_body. yields_skip.
  eapply yields_bind; [apply ensureLoggedIn_keeps | apply yields_true | intros ? _].
  eapply yields_bind; [keeps_tac | apply yields_today | intros ? ->]. by apply yields_ret.
Qed.
End Stubs.

(** The placeholder performs no effect. *)
Lemma placeholder_no_effect {portal : Portal} prefs s : snd (placeholder_checkAvailability prefs s) = s.
Proof. done. Qed.

(** ** Witnesses and findings *)

Definition early_env : Env0 :=
  {| port0 := None; bookerToken0 := "0123456789abcdef";
     ubc0 := {| user0 := "user"; pass0 := "secret"; baseUrl := None |}; smtp0 := None; telegram0 := None |}.

(** A facility page of the first scanner's time: the one-hour radio, the
    players box, and five buttons: a header link, a free 7:00 PM, a
    booked 8:30 pm, a 9:75 PM that is no time of day, and a morning time. *)
Definition early_facility : Dom :=
  {| dom_visible := [ADuration false; APlayers]; dom_courts := []; dom_facility_name := None; dom_spans := [];
     dom_attendees := []; dom_body := ""; dom_error := None; dom_alert := None; dom_confirmation := None;
     dom_tables := []; dom_player_options := [("1 player", Some "1"); ("2 players", Some "2")];
     dom_buttons := ["Login"; "7:00 PM"; "Booked 8:30 pm"; "9:75 PM"; "10:00 am"] |}.

(** Choose opens the facility page; everything else is the static site. *)
Definition early_site : Portal :=
  {| respond := fun tr cur r =>
       match r with
       | Click (CChoose _) WithNavigation =>
           Ok {| tab_url := Scanner.demo_facility_url; tab_dom := early_facility |} None
       | _ => site_respond [(Auth.DEFAULT_BASE_URL, Scanner.demo_list)] tr cur r
       end |}.

Definition early_slot (t : string) : Slot :=
  {| date_iso := "2026-11-09"; time_24h := t; minutes := 60; location := "Court 01 Choose";
     deep_link := Some Scanner.demo_facility_url |}.

(** every button whose text holds a time inside the window is a slot:
    the booked 8:30 pm as well as the free 7:00 PM, and 9:75 PM as the
    time "21:75". *)
Example early_scan_reads_every_time :
  fst (checkAvailability (portal := early_site) early_env Scanner.evening Scanner.demo_start) =
  Ret [early_slot "19:00"; early_slot "20:30"; early_slot "21:75"].
Proof. vm_compute. reflexivity. Qed.

End OldScanner.
