(* ===== verification/Region.v ===== *)
(** * The region check ([src/unnamed/part_006])

    [checkRegion(region, check = isValidHostLabel)] validates an AWS region
    name once and remembers it in the module-level [Set] [validRegions]:
    a region already in the set is accepted without calling [check]; a
    new one is added when [check] accepts it, and an [Error] is thrown
    otherwise.
    - The set is one shared object for every caller of the module, so it
      is modelled as an explicit [gset string] threaded through a
      sequence of calls ([run]), each call carrying its own [check].
    - [check] is a pure boolean function; the default, [isValidHostLabel]
      of [@smithy/util-endpoints], is a library function and is left a
      parameter: every theorem holds for every [check].
    - A thrown [Error] is [inl] of its message.
    The theorems: the cache only holds regions some caller's check
    accepted (rule induction on [reachable]); an accepted region stays
    accepted whatever check a later caller passes; and the calls refine
    the stateless contract [spec_run]. *)

From stdpp Require Import gmap sets.
From S2P Require Import Prelude.

Module Region.

(** [`Region not accepted: region="${region}" is not a valid hostname component.`] *)
Definition dq : string := String (Ascii.ascii_of_nat 34) "".

Definition region_error (region : string) : string :=
  "Region not accepted: region=" +:+ dq +:+ region +:+ dq +:+ " is not a valid hostname component.".

(** [const validRegions = new Set()] *)
Definition validRegions0 : gset string := ∅.

(** [export const checkRegion = (region, check = isValidHostLabel) => {
      if (!validRegions.has(region) && !check(region)) throw new Error(...);
      else validRegions.add(region); }] *)
Definition checkRegion (check : string -> bool) (region : string) (validRegions : gset string)
    : (string + unit) * gset string :=
  if negb (bool_decide (region ∈ validRegions)) && negb (check region)
  then (inl (region_error region), validRegions)
  else (inr tt, {[region]} ∪ validRegions).

(** A call of [checkRegion] by some caller, with the check it passes. *)
Record Call := { call_check : string -> bool; call_region : string }.

(** A sequence of calls sharing the module's set: the outcome of each. *)
Fixpoint run (calls : list Call) (validRegions : gset string) : list (string + unit) * gset string :=
  match calls with
  | [] => ([], validRegions)
  | c :: cs =>
      let '(o, st) := checkRegion (call_check c) (call_region c) validRegions in
      let '(os, st') := run cs st in (o :: os, st')
  end.

(** The sets the module can hold when every caller passes a check that
    accepts only regions satisfying [ok], by rule induction on the calls. *)
Inductive reachable (ok : string -> Prop) : gset string -> Prop :=
  | reach_init : reachable ok validRegions0
  | reach_call st check region :
      (forall x, check x = true -> ok x) -> reachable ok st ->
      reachable ok (snd (checkRegion check region st)).

(** The contract of the cache, without state: a call is accepted exactly
    when this call's check, or the check of an earlier call with the same
    region, accepts the region. [seen] holds the earlier calls. *)
Definition accepted_by (region : string) (h : Call) : bool :=
  bool_decide (call_region h = region) && call_check h region.

Fixpoint spec_run (seen : list Call) (calls : list Call) : list (string + unit) :=
  match calls with
  | [] => []
  | c :: cs =>
      (if existsb (accepted_by (call_region c)) (c :: seen) then inr tt
       else inl (region_error (call_region c))) :: spec_run (c :: seen) cs
  end.

(** The set the contract predicts: the regions some call accepted. *)
Definition cache_of (seen : list Call) (st : gset string) : Prop :=
  forall r, r ∈ st <-> existsb (accepted_by r) seen = true.

(** ** Lemmas *)

(** The two branches of [checkRegion]. *)
Lemma checkRegion_cases check region st :
  ((region ∈ st \/ check region = true) /\ checkRegion check region st = (inr tt, {[region]} ∪ st)) \/
  (region ∉ st /\ check region = false /\ checkRegion check region st = (inl (region_error region), st)).
Proof.
  unfold checkRegion. destruct (decide (region ∈ st)) as [Hin|Hn].
  - rewrite bool_decide_eq_true_2 by done. auto.
  - rewrite bool_decide_eq_false_2 by done. destruct (check region); auto.
Qed.

Ltac region_cases check region st :=
  destruct (checkRegion_cases check region st) as [[? ->]|(? & ? & ->)]; cbn [fst snd].

Lemma checkRegion_cached check region st :
  region ∈ st -> checkRegion check region st = (inr tt, st).
Proof.
  intros Hin. region_cases check region st; [|done]. do 2 f_equal. set_solver.
Qed.

Lemma checkRegion_grows check region st : st ⊆ snd (checkRegion check region st).
Proof. region_cases check region st; set_solver. Qed.

(** The set after a call holds the region exactly when the call accepted
    it, and holds nothing else new. *)
Lemma checkRegion_mem check region st :
  (fst (checkRegion check region st) = inr tt <-> region ∈ snd (checkRegion check region st)) /\
  (forall x, x ∈ snd (checkRegion check region st) -> x ∈ st \/ (x = region /\ check region = true)).
Proof.
  region_cases check region st.
  - split; [split; [intros _; set_solver | done]|].
    intros x [->%elem_of_singleton|?]%elem_of_union; [naive_solver | auto].
  - split; [split; [done | set_solver]|]. auto.
Qed.

Lemma run_grows cs st : st ⊆ snd (run cs st).
Proof.
  revert st. induction cs as [|c cs IH]; intros st; simpl; [done|].
  pose proof (checkRegion_grows (call_check c) (call_region c) st) as Hg.
  destruct (checkRegion _ _ st) as [o st1]. specialize (IH st1).
  destruct (run cs st1) as [os st2]. simpl in *. by transitivity st1.
Qed.

Lemma cache_of_step seen st c :
  cache_of seen st -> cache_of (c :: seen) (snd (checkRegion (call_check c) (call_region c) st)).
Proof.
  intros Hst r. simpl. rewrite orb_true_iff, <- (Hst r). unfold accepted_by at 1.
  rewrite andb_true_iff, bool_decide_eq_true. clear Hst.
  region_cases (call_check c) (call_region c) st; [|split; [auto | intros [[<- ?]|?]; [congruence | auto]]].
  rewrite elem_of_union, elem_of_singleton. split; [|intros [[<- _]|?]; auto].
  intros [->|?]; [naive_solver | auto].
Qed.

Lemma run_spec seen cs st :
  cache_of seen st -> fst (run cs st) = spec_run seen cs /\ cache_of (rev cs ++ seen) (snd (run cs st)).
Proof.
  revert seen st. induction cs as [|c cs IH]; intros seen st Hst; [done|]. simpl.
  pose proof (cache_of_step seen st c Hst) as Hst'.
  assert (Ho : fst (checkRegion (call_check c) (call_region c) st) =
    if existsb (accepted_by (call_region c)) (c :: seen) then inr tt
    else inl (region_error (call_region c))).
  { destruct (existsb _ _) eqn:E.
    - by apply (proj2 (proj1 (checkRegion_mem _ _ st))), (proj2 (Hst' _)).
    - apply not_true_iff_false in E. rewrite <- (Hst' _) in E.
      revert E. region_cases (call_check c) (call_region c) st; [set_solver | done]. }
  destruct (checkRegion _ _ st) as [o st1]. simpl in Ho, Hst'.
  destruct (IH (c :: seen) st1 Hst') as [H1 H2]. destruct (run cs st1) as [os st2].
  simpl in *. rewrite <- app_assoc. by subst.
Qed.

Lemma existsb_rev {A} (f : A -> bool) l : existsb f (rev l) = existsb f l.
Proof.
  apply eq_bool_prop_intro. rewrite !Is_true_true, !existsb_exists.
  setoid_rewrite <- in_rev. done.
Qed.

(** ** Properties *)

(** C27: as long as every caller passes a check that accepts only regions
    satisfying [ok] (the default [isValidHostLabel], say), the module's set
    only ever holds regions satisfying [ok]: the cache never accepts a
    region no check accepted. *)
Theorem cache_sound ok st : reachable ok st -> forall x, x ∈ st -> ok x.
Proof.
  induction 1 as [|st check region Hok Hr IH]; [by intros ? ?%elem_of_empty|].
  intros x Hx. destruct ((proj2 (checkRegion_mem check region st)) x Hx) as [Hin|[-> Hc]]; auto.
Qed.

Definition only_ca (x : string) : bool := String.eqb x "ca-central-1".

Lemma cache_sound_witness :
  let st := snd (checkRegion only_ca "ca-central-1"
                   (snd (checkRegion only_ca "Bad_Region!" validRegions0))) in
  reachable (fun x => x = "ca-central-1") st /\ "ca-central-1" ∈ st /\ "ca-central-1" = "ca-central-1".
Proof.
  intros st. assert (Hok : forall x, only_ca x = true -> x = "ca-central-1").
  { intros x. unfold only_ca. by intros ->%String.eqb_eq. }
  assert (Hr : reachable (fun x => x = "ca-central-1") st) by (by repeat constructor).
  assert (Hin : "ca-central-1" ∈ st) by (apply (proj1 (checkRegion_mem _ _ _)); reflexivity).
  split; [exact Hr|]. split; [exact Hin|]. exact (cache_sound _ st Hr _ Hin).
Defined.

(** once a call has accepted a region, every later call with that
    region returns normally, whatever calls came in between and whatever
    check the later caller passes: the verdict is cached per region, not
    per check, so a region accepted under a permissive check is accepted
    later without the default [isValidHostLabel] ever running on it. *)
Theorem accepted_stays_accepted check region st cs check' :
  fst (checkRegion check region st) = inr tt ->
  checkRegion check' region (snd (run cs (snd (checkRegion check region st)))) =
    (inr tt, snd (run cs (snd (checkRegion check region st)))).
Proof.
  intros Hacc. apply checkRegion_cached, run_grows.
  by apply (proj1 (checkRegion_mem check region st)).
Qed.

Lemma accepted_stays_accepted_witness :
  fst (checkRegion (fun _ => true) "Bad_Region!" validRegions0) = inr tt /\
  checkRegion only_ca "Bad_Region!"
    (snd (run [{| call_check := only_ca; call_region := "us-west-2" |}]
              (snd (checkRegion (fun _ => true) "Bad_Region!" validRegions0)))) =
    (inr tt, snd (run [{| call_check := only_ca; call_region := "us-west-2" |}]
              (snd (checkRegion (fun _ => true) "Bad_Region!" validRegions0)))).
Proof.
  assert (H : fst (checkRegion (fun _ => true) "Bad_Region!" validRegions0) = inr tt) by reflexivity.
  split; [exact H | exact (accepted_stays_accepted _ _ _ _ only_ca H)].
Defined.

(** [checkRegion] is idempotent: calling it a second time with the
    same region and check, on the set the first call left, gives the same
    outcome (the same error, or a normal return) and the same set. *)
Theorem checkRegion_idempotent check region st :
  checkRegion check region (snd (checkRegion check region st)) = checkRegion check region st.
Proof.
  destruct (checkRegion_cases check region st) as [[? E]|(? & ? & E)]; rewrite E; cbn [snd];
    [apply checkRegion_cached; set_solver | exact E].
Qed.

(** C28: refinement of the contract. From the module's initial empty
    set, the outcomes of any sequence of calls are those of the stateless
    contract [spec_run] (a call is accepted exactly when its check or the
    check of an earlier call with the same region accepts the region), and
    the set left holds exactly the regions some call accepted. *)
Theorem run_refines cs :
  fst (run cs validRegions0) = spec_run [] cs /\
  (forall r, r ∈ snd (run cs validRegions0) <-> existsb (accepted_by r) cs = true).
Proof.
  destruct (run_spec [] cs validRegions0) as [H1 H2].
  - intros r. unfold validRegions0. rewrite elem_of_empty. done.
  - split; [done|]. intros r. rewrite (H2 r), app_nil_r. by rewrite existsb_rev.
Qed.

End Region.
